(* ===== verification/_CoqProject ===== *)
-Q . S2P
Prelude.v
JsString.v
Record.v
Url.v
TextFormat.v
Json.v
JsonText.v
Merger.v
Import.v
Markup.v
Export.v
Status.v
App.v
