(* ===== verification/Prelude.v ===== *)
(** * A verification development of the cross-platform password manager

    The program (src/options.js, src/popup.js) is a browser extension that
    keeps site/user/password triples in browser storage and shows them on
    two surfaces: the options page (src/options.js, storage area
    [chrome.storage.sync]) and the popup (src/popup.js, storage area
    [chrome.storage.local]).  Both surfaces carry a verbatim copy of the
    same import pipeline: a file is read, a format is chosen from the file
    name and content ([isTextFormat]), the text is parsed by
    [parseJsonFormat] or [parseTextFormat], and the resulting candidates
    are merged into the stored list with a case-insensitive duplicate
    check on (site, user).  The options page can also export the list as
    JSON and delete an entry; the popup can add an entry from three
    prompts and filter the list by a search text.

    Layout of the library (one file per component, in dependency order):
    - [Prelude]     this header; the [pm] hint database and the [pm_rw]
                    rewrite database, the [result] error type with its
                    bind notation in [pm_scope], the Ltac [bool_simpl]
                    and [case_if], and the list lemmas for the
                    [forEach]/[push] idiom ([push_some], [filter_map]).
    - [JsString]    Module [JS]: the JavaScript string built-ins the code
                    calls ([trim], [startsWith], [endsWith], [includes],
                    [replace], [split], [toLowerCase], truthiness, [||])
                    on Latin-1 code units, from ECMA-262.
    - [Record]      the record [{site, user, pass}] ([PasswordRecord]),
                    the duplicate test of the merge loop ([sameCredential],
                    [isDuplicate], options.js 61-64), the identity
                    equivalence with its [Proper] instance, and the record
                    invariant of the spec ([wf_record]).
    - [Url]         the class [UrlParser] standing for
                    [new URL(u).hostname] (a failed parse is [None]) with
                    its law (a host name has no blank), and the instance
                    [whatwg_url], a subset of the WHATWG URL parser.
    - [TextFormat]  [parseTextFormat] and [isTextFormat] (options.js
                    123-179; popup.js 172-213 is the same code), one
                    definition per callback: [textEntries], [entryLines],
                    [scanLine], [resolveSite], [parseEntry].
    - [Json]        JSON values, the class [JsonCodec] standing for
                    [JSON.parse] and [JSON.stringify(_, null, 2)] with its
                    round-trip law, and [parseJsonFormat] (options.js
                    101-121; popup.js 152-170).
    - [JsonText]    the instance [json_text]: the text of
                    [JSON.stringify(v, null, 2)] and a [JSON.parse] on
                    it, with the round-trip law proved for number-free
                    values ([parse_stringify]).
    - [Merger]      the merge loop (options.js 54-72, popup.js 101-116)
                    as [fold_left mergeStep], the reference
                    [dedupAgainst] and the contract [MergeSpec].
    - [Import]      the import handler [importPasswords] (options.js
                    25-99): no file, read error, format choice
                    ([selectFormat]), parser errors, empty import, merge,
                    write and message; [storeInvariant] of a storage area.
    - [Export]      [exportPasswords] (options.js 181-208): the empty
                    error, the JSON text and the dated file name, with
                    [toISOString] on the UTC fields of a [Date].
    - [Markup]      [escapeHtml] (options.js 292-296) and the row
                    markup of both pages: [optionsRowHtml] and
                    [optionsListHtml] (options.js 210-233), [popupRowHtml]
                    and [popupListHtml] (popup.js 37-46).
    - [Status]      the status element of a page ([StatusBox]: its text,
                    its class or inline styles, and the due times of the
                    pending 5000 ms timeouts), [showStatus] (options.js
                    282-290, popup.js 138-150), [advance] for the passing
                    of time, and the message of every outcome.
    - [App]         the browser state ([Browser]: both storage areas, the
                    options page's rendered list, the popup's globals, the
                    file inputs and import buttons, both status elements,
                    the clipboard, the downloads and the clock) and one
                    handler per event ([step] over [Event]: a load of the
                    options page, file choice, import, copy, delete, export; another
                    page's import and delete on the shared sync area; an
                    opening of the popup, add, file choice, import, search,
                    copy; the
                    passing of time), with [reachable] as an inductive
                    relation, the invariants proved by rule induction, and
                    the properties of the composed program over reachable
                    states and concrete event sequences.

    The parsers and handlers are stated over the classes [UrlParser] and
    [JsonCodec]: the general theorems hold for any instance, and the
    concrete runs (vm_compute) use [whatwg_url] and [json_text].

    What is proved, by group:
    - invariants: every record a parser yields is non-empty and trimmed;
      every import, whatever the file, keeps a storage area free of
      malformed records and of duplicate identities; every reachable
      browser state keeps the sync area so (rule induction on
      [reachable]), while the local area only keeps non-empty fields;
      every status element is either empty or has a timeout pending, due
      at most 5000 ms ahead;
    - refinement and equivalence: the [forEach] merge loop computes
      [dedupAgainst] and meets [MergeSpec]; the merge sees records only
      up to case ([Proper] instances over [store_equiv]);
    - functional behaviour of the import (success, every error path
      leaves the store as it was, the button is disabled after a
      success, when every candidate counts as added), of the text parser
      (which entries are dropped, which line wins, no value with [---]),
      of the export, of the copy and delete buttons, of the popup's add
      path and filter;
    - round trips: export then import into an empty store gives the same
      store, a backup exported by the options page restores the list
      through the popup's file input, and re-importing it on the options
      page changes nothing; escaped text decodes back;
    - type and bounds: the exported file is an array of string-valued
      objects; an import adds exactly its added count; escaping lengthens
      a text by exactly the references it writes;
    - safety of the markup: an options row has the tags of its template
      whatever the record holds, a popup row carries the record's tags;
    - liveness: every status message is gone 5000 ms after it was shown,
      in every reachable state; a message shown while an earlier timeout
      is pending is removed by it, before its own delay;
    - concrete runs ([Example]s): the spec's scenarios, and the
      behaviours recorded as findings on fixed inputs (a [---] inside a
      value cuts it; a [file:] URL drops its entry; duplicates inside one
      batch; untrimmed and duplicate records from the popup's add path; a
      delete that removes another record after a concurrent change;
      markup injection in the popup).

    Fuel: [JS.split] recurses on a fuel of the string length plus one;
    [split_fuel_enough] shows any larger fuel gives the same result, so
    the bound is never reached.  [JsonText.parse] runs on a fuel of twice
    the text length plus two; [parse_stringify] shows it returns the
    value on every text [stringify] produces, so the fuel is enough there.

    Time: the timeouts of the status elements are due times on a clock
    in milliseconds, run by the [Wait] event in due order; no fuel is
    involved.

    Not modelled: the pages' static HTML (the import buttons are taken
    to start enabled), event wiring beyond the handler each event runs,
    the copy buttons' 'Copiado!' label and its one-second timer (it
    changes no data); the clipboard write is modelled by its outcome (an
    event parameter).  The asynchronous FileReader is modelled by its
    outcome (the text or a read error), and each storage [get]/[set] chain by the value it
    writes, each handler running to completion.  Characters are 8-bit
    code units (the Latin-1 part of UTF-16), so [toLowerCase] and [trim]
    are exact on that range; JSON numbers are kept as [m * 10^e] and
    left out of the round-trip law. *)

From Stdlib Require Import String Ascii List Bool Lia.
Import ListNotations.

(** ** Scope, hint database *)

Declare Scope pm_scope.
Delimit Scope pm_scope with pm.

Create HintDb pm discriminated.
Create Rewrite HintDb pm_rw.

(** ** Results of fallible operations

    A JavaScript [throw] caught by the handler's [try]/[catch] is an
    [Err]; a normal return is an [Ok]. *)

Inductive result (E A : Type) : Type :=
| Ok (a : A)
| Err (e : E).
Arguments Ok {E A} a.
Arguments Err {E A} e.

Definition res_bind {E A B} (r : result E A) (k : A -> result E B) : result E B :=
  match r with
  | Ok a => k a
  | Err e => Err e
  end.

Notation "x <- c ;; k" := (res_bind c (fun x => k))
  (at level 61, c at next level, right associativity) : pm_scope.

(** ** Collecting with [forEach] and [push]

    The code builds arrays with [const a = []; xs.forEach(x => { if (..)
    a.push(..) })].  [push_some] is one such iteration; [filter_map] is
    the reference definition of the whole loop. *)

Fixpoint filter_map {A B} (f : A -> option B) (l : list A) : list B :=
  match l with
  | [] => []
  | x :: xs =>
      match f x with
      | Some y => y :: filter_map f xs
      | None => filter_map f xs
      end
  end.

(** The longest prefix whose elements satisfy [p], and the rest. *)
Fixpoint span {A} (p : A -> bool) (l : list A) : list A * list A :=
  match l with
  | [] => ([], [])
  | x :: l' => if p x then let (a, b) := span p l' in (x :: a, b) else ([], l)
  end.

Definition push_some {A B} (f : A -> option B) (acc : list B) (x : A) : list B :=
  match f x with
  | Some y => acc ++ [y]
  | None => acc
  end.

(** ** Boolean reflection used by every component *)

Ltac bool_simpl :=
  repeat match goal with
  | H : (_ && _)%bool = true |- _ => apply andb_prop in H as [? ?]
  | H : (_ || _)%bool = false |- _ => apply orb_false_elim in H as [? ?]
  | H : negb _ = true |- _ => apply negb_true_iff in H
  | H : negb _ = false |- _ => apply negb_false_iff in H
  | H : String.eqb _ _ = true |- _ => apply String.eqb_eq in H
  end.

(** [case_if] splits the first [if] of the goal, keeping its equation. *)
Ltac case_if :=
  match goal with
  | |- context [if ?b then _ else _] =>
      let E := fresh "E" in destruct b eqn:E
  end.

(** ** Lemmas *)

Lemma res_bind_ok {E A B} (a : A) (k : A -> result E B) :
  res_bind (Ok a) k = k a.
Proof. reflexivity. Qed.

Lemma res_bind_err {E A B} (e : E) (k : A -> result E B) :
  res_bind (Err e) k = Err e.
Proof. reflexivity. Qed.

#[export] Hint Rewrite @res_bind_ok @res_bind_err : pm_rw.

Lemma fold_push_some {A B} (f : A -> option B) (l : list A) (acc : list B) :
  fold_left (push_some f) l acc = acc ++ filter_map f l.
Proof.
  revert acc; induction l as [|x l IH]; intros acc; simpl.
  - now rewrite app_nil_r.
  - unfold push_some at 2. destruct (f x); rewrite IH; [|reflexivity].
    now rewrite <- app_assoc.
Qed.

Lemma In_filter_map {A B} (f : A -> option B) (l : list A) (y : B) :
  In y (filter_map f l) <-> exists x, In x l /\ f x = Some y.
Proof.
  induction l as [|x l IH]; simpl.
  - split; [intros []|intros (? & [] & _)].
  - destruct (f x) eqn:E; simpl; rewrite IH; split.
    + intros [<- | (z & Hz & Hf)]; eauto.
    + intros (z & [<- | Hz] & Hf); [left; congruence | eauto].
    + intros (z & Hz & Hf); eauto.
    + intros (z & [<- | Hz] & Hf); [congruence | eauto].
Qed.

Lemma Forall_filter_map {A B} (f : A -> option B) (P : B -> Prop) (l : list A) :
  (forall x y, f x = Some y -> P y) -> Forall P (filter_map f l).
Proof.
  intros H. apply Forall_forall. intros y Hy.
  apply In_filter_map in Hy as (x & _ & Hx). eauto.
Qed.

Lemma filter_map_app {A B} (f : A -> option B) (l1 l2 : list A) :
  filter_map f (l1 ++ l2) = filter_map f l1 ++ filter_map f l2.
Proof. induction l1 as [|x l IH]; simpl; [|destruct (f x)]; now rewrite ?IH. Qed.

Lemma length_filter_map {A B} (f : A -> option B) (l : list A) :
  length (filter_map f l) = length (filter (fun x => match f x with Some _ => true | None => false end) l).
Proof. induction l as [|x l IH]; simpl; [|destruct (f x)]; simpl; auto. Qed.

#[export] Hint Rewrite @fold_push_some @filter_map_app : pm_rw.

Lemma existsb_false_forall {A} (f : A -> bool) (l : list A) :
  existsb f l = false <-> forall x, In x l -> f x = false.
Proof.
  induction l as [|a l IH]; simpl; [tauto|].
  rewrite orb_false_iff, IH. split.
  - intros [Ha Hl] x [<- | Hx]; auto.
  - intros H; split; auto.
Qed.

Lemma existsb_app_singleton {A} (f : A -> bool) (l : list A) (x : A) :
  existsb f (l ++ [x]) = existsb f l || f x.
Proof. rewrite existsb_app; simpl; now rewrite orb_false_r. Qed.

#[export] Hint Rewrite @existsb_app_singleton : pm_rw.
#[export] Hint Resolve Forall_filter_map : pm.
