(* ===== verification/JsString.v ===== *)
(** * JavaScript string built-ins

    The ECMAScript string operations the program calls, on strings of
    8-bit code units (the Latin-1 part of UTF-16): [trim],
    [startsWith], [endsWith], [includes], [replace] with a string
    pattern, [split] with a string separator, [toLowerCase], the
    truthiness of a string and [a || b] on strings.  They are platform
    functions: each follows the algorithm of ECMA-262 restricted to this
    character range.  The lemmas here are the algebra the components use:
    prefix and substring characterisations, the split/concat round trip
    and idempotence of [trim] and [toLowerCase]. *)

From Stdlib Require Import String Ascii List Bool Arith Lia.
From S2P Require Import Prelude.
Import ListNotations.
Local Open Scope string_scope.

(** ** Generic lemmas on Stdlib strings *)

Lemma str_app_assoc (a b c : string) : (a ++ b) ++ c = a ++ (b ++ c).
Proof. induction a; simpl; congruence. Qed.

Lemma str_app_nil_r (a : string) : a ++ "" = a.
Proof. induction a; simpl; congruence. Qed.

Lemma str_length_app (a b : string) : String.length (a ++ b) = String.length a + String.length b.
Proof. induction a; simpl; auto. Qed.

#[export] Hint Rewrite str_app_assoc str_app_nil_r str_length_app : pm_rw.

Module JS.

(** ** Characters *)

(** WhiteSpace and LineTerminator code points below 256: TAB, LF, VT,
    FF, CR, SPACE and NO-BREAK SPACE. *)
Definition is_space (c : ascii) : bool :=
  existsb (Nat.eqb (nat_of_ascii c)) [9; 10; 11; 12; 13; 32; 160].

(** Unicode lower-case mapping on Latin-1: A-Z and the letters
    U+00C0-U+00DE except the multiplication sign U+00D7 move by 32. *)
Definition lower_char (c : ascii) : ascii :=
  let n := nat_of_ascii c in
  if (Nat.leb 65 n && Nat.leb n 90)
     || (Nat.leb 192 n && Nat.leb n 222 && negb (Nat.eqb n 215))
  then ascii_of_nat (n + 32) else c.

(** ** Truthiness and [||] on strings *)

(** A string is truthy iff it is not empty. *)
Definition truthy (s : string) : bool :=
  match s with
  | EmptyString => false
  | String _ _ => true
  end.

(** [a || b] returns [a] when [a] is truthy, [b] otherwise. *)
Definition or (a b : string) : string := if truthy a then a else b.

(** ** String.prototype.trim *)

Fixpoint trimStart (s : string) : string :=
  match s with
  | EmptyString => EmptyString
  | String c s' => if is_space c then trimStart s' else s
  end.

Fixpoint trimEnd (s : string) : string :=
  match s with
  | EmptyString => EmptyString
  | String c s' =>
      match trimEnd s' with
      | EmptyString => if is_space c then EmptyString else String c EmptyString
      | t => String c t
      end
  end.

Definition trim (s : string) : string := trimEnd (trimStart s).

(** ** Prefixes, suffixes, substrings *)

(** [s.startsWith(p)] *)
Fixpoint startsWith (s p : string) {struct p} : bool :=
  match p with
  | EmptyString => true
  | String c p' =>
      match s with
      | String d s' => Ascii.eqb c d && startsWith s' p'
      | EmptyString => false
      end
  end.

(** The substring from index [n] to the end. *)
Fixpoint drop (n : nat) (s : string) : string :=
  match n, s with
  | O, _ => s
  | S n', String _ s' => drop n' s'
  | S _, EmptyString => EmptyString
  end.

(** [s.endsWith(p)]: the last [length p] code units of [s] are [p]. *)
Definition endsWith (s p : string) : bool :=
  Nat.leb (String.length p) (String.length s)
  && String.eqb (drop (String.length s - String.length p) s) p.

(** [s.includes(p)]: [p] occurs at some index of [s]. *)
Fixpoint includes (s p : string) : bool :=
  startsWith s p ||
  match s with
  | EmptyString => false
  | String _ s' => includes s' p
  end.

(** [s.replace(pat, rep)] with a string pattern: the first occurrence
    of [pat] is replaced.  The replacement is inserted literally; the
    code only passes [''], which has no [$] patterns. *)
Fixpoint replace (s pat rep : string) : string :=
  if startsWith s pat then rep ++ drop (String.length pat) s
  else match s with
       | EmptyString => EmptyString
       | String c s' => String c (replace s' pat rep)
       end.

(** ** String.prototype.split with a string separator

    The separator is searched from the left; each match ends a piece and
    the search resumes after it.  The recursion consumes at least one
    code unit per call, so [S (length s)] is enough fuel
    ([split_fuel_enough]).  An empty separator splits into code units. *)
Fixpoint split_fuel (fuel : nat) (sep s cur : string) : list string :=
  match fuel with
  | O => [cur ++ s]
  | S f =>
      match s with
      | EmptyString => [cur]
      | String c s' =>
          if startsWith s sep
          then cur :: split_fuel f sep (drop (String.length sep) s) EmptyString
          else split_fuel f sep s' (cur ++ String c EmptyString)
      end
  end.

Definition split (s sep : string) : list string :=
  match sep with
  | EmptyString => map (fun c => String c EmptyString) (list_ascii_of_string s)
  | String _ _ => split_fuel (S (String.length s)) sep s EmptyString
  end.

(** [sepFree sep a t]: no match of [sep] starts inside [a] in the text
    [a ++ t], so [split] reads [a] whole into the current piece. *)
Fixpoint sepFree (sep a t : string) : bool :=
  match a with
  | EmptyString => true
  | String c a' => negb (startsWith (String c (a' ++ t)) sep) && sepFree sep a' t
  end.

(** ** String.prototype.toLowerCase *)

Fixpoint toLowerCase (s : string) : string :=
  match s with
  | EmptyString => EmptyString
  | String c s' => String (lower_char c) (toLowerCase s')
  end.

(** ** Lemmas *)

Lemma startsWith_spec (s p : string) :
  startsWith s p = true <-> exists r, s = p ++ r.
Proof.
  revert s; induction p as [|c p IH]; intros s; simpl.
  - split; [intros _; now exists s | reflexivity].
  - destruct s as [|d s].
    + split; [discriminate|intros (r & H); discriminate].
    + rewrite andb_true_iff, IH. split.
      * intros [Hc (r & ->)]. apply Ascii.eqb_eq in Hc; subst. eauto.
      * intros (r & H). injection H as -> ->. rewrite Ascii.eqb_refl. eauto.
Qed.

Lemma startsWith_app (p r : string) : startsWith (p ++ r) p = true.
Proof. apply startsWith_spec; eauto. Qed.

Lemma drop_app (p r : string) : drop (String.length p) (p ++ r) = r.
Proof. induction p; simpl; auto. Qed.

Lemma startsWith_drop (s p : string) :
  startsWith s p = true -> s = p ++ drop (String.length p) s.
Proof. intros (r & ->)%startsWith_spec. now rewrite drop_app. Qed.

Lemma replace_prefix (s p rep : string) :
  startsWith s p = true -> replace s p rep = rep ++ drop (String.length p) s.
Proof. destruct s; simpl; intros ->; reflexivity. Qed.

Lemma includes_spec (s p : string) :
  includes s p = true <-> exists a b, s = a ++ p ++ b.
Proof.
  induction s as [|c s IH]; simpl; rewrite orb_true_iff, startsWith_spec.
  - split.
    + intros [(r & H) | H]; [|discriminate]. exists "", r. exact H.
    + intros (a & b & H). left. destruct a; [eauto|discriminate].
  - rewrite IH. split.
    + intros [(r & H) | (a & b & H)].
      * exists "", r. exact H.
      * exists (String c a), b. simpl. congruence.
    + intros (a & b & H). destruct a as [|d a].
      * left. eauto.
      * right. injection H as -> ->. eauto.
Qed.

Lemma includes_app_r (a p b : string) : includes (a ++ p ++ b) p = true.
Proof. apply includes_spec; eauto. Qed.

Lemma drop_length_le (n : nat) (s : string) :
  String.length (drop n s) <= String.length s.
Proof. revert s; induction n; destruct s; simpl; auto. Qed.

(** The separator is non-empty, so a match consumes at least one unit. *)
Lemma drop_sep_shorter (sep s : string) :
  sep <> "" -> startsWith s sep = true ->
  String.length (drop (String.length sep) s) < String.length s.
Proof.
  intros Hne (r & ->)%startsWith_spec.
  rewrite drop_app, str_length_app. destruct sep; [congruence|simpl; lia].
Qed.

Lemma split_fuel_nonnil (fuel : nat) (sep s cur : string) :
  split_fuel fuel sep s cur <> [].
Proof.
  revert s cur; induction fuel as [|f IH]; intros s cur; simpl; [discriminate|].
  destruct s as [|c s']; [discriminate|]. destruct (startsWith _ _); [discriminate|apply IH].
Qed.

Lemma concat_cons_nonnil (sep x : string) (l : list string) :
  l <> [] -> String.concat sep (x :: l) = x ++ sep ++ String.concat sep l.
Proof. destruct l; [congruence|reflexivity]. Qed.

Lemma split_fuel_concat (fuel : nat) (sep s cur : string) :
  sep <> "" -> String.length s < fuel ->
  String.concat sep (split_fuel fuel sep s cur) = cur ++ s.
Proof.
  revert s cur; induction fuel as [|f IH]; intros s cur Hne Hlt; [simpl in Hlt; lia|].
  destruct s as [|c s']; simpl.
  - now rewrite str_app_nil_r.
  - destruct (startsWith (String c s') sep) eqn:Hs.
    + pose proof (drop_sep_shorter sep _ Hne Hs) as Hd.
      rewrite concat_cons_nonnil by apply split_fuel_nonnil.
      rewrite IH by (auto; simpl in *; lia). simpl.
      f_equal. symmetry. now apply startsWith_drop.
    + simpl in Hlt. rewrite IH by (auto; lia). now rewrite str_app_assoc.
Qed.

(** [s.split(sep).join(sep) === s] for a non-empty separator. *)
Lemma split_concat (s sep : string) :
  sep <> "" -> String.concat sep (split s sep) = s.
Proof.
  intros Hne. unfold split. destruct sep as [|c0 sep0]; [congruence|].
  rewrite split_fuel_concat by (auto; lia). reflexivity.
Qed.

Lemma split_fuel_enough (f1 f2 : nat) (sep s cur : string) :
  sep <> "" -> String.length s < f1 -> String.length s < f2 ->
  split_fuel f1 sep s cur = split_fuel f2 sep s cur.
Proof.
  revert f2 s cur; induction f1 as [|f1 IH]; intros f2 s cur Hne H1 H2; [lia|].
  destruct f2 as [|f2]; [lia|]. destruct s as [|c s']; simpl; auto.
  destruct (startsWith (String c s') sep) eqn:Hs.
  - pose proof (drop_sep_shorter sep _ Hne Hs). f_equal. apply IH; auto; simpl in *; lia.
  - simpl in *. apply IH; auto; lia.
Qed.

Lemma split_fuel_sep (f : nat) (sep r cur : string) :
  sep <> "" -> split_fuel (S f) sep (sep ++ r) cur = cur :: split_fuel f sep r "".
Proof.
  intros Hne. pose proof (startsWith_app sep r) as Hs. pose proof (drop_app sep r) as Hd.
  destruct sep as [|c0 sep0]; [congruence|]. simpl in *. now rewrite Hs, Hd.
Qed.

Lemma split_nonempty_sep (s sep : string) :
  sep <> "" -> split s sep = split_fuel (S (String.length s)) sep s "".
Proof. destruct sep; [congruence|reflexivity]. Qed.

(** One step of [split] on a separator at the head of the string. *)
Lemma split_cons_sep (sep r : string) :
  sep <> "" -> split (sep ++ r) sep = "" :: split r sep.
Proof.
  intros Hne. rewrite !split_nonempty_sep, str_length_app by auto.
  rewrite split_fuel_sep by auto. f_equal.
  apply split_fuel_enough; [auto| |lia]. destruct sep; [congruence|simpl; lia].
Qed.

Lemma trimStart_idem (s : string) : trimStart (trimStart s) = trimStart s.
Proof. induction s as [|c s IH]; simpl; auto. destruct (is_space c) eqn:E; simpl; now rewrite ?E. Qed.

Lemma trimEnd_cons (c : ascii) (s : string) :
  trimEnd (String c s) =
  match trimEnd s with
  | EmptyString => if is_space c then EmptyString else String c EmptyString
  | t => String c t
  end.
Proof. reflexivity. Qed.

Lemma trimEnd_trimEnd (s : string) : trimEnd (trimEnd s) = trimEnd s.
Proof.
  induction s as [|c s IH]; simpl; auto.
  destruct (trimEnd s) as [|d u] eqn:E.
  - destruct (is_space c) eqn:Hc; simpl; now rewrite ?Hc.
  - rewrite trimEnd_cons, IH. reflexivity.
Qed.

Lemma trimStart_len (s : string) : String.length (trimStart s) <= String.length s.
Proof. induction s as [|c s IH]; simpl; auto. destruct (is_space c); simpl; lia. Qed.

Lemma trimStart_trimEnd (s : string) :
  trimStart s = s -> trimStart (trimEnd s) = trimEnd s.
Proof.
  destruct s as [|c s]; simpl; auto. intros H.
  destruct (is_space c) eqn:Hc.
  - exfalso. assert (Hl := f_equal String.length H).
    pose proof (trimStart_len s). simpl in Hl. lia.
  - destruct (trimEnd s); simpl; now rewrite Hc.
Qed.

(** [trim] is idempotent: trimming the fields of a parsed record again
    changes nothing. *)
Lemma trim_idem (s : string) : trim (trim s) = trim s.
Proof.
  unfold trim. rewrite trimStart_trimEnd by apply trimStart_idem.
  apply trimEnd_trimEnd.
Qed.

Definition no_space (s : string) : bool :=
  forallb (fun c => negb (is_space c)) (list_ascii_of_string s).

Lemma trim_no_space (s : string) : no_space s = true -> trim s = s.
Proof.
  unfold trim, no_space. intros H.
  assert (Hs : trimStart s = s).
  { destruct s as [|c s]; simpl in *; auto. bool_simpl. now rewrite H. }
  rewrite Hs. clear Hs. induction s as [|c s IH]; simpl in *; auto.
  bool_simpl. rewrite IH by auto. destruct s; simpl; auto. now rewrite H.
Qed.

Lemma truthy_iff (s : string) : truthy s = true <-> s <> "".
Proof. destruct s; simpl; split; congruence. Qed.

Lemma lower_char_idem (c : ascii) : lower_char (lower_char c) = lower_char c.
Proof. destruct c as [[] [] [] [] [] [] [] []]; vm_compute; reflexivity. Qed.

Lemma toLowerCase_idem (s : string) : toLowerCase (toLowerCase s) = toLowerCase s.
Proof. induction s; simpl; now rewrite ?lower_char_idem, ?IHs. Qed.

Lemma toLowerCase_length (s : string) : String.length (toLowerCase s) = String.length s.
Proof. induction s; simpl; auto. Qed.

(** Splitting on a one-unit separator: a prefix without that unit is
    the first piece. *)
Lemma split_fuel_skip (c : ascii) (a r cur : string) (f : nat) :
  (forall x, In x (list_ascii_of_string a) -> x <> c) -> String.length a < f ->
  split_fuel f (String c "") (a ++ r) cur = split_fuel (f - String.length a) (String c "") r (cur ++ a).
Proof.
  revert cur f; induction a as [|x a IH]; intros cur f Hna Hf; simpl in *.
  - now rewrite Nat.sub_0_r, str_app_nil_r.
  - destruct f as [|f]; [lia|]. simpl.
    assert (Hx : Ascii.eqb c x = false) by (apply Ascii.eqb_neq; intros ->; eapply Hna; eauto).
    rewrite Hx. simpl. rewrite IH by (auto; lia). now rewrite str_app_assoc.
Qed.

Lemma split_char_app (c : ascii) (a b : string) :
  (forall x, In x (list_ascii_of_string a) -> x <> c) ->
  split (a ++ String c b) (String c "") = a :: split b (String c "").
Proof.
  intros Hna. unfold split. rewrite split_fuel_skip by (auto; rewrite str_length_app; simpl; lia).
  rewrite str_length_app. simpl String.length.
  replace (S (String.length a + S (String.length b)) - String.length a) with (S (S (String.length b)))
    by lia.
  simpl. rewrite Ascii.eqb_refl. reflexivity.
Qed.

Lemma endsWith_app (a p : string) : endsWith (a ++ p) p = true.
Proof.
  unfold endsWith. rewrite str_length_app.
  replace (String.length a + String.length p - String.length p) with (String.length a) by lia.
  rewrite drop_app, String.eqb_refl, andb_true_r. apply Nat.leb_le. lia.
Qed.

Lemma toLowerCase_app (a b : string) : toLowerCase (a ++ b) = toLowerCase a ++ toLowerCase b.
Proof. induction a; simpl; congruence. Qed.

(** ** Splitting text with no separator inside a prefix *)

Lemma split_fuel_sepFree (sep a r cur : string) (f : nat) :
  sepFree sep a r = true -> String.length a < f ->
  split_fuel f sep (a ++ r) cur = split_fuel (f - String.length a) sep r (cur ++ a).
Proof.
  revert cur f; induction a as [|x a IH]; intros cur f Ha Hf; simpl in *.
  - now rewrite Nat.sub_0_r, str_app_nil_r.
  - bool_simpl. destruct f as [|f]; [lia|]. simpl. rewrite H.
    rewrite IH by (auto; lia). now rewrite str_app_assoc.
Qed.

(** A piece followed by the separator is the first piece. *)
Lemma split_app_sep (sep a r : string) :
  sep <> "" -> sepFree sep a (sep ++ r) = true ->
  split (a ++ sep ++ r) sep = a :: split r sep.
Proof.
  intros Hne Ha. rewrite !split_nonempty_sep by auto.
  rewrite split_fuel_sepFree by (auto; rewrite !str_length_app; lia).
  rewrite !str_length_app.
  replace (S (String.length a + (String.length sep + String.length r)) - String.length a)
    with (S (String.length sep + String.length r)) by lia.
  rewrite split_fuel_sep by auto. f_equal.
  apply split_fuel_enough; [auto| |lia]. destruct sep; [congruence|simpl; lia].
Qed.

(** Text with no separator in it is one piece. *)
Lemma split_sepFree (sep s : string) :
  sep <> "" -> sepFree sep s "" = true -> split s sep = [s].
Proof.
  intros Hne Hs. rewrite split_nonempty_sep by auto.
  pose proof (split_fuel_sepFree sep s "" "" (S (String.length s)) Hs ltac:(lia)) as E.
  rewrite str_app_nil_r in E. rewrite E.
  replace (S (String.length s) - String.length s) with 1 by lia. reflexivity.
Qed.

(** A match that reaches a unit the pattern does not contain lies
    before it. *)
Lemma startsWith_app_char (v t p : string) (c : ascii) :
  (forall x, In x (list_ascii_of_string p) -> x <> c) ->
  startsWith (v ++ String c t) p = true -> startsWith v p = true.
Proof.
  revert p; induction v as [|x v IH]; intros [|d p] Hc H; simpl in *; auto.
  - bool_simpl. apply Ascii.eqb_eq in H. exfalso. apply (Hc d); auto.
  - bool_simpl. rewrite H. simpl. apply IH; auto.
Qed.

Lemma includes_app_char (a b p : string) (c : ascii) :
  p <> "" -> (forall x, In x (list_ascii_of_string p) -> x <> c) ->
  includes a p = false -> includes b p = false -> includes (a ++ String c b) p = false.
Proof.
  intros Hne Hc. induction a as [|x a IH]; intros Ha Hb; simpl in *.
  - destruct p as [|d p]; [congruence|]. simpl. rewrite Hb, orb_false_r.
    destruct (Ascii.eqb d c) eqn:E; [|reflexivity].
    apply Ascii.eqb_eq in E. exfalso. apply (Hc d); [simpl; now left|exact E].
  - apply orb_false_iff in Ha as [Hs Ha]. rewrite IH by auto. rewrite orb_false_r.
    destruct (startsWith (String x (a ++ String c b)) p) eqn:E; [|reflexivity].
    apply (startsWith_app_char (String x a) b p c Hc) in E. congruence.
Qed.

(** Text ending in a unit the separator does not contain, and with no
    separator inside, is read whole whatever follows. *)
Lemma sepFree_char (sep a t : string) (c : ascii) :
  sep <> "" -> (forall x, In x (list_ascii_of_string sep) -> x <> c) ->
  includes a sep = false -> sepFree sep (a ++ String c "") t = true.
Proof.
  intros Hne Hc. induction a as [|x a IH]; intros Ha; simpl in *.
  - destruct sep as [|d sep]; [congruence|]. simpl.
    destruct (Ascii.eqb d c) eqn:E; [|reflexivity].
    apply Ascii.eqb_eq in E. exfalso. apply (Hc d); [simpl; now left|exact E].
  - apply orb_false_iff in Ha as [Hs Ha]. rewrite IH by auto. rewrite andb_true_r.
    rewrite str_app_assoc. simpl.
    destruct (startsWith (String x (a ++ String c t)) sep) eqn:E; [|reflexivity].
    apply (startsWith_app_char (String x a) t sep c Hc) in E. simpl in E. congruence.
Qed.

Lemma sepFree_nil (sep s : string) : includes s sep = false -> sepFree sep s "" = true.
Proof.
  induction s as [|x s IH]; intros H; simpl in *; auto.
  apply orb_false_iff in H as [Hs H]. rewrite str_app_nil_r, Hs, IH; auto.
Qed.

(** ** Trimming text whose ends are not blank *)

Lemma trimEnd_len (s : string) : String.length (trimEnd s) <= String.length s.
Proof.
  induction s as [|c s IH]; simpl; auto.
  destruct (trimEnd s); [destruct (is_space c)|]; simpl in *; lia.
Qed.

Lemma trimStart_cases (s : string) :
  trimStart s = s \/ String.length (trimStart s) < String.length s.
Proof.
  induction s as [|c s IH]; simpl; auto. destruct (is_space c); auto.
  right. pose proof (trimStart_len s). lia.
Qed.

(** A trimmed string has no blank at its end either. *)
Lemma trim_fixed_trimEnd (v : string) : trim v = v -> trimEnd v = v.
Proof.
  unfold trim. intros H. destruct (trimStart_cases v) as [E|E]; [now rewrite E in H|].
  exfalso. pose proof (trimEnd_len (trimStart v)). rewrite H in *. lia.
Qed.

Lemma trimEnd_head (c : ascii) (s : string) :
  is_space c = false -> trimEnd (String c s) <> "".
Proof. intros Hc. rewrite trimEnd_cons. destruct (trimEnd s); [rewrite Hc|]; discriminate. Qed.

Lemma trimEnd_app (a b : string) :
  trimEnd b <> "" -> trimEnd (a ++ b) = a ++ trimEnd b.
Proof.
  intros Hb. induction a as [|c a IH]; [reflexivity|]. cbn [append]. rewrite trimEnd_cons, IH.
  destruct (a ++ trimEnd b) eqn:E; [|reflexivity].
  destruct a; simpl in E; [congruence|discriminate].
Qed.

(** ** Substrings *)

Lemma trimStart_suffix (s : string) : exists x, s = x ++ trimStart s.
Proof.
  induction s as [|c s (x & Hx)]; simpl; [now exists ""|].
  destruct (is_space c); [exists (String c x); simpl; congruence|now exists ""].
Qed.

Lemma trimEnd_prefix (s : string) : exists y, s = trimEnd s ++ y.
Proof.
  induction s as [|c s (y & Hy)]; simpl; [now exists ""|].
  destruct (trimEnd s) as [|d t] eqn:E; simpl in Hy.
  - destruct (is_space c); [exists (String c y)|exists y]; simpl; congruence.
  - exists y. simpl. congruence.
Qed.

Lemma trim_substr (s : string) : exists x y, s = x ++ trim s ++ y.
Proof.
  destruct (trimStart_suffix s) as (x & Hx). destruct (trimEnd_prefix (trimStart s)) as (y & Hy).
  exists x, y. unfold trim. rewrite <- Hy. exact Hx.
Qed.

Lemma includes_substr (s t x y p : string) :
  t = x ++ s ++ y -> includes s p = true -> includes t p = true.
Proof.
  intros -> (a & b & ->)%includes_spec. apply includes_spec.
  exists (x ++ a), (b ++ y). now rewrite !str_app_assoc.
Qed.

Lemma concat_substr (sep piece : string) (l : list string) :
  In piece l -> exists x y, String.concat sep l = x ++ piece ++ y.
Proof.
  induction l as [|z l IH]; intros H; [destruct H|].
  destruct l as [|w l].
  - destruct H as [<-|[]]. exists "", "". simpl. now rewrite str_app_nil_r.
  - rewrite concat_cons_nonnil by discriminate. destruct H as [<-|H].
    + exists "", (sep ++ String.concat sep (w :: l)). reflexivity.
    + destruct (IH H) as (x & y & E). rewrite E.
      exists (z ++ sep ++ x), y. now rewrite !str_app_assoc.
Qed.

(** A piece of [s.split(sep)] is a substring of [s]. *)
Lemma split_substr (s sep piece : string) :
  sep <> "" -> In piece (split s sep) -> exists x y, s = x ++ piece ++ y.
Proof.
  intros Hne H. rewrite <- (split_concat s sep Hne). now apply concat_substr.
Qed.

Lemma includes_char_notin (a : string) (c : ascii) :
  includes a (String c "") = false -> forall x, In x (list_ascii_of_string a) -> x <> c.
Proof.
  induction a as [|y a IH]; simpl; [tauto|]. rewrite andb_true_r. intros H.
  apply orb_false_iff in H as [Hy H]. intros x [<- | Hx]; [|now apply IH].
  intros ->. now rewrite Ascii.eqb_refl in Hy.
Qed.

(** A string with a non-blank first unit loses nothing at its start. *)
Lemma trimStart_head (c : ascii) (s : string) :
  is_space c = false -> trimStart (String c s) = String c s.
Proof. simpl. now intros ->. Qed.

(** ** No piece of a split contains the separator *)

Lemma startsWith_app_r (s t p : string) : startsWith s p = true -> startsWith (s ++ t) p = true.
Proof. intros (r & ->)%startsWith_spec. apply startsWith_spec. exists (r ++ t). now rewrite str_app_assoc. Qed.

(** A match inside [a] is a match inside [a ++ t]. *)
Lemma sepFree_includes (sep a t : string) :
  sep <> "" -> sepFree sep a t = true -> includes a sep = false.
Proof.
  intros Hne. induction a as [|c a IH]; cbn [sepFree includes].
  - intros _. destruct sep; [congruence|reflexivity].
  - intros [Hc Ha]%andb_prop. rewrite (IH Ha), orb_false_r.
    destruct (startsWith (String c a) sep) eqn:E; [|reflexivity].
    apply (startsWith_app_r _ t) in E. cbn in Hc, E. now rewrite E in Hc.
Qed.

Lemma sepFree_snoc (sep a t : string) (c : ascii) :
  sepFree sep a (String c t) = true -> startsWith (String c t) sep = false ->
  sepFree sep (a ++ String c "") t = true.
Proof.
  induction a as [|d a IH]; cbn [sepFree append]; intros Ha Hc.
  - now rewrite Hc.
  - apply andb_prop in Ha as [Hd Ha]. rewrite str_app_assoc. cbn [append].
    now rewrite Hd, (IH Ha Hc).
Qed.

Lemma split_fuel_no_sep (f : nat) (sep s cur piece : string) :
  sep <> "" -> String.length s < f -> sepFree sep cur s = true ->
  In piece (split_fuel f sep s cur) -> includes piece sep = false.
Proof.
  revert s cur; induction f as [|f IH]; intros s cur Hne Hlt Hfree Hin; [cbn in Hlt; lia|].
  destruct s as [|c s']; cbn [split_fuel] in Hin.
  - destruct Hin as [<-|[]]. eapply sepFree_includes; eauto.
  - destruct (startsWith (String c s') sep) eqn:E.
    + destruct Hin as [<-|Hin]; [eapply sepFree_includes; eauto|].
      apply (IH (drop (String.length sep) (String c s')) "" Hne); [|reflexivity|exact Hin]. pose proof (drop_sep_shorter sep _ Hne E) as Hd. cbn [String.length] in Hlt, Hd. lia.
    + apply (IH s' (cur ++ String c "") Hne); [cbn in Hlt; lia| |exact Hin]. now apply sepFree_snoc.
Qed.

(** No piece of [s.split(sep)] contains [sep]. *)
Lemma split_no_sep (s sep piece : string) :
  sep <> "" -> In piece (split s sep) -> includes piece sep = false.
Proof.
  destruct sep as [|c sep']; [congruence|]. intros Hne. cbn [split].
  apply split_fuel_no_sep; auto.
Qed.

(** A substring of a text without [p] has no [p]. *)
Lemma includes_substr_false (s t x y p : string) :
  t = x ++ s ++ y -> includes t p = false -> includes s p = false.
Proof.
  intros E Ht. destruct (includes s p) eqn:Hs; auto.
  now rewrite (includes_substr s t x y p E Hs) in Ht.
Qed.

End JS.

#[export] Hint Rewrite JS.drop_app JS.startsWith_app JS.trim_idem JS.toLowerCase_idem : pm_rw.
#[export] Hint Resolve JS.startsWith_app JS.includes_app_r : pm.
