(* ===== verification/Record.v ===== *)
(** * Password records

    The record the program stores, [{site, user, pass}] (built at
    options.js 116-120, 162-166 and popup.js 8), the stored list, and the
    duplicate test of the import loop (options.js 61-64): two records are
    the same credential when their sites and their users are equal after
    [toLowerCase].  The spec's record invariant (every field non-empty
    and already trimmed) is the boolean [wf_record].  [same_identity] is
    the equivalence the duplicate test decides; [isDuplicate] respects it
    ([isDuplicate_proper]). *)

From Stdlib Require Import String Ascii List Bool Lia Morphisms Setoid RelationClasses.
From S2P Require Import Prelude JsString.
Import ListNotations.

Record PasswordRecord := mkRecord {
  site : string;
  user : string;
  pass : string
}.

(** The value stored under the key [passwords], in insertion order. *)
Definition Store := list PasswordRecord.

Definition PasswordRecord_eq_dec (a b : PasswordRecord) : {a = b} + {a <> b}.
Proof. decide equality; apply string_dec. Defined.

(** [existing.site.toLowerCase() === newPassword.site.toLowerCase() &&
     existing.user.toLowerCase() === newPassword.user.toLowerCase()] *)
Definition sameCredential (existing newPassword : PasswordRecord) : bool :=
  String.eqb (JS.toLowerCase (site existing)) (JS.toLowerCase (site newPassword))
  && String.eqb (JS.toLowerCase (user existing)) (JS.toLowerCase (user newPassword)).

(** [existingPasswords.some(existing => sameCredential existing newPassword)] *)
Definition isDuplicate (existingPasswords : Store) (newPassword : PasswordRecord) : bool :=
  existsb (fun existing => sameCredential existing newPassword) existingPasswords.

(** The identity of a record for duplicate detection. *)
Definition identity (r : PasswordRecord) : string * string :=
  (JS.toLowerCase (site r), JS.toLowerCase (user r)).

Definition same_identity (a b : PasswordRecord) : Prop := identity a = identity b.

(** A field the spec admits to the store: non-empty and trimmed. *)
Definition wf_field (s : string) : bool := JS.truthy s && String.eqb (JS.trim s) s.

Definition wf_record (r : PasswordRecord) : bool :=
  wf_field (site r) && wf_field (user r) && wf_field (pass r).

(** The weaker check of the popup's manual add: all fields non-empty. *)
Definition nonempty_record (r : PasswordRecord) : bool :=
  JS.truthy (site r) && JS.truthy (user r) && JS.truthy (pass r).

(** ** Lemmas *)

Lemma sameCredential_iff (a b : PasswordRecord) :
  sameCredential a b = true <-> same_identity a b.
Proof.
  unfold sameCredential, same_identity, identity.
  rewrite andb_true_iff, !String.eqb_eq. split.
  - intros [-> ->]; reflexivity.
  - intros H; injection H as -> ->; split; reflexivity.
Qed.

#[export] Instance same_identity_equiv : Equivalence same_identity.
Proof. unfold same_identity; split; repeat intro; congruence. Qed.

Lemma sameCredential_refl (a : PasswordRecord) : sameCredential a a = true.
Proof. apply sameCredential_iff; reflexivity. Qed.

Lemma isDuplicate_spec (s : Store) (p : PasswordRecord) :
  isDuplicate s p = true <-> exists e, In e s /\ same_identity e p.
Proof.
  unfold isDuplicate. rewrite existsb_exists.
  split; intros (e & He & Hs); exists e; split; auto; now apply sameCredential_iff.
Qed.

Lemma isDuplicate_false (s : Store) (p : PasswordRecord) :
  isDuplicate s p = false <-> forall e, In e s -> ~ same_identity e p.
Proof.
  unfold isDuplicate. rewrite existsb_false_forall.
  split; intros H e He; specialize (H e He).
  - now rewrite <- sameCredential_iff, H.
  - destruct (sameCredential e p) eqn:E; auto. exfalso. now apply H, sameCredential_iff.
Qed.

#[export] Instance isDuplicate_proper :
  Proper (eq ==> same_identity ==> eq) isDuplicate.
Proof.
  intros s ? <- p q Hpq. destruct (isDuplicate s q) eqn:Eq.
  - apply isDuplicate_spec in Eq as (e & He & Hid).
    apply isDuplicate_spec. exists e. split; auto. transitivity q; [exact Hid | now symmetry].
  - apply isDuplicate_false. intros e He Hid.
    apply isDuplicate_false with (e := e) in Eq; auto. apply Eq. now transitivity p.
Qed.

Lemma isDuplicate_app (s1 s2 : Store) (p : PasswordRecord) :
  isDuplicate (s1 ++ s2) p = isDuplicate s1 p || isDuplicate s2 p.
Proof. apply existsb_app. Qed.

Lemma isDuplicate_snoc_self (s : Store) (p : PasswordRecord) :
  isDuplicate (s ++ [p]) p = true.
Proof. rewrite isDuplicate_app; simpl. now rewrite sameCredential_refl, orb_true_r. Qed.

(** Two stores that agree position by position up to identity. *)
Definition store_equiv : Store -> Store -> Prop := Forall2 same_identity.

(** The duplicate test sees a store only up to the identities of its
    records. *)
#[export] Instance isDuplicate_store_proper :
  Proper (store_equiv ==> same_identity ==> eq) isDuplicate.
Proof.
  intros s1 s2 Hs p q Hpq. unfold isDuplicate.
  induction Hs as [|x y s1 s2 Hxy _ IH]; cbn [existsb]; [reflexivity|]. rewrite IH. f_equal.
  apply eq_iff_eq_true. rewrite !sameCredential_iff. unfold same_identity in *. split; congruence.
Qed.

Lemma wf_record_nonempty (r : PasswordRecord) :
  wf_record r = true -> nonempty_record r = true.
Proof.
  unfold wf_record, nonempty_record, wf_field. intros H. bool_simpl.
  now repeat match goal with H : JS.truthy _ = true |- _ => rewrite H; clear H end.
Qed.

#[export] Hint Rewrite isDuplicate_app isDuplicate_snoc_self sameCredential_refl : pm_rw.
#[export] Hint Resolve wf_record_nonempty sameCredential_refl : pm.
