(* ===== verification/Url.v ===== *)
(** * [new URL(u).hostname]

    [parseTextFormat] turns a [Website URL:] value into a site with
    [new URL(websiteUrl)] and its [hostname], and falls back to the raw
    text when the constructor throws (options.js 151-158).  The URL
    parser is a platform component; the text parser is proved against
    the interface [UrlParser] below ([None] is the thrown [TypeError]),
    whose one law is that a host name never contains white space (every
    code point the URL standard lets into a host is outside
    [JS.is_space]).

    [Whatwg] is a concrete instance: the WHATWG basic URL parser without
    a base, for the parts that decide the host name: stripping of
    leading/trailing C0-or-space and of inner tab/newline, the scheme,
    special schemes (http, https, ws, wss, ftp: slashes skipped,
    credentials up to the last [@], port digits, empty host rejected,
    forbidden domain code points rejected, ASCII lower-casing), [file]
    (empty host, [localhost], drive letters) and non-special schemes
    (opaque host after [//], forbidden host code points rejected,
    UTF-8 percent-encoding of non-ASCII units, no host otherwise).  Not
    modelled, each documented in [parse_domain]: IDNA/punycode of
    non-ASCII domains, IPv4 number normalisation and IPv6 literals; on
    them the instance throws where a browser returns a host. *)

From Stdlib Require Import String Ascii List Bool Lia NArith.
From S2P Require Import Prelude JsString.
Import ListNotations.

Class UrlParser := {
  url_hostname : string -> option string;
  url_hostname_no_space : forall u h, url_hostname u = Some h -> JS.no_space h = true
}.

Module Whatwg.

Definition code (c : ascii) : nat := nat_of_ascii c.

Definition in_range (lo hi : nat) (c : ascii) : bool := Nat.leb lo (code c) && Nat.leb (code c) hi.

Definition one_of (cs : list nat) (c : ascii) : bool := existsb (Nat.eqb (code c)) cs.

Definition is_alpha (c : ascii) : bool := in_range 65 90 c || in_range 97 122 c.
Definition is_digit (c : ascii) : bool := in_range 48 57 c.
Definition is_scheme_char (c : ascii) : bool := is_alpha c || is_digit c || one_of [43; 45; 46] c.
Definition is_c0_or_space (c : ascii) : bool := Nat.leb (code c) 32.
Definition is_tab_or_newline (c : ascii) : bool := one_of [9; 10; 13] c.
Definition is_slash (c : ascii) : bool := one_of [47; 92] c.

(** Forbidden host code points: NUL TAB LF CR SPACE # / : < > ? @ [ \ ] ^ | *)
Definition forbidden_host (c : ascii) : bool :=
  one_of [0; 9; 10; 13; 32; 35; 47; 58; 60; 62; 63; 64; 91; 92; 93; 94; 124] c.

(** Forbidden domain code points add the C0 controls, % and DEL. *)
Definition forbidden_domain (c : ascii) : bool :=
  forbidden_host c || Nat.leb (code c) 31 || one_of [37; 127] c.

Definition ascii_lower (c : ascii) : ascii :=
  if in_range 65 90 c then ascii_of_nat (code c + 32) else c.

Fixpoint strip_leading (l : list ascii) : list ascii :=
  match l with
  | [] => []
  | c :: l' => if is_c0_or_space c then strip_leading l' else l
  end.

Definition strip_c0_space (l : list ascii) : list ascii :=
  rev (strip_leading (rev (strip_leading l))).

(** The part after the last [@], when there is one. *)
Definition after_last_at (l : list ascii) : option (list ascii) :=
  let (h, r) := span (fun c => negb (Nat.eqb (code c) 64)) (rev l) in
  match r with
  | [] => None
  | _ => Some (rev h)
  end.

Definition hex_digit (n : nat) : ascii :=
  ascii_of_nat (if Nat.ltb n 10 then 48 + n else 55 + n).

Definition pct_byte (n : nat) : list ascii :=
  [ascii_of_nat 37; hex_digit (Nat.div n 16); hex_digit (Nat.modulo n 16)].

(** UTF-8 percent-encoding with the C0 control percent-encode set. *)
Definition pct_encode_c0 (c : ascii) : list ascii :=
  let n := code c in
  if Nat.ltb n 32 || Nat.eqb n 127 then pct_byte n
  else if Nat.ltb n 128 then [c]
  else pct_byte (192 + Nat.div n 64) ++ pct_byte (128 + Nat.modulo n 64).

(** Host parser for special schemes.  ASCII input: forbidden domain
    code points fail, letters are lower-cased.  Non-ASCII input would
    go through IDNA, and a host ending in a number through the IPv4
    parser; neither is modelled (non-ASCII fails here; dotted-decimal
    IPv4 hosts are kept as written, which is what the IPv4 serializer
    gives for them). *)
Definition parse_domain (h : list ascii) : option (list ascii) :=
  match h with
  | [] => None
  | _ =>
      if existsb forbidden_domain h || existsb (fun c => Nat.leb 128 (code c)) h
      then None else Some (map ascii_lower h)
  end.

Definition parse_opaque (h : list ascii) : option (list ascii) :=
  if existsb forbidden_host h then None else Some (flat_map pct_encode_c0 h).

(** Port: digits only, at most 65535. *)
Definition valid_port (p : list ascii) : bool :=
  forallb is_digit p &&
  N.leb (fold_left (fun acc c => acc * 10 + N.of_nat (code c - 48))%N p 0%N) 65535%N.

(** Host and port of an authority, after the credentials. *)
Definition host_of_hostport (special : bool) (hp : list ascii) : option (list ascii) :=
  let (h, r) := span (fun c => negb (Nat.eqb (code c) 58)) hp in
  let port_ok := match r with [] => true | _ :: p => valid_port p end in
  if negb port_ok then None
  else if special then parse_domain h
  else match h with [] => Some [] | _ => parse_opaque h end.

Definition host_of_authority (special : bool) (auth : list ascii) : option (list ascii) :=
  match after_last_at auth with
  | Some [] => None
  | Some hp => host_of_hostport special hp
  | None => host_of_hostport special auth
  end.

Definition is_special (scheme : list ascii) : bool :=
  existsb (String.eqb (string_of_list_ascii scheme)) ["http"; "https"; "ws"; "wss"; "ftp"]%string.

Definition until (stops : ascii -> bool) (l : list ascii) : list ascii :=
  fst (span (fun c => negb (stops c)) l).

Definition is_drive_letter (l : list ascii) : bool :=
  match l with
  | [c; d] => is_alpha c && one_of [58; 124] d
  | _ => false
  end.

(** The file host state: [file://host/...]. *)
Definition file_host (after : list ascii) : option (list ascii) :=
  match after with
  | s1 :: s2 :: a =>
      if is_slash s1 && is_slash s2 then
        let buf := until (fun c => is_slash c || one_of [35; 63] c) a in
        if is_drive_letter buf then Some []
        else match buf with
             | [] => Some []
             | _ =>
                 match parse_domain buf with
                 | Some h =>
                     if String.eqb (string_of_list_ascii h) "localhost"%string then Some [] else Some h
                 | None => None
                 end
             end
      else Some []
  | _ => Some []
  end.

Definition hostname_list (input : list ascii) : option (list ascii) :=
  let l := filter (fun c => negb (is_tab_or_newline c)) (strip_c0_space input) in
  match l with
  | [] => None
  | c :: _ =>
      if negb (is_alpha c) then None else
      let (sch, rest) := span is_scheme_char l in
      match rest with
      | colon :: after =>
          if negb (Nat.eqb (code colon) 58) then None else
          let scheme := map ascii_lower sch in
          if String.eqb (string_of_list_ascii scheme) "file"%string then file_host after
          else if is_special scheme then
            host_of_authority true
              (until (fun c => is_slash c || one_of [35; 63] c) (snd (span is_slash after)))
          else
            match after with
            | s1 :: s2 :: a =>
                if Nat.eqb (code s1) 47 && Nat.eqb (code s2) 47
                then host_of_authority false (until (one_of [35; 47; 63]) a)
                else Some []
            | _ => Some []
            end
      | [] => None
      end
  end.

(** [new URL(u).hostname], or [None] when the constructor throws. *)
Definition hostname (u : string) : option string :=
  option_map string_of_list_ascii (hostname_list (list_ascii_of_string u)).

(** ** The host name never contains white space *)

Definition nsp (l : list ascii) : bool := forallb (fun c => negb (JS.is_space c)) l.

Lemma ascii_lower_nsp_all (c : ascii) :
  forbidden_domain c || Nat.leb 128 (code c) || negb (JS.is_space (ascii_lower c)) = true.
Proof. destruct c as [[] [] [] [] [] [] [] []]; reflexivity. Qed.

Lemma pct_encode_nsp_all (c : ascii) :
  forbidden_host c || nsp (pct_encode_c0 c) = true.
Proof. destruct c as [[] [] [] [] [] [] [] []]; reflexivity. Qed.

Lemma map_lower_nsp (l : list ascii) :
  existsb forbidden_domain l = false ->
  existsb (fun c => Nat.leb 128 (code c)) l = false ->
  nsp (map ascii_lower l) = true.
Proof.
  unfold nsp. induction l as [|c l IH]; cbn [existsb forallb map]; intros E1 E2; auto.
  apply orb_false_iff in E1 as [F1 F2], E2 as [G1 G2].
  pose proof (ascii_lower_nsp_all c) as H. rewrite F1, G1 in H. cbn [orb] in H.
  rewrite H. now apply IH.
Qed.

Lemma parse_domain_nsp (h r : list ascii) : parse_domain h = Some r -> nsp r = true.
Proof.
  unfold parse_domain. destruct h as [|c0 h0]; [discriminate|].
  destruct (existsb forbidden_domain (c0 :: h0)
            || existsb (fun c => Nat.leb 128 (code c)) (c0 :: h0)) eqn:E; [discriminate|].
  intros [= <-]. apply orb_false_iff in E as [E1 E2]. exact (map_lower_nsp _ E1 E2).
Qed.

Lemma parse_opaque_nsp (h r : list ascii) : parse_opaque h = Some r -> nsp r = true.
Proof.
  unfold parse_opaque. destruct (existsb forbidden_host h) eqn:E; [discriminate|].
  intros [= <-]. induction h as [|c h IH]; cbn [existsb flat_map] in *; auto.
  apply orb_false_iff in E as [E1 E2]. unfold nsp. rewrite forallb_app.
  pose proof (pct_encode_nsp_all c) as H. rewrite E1 in H. cbn [orb] in H.
  unfold nsp in H. rewrite H. now apply IH.
Qed.

Lemma host_of_authority_nsp (sp : bool) (auth r : list ascii) :
  host_of_authority sp auth = Some r -> nsp r = true.
Proof.
  assert (Hhp : forall hp, host_of_hostport sp hp = Some r -> nsp r = true).
  { intros hp. unfold host_of_hostport. destruct (span _ hp) as [h rest].
    destruct (negb _); [discriminate|]. destruct sp.
    - apply parse_domain_nsp.
    - destruct h; [intros [= <-]; reflexivity|apply parse_opaque_nsp]. }
  unfold host_of_authority. destruct (after_last_at auth) as [[|c hp]|]; eauto; discriminate.
Qed.

Lemma file_host_nsp (a r : list ascii) : file_host a = Some r -> nsp r = true.
Proof.
  unfold file_host. destruct a as [|s1 [|s2 a]]; try (intros [= <-]; reflexivity).
  destruct (is_slash s1 && is_slash s2); [|intros [= <-]; reflexivity].
  destruct (is_drive_letter _); [intros [= <-]; reflexivity|].
  destruct (until _ a) as [|c b]; [intros [= <-]; reflexivity|].
  destruct (parse_domain (c :: b)) as [h|] eqn:E; [|discriminate].
  destruct (String.eqb _ _); intros [= <-]; [reflexivity|]. eapply parse_domain_nsp; eauto.
Qed.

Lemma hostname_list_nsp (u r : list ascii) : hostname_list u = Some r -> nsp r = true.
Proof.
  unfold hostname_list. destruct (filter _ _) as [|c l]; [discriminate|].
  destruct (negb (is_alpha c)); [discriminate|].
  destruct (span is_scheme_char _) as [sch [|colon after]]; [discriminate|].
  destruct (negb _); [discriminate|].
  destruct (String.eqb _ _); [apply file_host_nsp|].
  destruct (is_special _); [apply host_of_authority_nsp|].
  destruct after as [|s1 [|s2 a]]; try (intros [= <-]; reflexivity).
  destruct (_ && _); [apply host_of_authority_nsp|intros [= <-]; reflexivity].
Qed.

Lemma hostname_no_space (u h : string) : hostname u = Some h -> JS.no_space h = true.
Proof.
  unfold hostname. destruct (hostname_list _) as [r|] eqn:E; [|discriminate].
  intros [= <-]. unfold JS.no_space. rewrite list_ascii_of_string_of_list_ascii.
  eapply hostname_list_nsp; eauto.
Qed.

End Whatwg.

#[export] Instance whatwg_url : UrlParser :=
  {| url_hostname := Whatwg.hostname; url_hostname_no_space := Whatwg.hostname_no_space |}.
