(* ===== verification/TextFormat.v ===== *)
(** * The delimited text import format

    [parseTextFormat] and [isTextFormat] of src/options.js (123-179),
    copied verbatim in src/popup.js (172-213).  The content is split on
    every occurrence of [---], blank pieces are dropped, each piece is
    split into trimmed non-empty lines, and a line scan keeps the last
    value of each of the prefixes [Website name:], [Website URL:],
    [Login:], [Password:].  The site is the name, else the host name of
    the URL, else the raw URL text; an entry with an empty site, login
    or password is dropped.  The URL parser is the [UrlParser] instance
    of the section context.

    Theorems: every parsed record satisfies the record invariant
    ([parseTextFormat_wf]); an entry is kept exactly when its three
    resolved fields are non-empty ([parseEntry_Some]); the parse is
    the sequence of the parses of its entries, in order
    ([parseTextFormat_entries]); text written in the documented format
    parses back to its records ([parseTextFormat_print]); no parsed login
    or password contains [---], since no piece of [JS.split] contains its
    separator ([parseTextFormat_no_dashes]). *)

From Stdlib Require Import String Ascii List Bool Lia.
From S2P Require Import Prelude JsString Record Url.
Import ListNotations.

Local Open Scope string_scope.

Definition nl : ascii := ascii_of_nat 10.

Definition newline : string := String nl "".

Definition prefixName : string := "Website name:".
Definition prefixUrl : string := "Website URL:".
Definition prefixLogin : string := "Login:".
Definition prefixPassword : string := "Password:".

(** The four [let]s of an entry (options.js 130-133). *)
Record EntryFields := mkFields {
  websiteName : string;
  websiteUrl : string;
  login : string;
  password : string
}.

Definition emptyFields : EntryFields := mkFields "" "" "" "".

(** The value of a line after its prefix:
    [line.replace(prefix, '').trim()]. *)
Definition lineValue (line prefix : string) : string :=
  JS.trim (JS.replace line prefix "").

(** The body of [lines.forEach(line => ...)] (options.js 135-145). *)
Definition scanLine (f : EntryFields) (line : string) : EntryFields :=
  if JS.startsWith line prefixName then
    mkFields (lineValue line prefixName) (websiteUrl f) (login f) (password f)
  else if JS.startsWith line prefixUrl then
    mkFields (websiteName f) (lineValue line prefixUrl) (login f) (password f)
  else if JS.startsWith line prefixLogin then
    mkFields (websiteName f) (websiteUrl f) (lineValue line prefixLogin) (password f)
  else if JS.startsWith line prefixPassword then
    mkFields (websiteName f) (websiteUrl f) (login f) (lineValue line prefixPassword)
  else f.

(** [entry.split('\n').map(line => line.trim()).filter(line => line)] *)
Definition entryLines (entry : string) : list string :=
  filter JS.truthy (map JS.trim (JS.split entry newline)).

(** [content.split('---').filter(entry => entry.trim())] *)
Definition textEntries (content : string) : list string :=
  filter (fun e => JS.truthy (JS.trim e)) (JS.split content "---").

(** [isTextFormat] (options.js 173-179). *)
Definition isTextFormat (content : string) : bool :=
  JS.includes content prefixName || JS.includes content prefixUrl
  || JS.includes content prefixLogin || JS.includes content prefixPassword.

Section WithUrl.
Context {U : UrlParser}.

(** Site resolution (options.js 148-158). *)
Definition resolveSite (f : EntryFields) : string :=
  let site := JS.or (websiteName f) (websiteUrl f) in
  if JS.truthy (websiteUrl f) && negb (JS.truthy (websiteName f)) then
    match url_hostname (websiteUrl f) with
    | Some hostname => hostname
    | None => websiteUrl f
    end
  else site.

(** The body of [entries.forEach(entry => ...)] (options.js 127-168):
    [Some] record when it is pushed. *)
Definition parseEntry (entry : string) : option PasswordRecord :=
  let f := fold_left scanLine (entryLines entry) emptyFields in
  let site := resolveSite f in
  if JS.truthy site && JS.truthy (login f) && JS.truthy (password f)
  then Some (mkRecord site (login f) (password f))
  else None.

(** [parseTextFormat] (options.js 123-171). *)
Definition parseTextFormat (content : string) : list PasswordRecord :=
  fold_left (push_some parseEntry) (textEntries content) [].

End WithUrl.

(** ** The documented text format

    Text in the format the spec documents: each record as the lines
    [Website name: <site>], [Login: <user>], [Password: <pass>], records
    separated by a line [---].  This is the format the parser is meant
    to read; it is not code of the program. *)

Definition textLine (prefix v : string) : string := prefix ++ String " " v.

Definition printEntry (r : PasswordRecord) : string :=
  textLine prefixName (site r) ++ newline ++ textLine prefixLogin (user r) ++ newline
  ++ textLine prefixPassword (pass r).

Definition entrySeparator : string := newline ++ "---" ++ newline.

(** An optional line break around a piece of the text. *)
Definition opt_nl (b : bool) : string := if b then newline else "".

Definition printTextFormat (rs : list PasswordRecord) : string :=
  String.concat entrySeparator (map printEntry rs).

(** A field the format can carry: trimmed and non-empty, on one line,
    without the separator. *)
Definition fieldPrintable (s : string) : bool :=
  wf_field s && negb (JS.includes s newline) && negb (JS.includes s "---").

Definition printable (r : PasswordRecord) : bool :=
  fieldPrintable (site r) && fieldPrintable (user r) && fieldPrintable (pass r).

(** ** Lemmas on the line scan *)

Definition fields_trimmed (f : EntryFields) : Prop :=
  JS.trim (websiteName f) = websiteName f /\ JS.trim (websiteUrl f) = websiteUrl f /\
  JS.trim (login f) = login f /\ JS.trim (password f) = password f.

Lemma lineValue_trimmed (line prefix : string) :
  JS.trim (lineValue line prefix) = lineValue line prefix.
Proof. apply JS.trim_idem. Qed.

Lemma scanLine_trimmed (f : EntryFields) (line : string) :
  fields_trimmed f -> fields_trimmed (scanLine f line).
Proof.
  unfold fields_trimmed, scanLine. intros (H1 & H2 & H3 & H4).
  repeat case_if; simpl; rewrite ?lineValue_trimmed; auto.
Qed.

Lemma scan_trimmed (lines : list string) (f : EntryFields) :
  fields_trimmed f -> fields_trimmed (fold_left scanLine lines f).
Proof.
  revert f; induction lines as [|l lines IH]; simpl; auto.
  intros f Hf. apply IH, scanLine_trimmed, Hf.
Qed.

Lemma emptyFields_trimmed : fields_trimmed emptyFields.
Proof. repeat split. Qed.

(** Two prefixes of one string are prefixes of each other. *)
Lemma startsWith_both (s p q : string) :
  JS.startsWith s p = true -> JS.startsWith s q = true ->
  JS.startsWith p q = true \/ JS.startsWith q p = true.
Proof.
  revert s q; induction p as [|c p IH]; intros s q Hp Hq; [now right; destruct q|].
  destruct q as [|d q]; [now left|]. destruct s as [|e s]; [discriminate|].
  simpl in *. bool_simpl. apply Ascii.eqb_eq in H, H1. subst.
  rewrite Ascii.eqb_refl. simpl. eauto.
Qed.

(** The last value of the lines that start with [prefix]. *)
Definition lastValue (prefix : string) (lines : list string) (dflt : string) : string :=
  fold_left (fun acc l => if JS.startsWith l prefix then lineValue l prefix else acc) lines dflt.

Ltac prefix_clash :=
  match goal with
  | H1 : JS.startsWith ?l ?p = true, H2 : JS.startsWith ?l ?q = true |- _ =>
      destruct (startsWith_both _ _ _ H1 H2) as [Hc | Hc]; vm_compute in Hc; discriminate
  end.

(** A field of the scan is the value of the last line with its prefix:
    the four prefixes are pairwise not prefixes of each other, so a line
    takes exactly the branch of its own prefix. *)
Ltac scan_field lines :=
  let l := fresh "l" in let ls := fresh "ls" in let IH := fresh "IH" in
  let f := fresh "f" in
  unfold lastValue; intros f; revert f; induction lines as [|l ls IH]; intros f;
  cbn [fold_left]; auto; rewrite IH; f_equal; unfold scanLine;
  repeat case_if; cbn [websiteName websiteUrl login password]; auto; prefix_clash.

Section Scan.
Context (lines : list string).

Lemma scan_websiteName :
  forall f, websiteName (fold_left scanLine lines f) = lastValue prefixName lines (websiteName f).
Proof. scan_field lines. Qed.

Lemma scan_websiteUrl :
  forall f, websiteUrl (fold_left scanLine lines f) = lastValue prefixUrl lines (websiteUrl f).
Proof. scan_field lines. Qed.

Lemma scan_login :
  forall f, login (fold_left scanLine lines f) = lastValue prefixLogin lines (login f).
Proof. scan_field lines. Qed.

Lemma scan_password :
  forall f, password (fold_left scanLine lines f) = lastValue prefixPassword lines (password f).
Proof. scan_field lines. Qed.

End Scan.

(** ** Lemmas on entries *)

Section EntryLemmas.
Context {U : UrlParser}.

Definition scanEntry (entry : string) : EntryFields :=
  fold_left scanLine (entryLines entry) emptyFields.

Lemma resolveSite_trimmed (f : EntryFields) :
  fields_trimmed f -> JS.trim (resolveSite f) = resolveSite f.
Proof.
  intros (H1 & H2 & _). unfold resolveSite, JS.or.
  destruct (_ && _).
  - destruct (url_hostname (websiteUrl f)) as [h|] eqn:E; auto.
    apply JS.trim_no_space. eapply url_hostname_no_space; eauto.
  - destruct (JS.truthy (websiteName f)); auto.
Qed.

Lemma trimmed_truthy_wf (s : string) :
  JS.trim s = s -> JS.truthy s = true -> wf_field s = true.
Proof. intros H1 H2. unfold wf_field. rewrite H1, H2. apply String.eqb_refl. Qed.

Lemma parseEntry_Some (entry : string) (r : PasswordRecord) :
  parseEntry entry = Some r <->
  r = mkRecord (resolveSite (scanEntry entry)) (login (scanEntry entry)) (password (scanEntry entry))
  /\ nonempty_record r = true.
Proof.
  unfold parseEntry, nonempty_record. fold (scanEntry entry).
  destruct (_ && _ && _) eqn:E; split.
  - intros [= <-]. split; auto.
  - intros [-> _]. reflexivity.
  - discriminate.
  - intros [-> H]. simpl in H. congruence.
Qed.

Lemma parseEntry_wf (entry : string) (r : PasswordRecord) :
  parseEntry entry = Some r -> wf_record r = true.
Proof.
  intros [-> H]%parseEntry_Some. unfold nonempty_record in H. simpl in *. bool_simpl.
  pose proof (scan_trimmed (entryLines entry) _ emptyFields_trimmed) as Ht.
  fold (scanEntry entry) in Ht. pose proof (resolveSite_trimmed _ Ht) as Hs.
  destruct Ht as (_ & _ & H3 & H4). unfold wf_record. simpl.
  now rewrite !trimmed_truthy_wf.
Qed.

Lemma parseTextFormat_entries (content : string) :
  parseTextFormat content = filter_map parseEntry (textEntries content).
Proof. unfold parseTextFormat. now autorewrite with pm_rw. Qed.


Lemma lastValue_found (prefix : string) (ls : list string) (d : string) :
  lastValue prefix ls d <> d -> exists l, In l ls /\ JS.startsWith l prefix = true.
Proof.
  unfold lastValue. revert d; induction ls as [|l ls IH]; intros d H; cbn [fold_left] in H; [congruence|].
  destruct (JS.startsWith l prefix) eqn:E; [exists l; split; [now left|exact E]|].
  destruct (IH d H) as (l' & Hl' & Hs). exists l'. split; [now right|exact Hs].
Qed.

Lemma entryLines_substr (e l : string) :
  In l (entryLines e) -> exists x y, e = x ++ l ++ y.
Proof.
  unfold entryLines. intros (Hin & _)%filter_In. apply in_map_iff in Hin as (l0 & <- & Hl0).
  destruct (JS.split_substr e newline l0 ltac:(discriminate) Hl0) as (x & y & ->).
  destruct (JS.trim_substr l0) as (x' & y' & E). set (t := JS.trim l0) in *. rewrite E.
  exists (x ++ x'), (y' ++ y). now rewrite !str_app_assoc.
Qed.

Lemma textEntries_substr (content e : string) :
  In e (textEntries content) -> exists x y, content = x ++ e ++ y.
Proof.
  unfold textEntries. intros (Hin & _)%filter_In. now apply JS.split_substr in Hin.
Qed.

Lemma lastValue_cases (p : string) (ls : list string) (d : string) :
  lastValue p ls d = d \/
  exists l, In l ls /\ JS.startsWith l p = true /\ lastValue p ls d = lineValue l p.
Proof.
  unfold lastValue. revert d; induction ls as [|l ls IH]; intros d; cbn [fold_left]; [now left|].
  destruct (IH (if JS.startsWith l p then lineValue l p else d)) as [E | (l' & Hl' & Hs & E)].
  - rewrite E. destruct (JS.startsWith l p) eqn:Hs; [right; exists l; auto using in_eq|now left].
  - right. exists l'. auto using in_cons.
Qed.

Lemma lineValue_substr (l p : string) :
  JS.startsWith l p = true -> exists x y, l = x ++ lineValue l p ++ y.
Proof.
  intros Hs. unfold lineValue. rewrite JS.replace_prefix by exact Hs. cbn [append].
  destruct (JS.trim_substr (JS.drop (String.length p) l)) as (x & y & E).
  exists (p ++ x), y. rewrite str_app_assoc, <- E. exact (JS.startsWith_drop l p Hs).
Qed.

(** A value read from the lines of an entry is a substring of the entry,
    so it has no substring the entry lacks. *)
Lemma lastValue_no_substr (p q e : string) :
  q <> "" -> JS.includes e q = false -> JS.includes (lastValue p (entryLines e) "") q = false.
Proof.
  intros Hq He. destruct (lastValue_cases p (entryLines e) "") as [E | (l & Hl & Hs & E)]; rewrite E.
  - destruct q; [congruence|reflexivity].
  - destruct (entryLines_substr e l Hl) as (x & y & Ex).
    destruct (lineValue_substr l p Hs) as (x' & y' & Ey).
    apply (JS.includes_substr_false _ l x' y' q Ey).
    exact (JS.includes_substr_false _ e x y q Ex He).
Qed.

(** A kept entry is a piece of the content's split on [---]. *)
Lemma textEntries_no_dashes (content e : string) :
  In e (textEntries content) -> JS.includes e "---" = false.
Proof.
  unfold textEntries. intros (Hin & _)%filter_In. exact (JS.split_no_sep content "---" e ltac:(discriminate) Hin).
Qed.

(** A kept entry has a [Login:] line, so its text mentions [Login:]. *)
Lemma parseEntry_includes_login (entry : string) (r : PasswordRecord) :
  parseEntry entry = Some r -> JS.includes entry prefixLogin = true.
Proof.
  intros [-> Hne]%parseEntry_Some. unfold nonempty_record in Hne. cbn [user] in Hne.
  apply andb_prop in Hne as [Hu _]. apply andb_prop in Hu as [_ Hu].
  unfold scanEntry in Hu. rewrite scan_login in Hu. change (login emptyFields) with "" in Hu.
  destruct (lastValue_found prefixLogin (entryLines entry) "") as (l & Hl & Hs).
  { intros E. rewrite E in Hu. discriminate. }
  destruct (entryLines_substr entry l Hl) as (x & y & Ex).
  apply (JS.includes_substr l entry x y _ Ex). apply JS.includes_spec.
  apply JS.startsWith_spec in Hs as (rest & ->). now exists "", rest.
Qed.

(** Content from which the text parser reads a record is recognised by
    [isTextFormat]. *)
Lemma parseTextFormat_isTextFormat (content : string) :
  parseTextFormat content <> [] -> isTextFormat content = true.
Proof.
  rewrite parseTextFormat_entries. intros Hne.
  destruct (filter_map parseEntry (textEntries content)) as [|r rs] eqn:E; [congruence|].
  assert (Hr : In r (filter_map parseEntry (textEntries content))) by (rewrite E; now left).
  apply In_filter_map in Hr as (e & He & Hp).
  destruct (textEntries_substr content e He) as (x & y & Ex).
  pose proof (JS.includes_substr e content x y _ Ex (parseEntry_includes_login e r Hp)) as Hc.
  unfold isTextFormat. rewrite Hc. now rewrite !orb_true_r.
Qed.

Lemma textLine_includes (p v q : string) :
  q <> "" -> (forall x, In x (list_ascii_of_string q) -> x <> " "%char) ->
  JS.includes p q = false -> JS.includes v q = false -> JS.includes (textLine p v) q = false.
Proof. intros. now apply JS.includes_app_char. Qed.

Lemma printEntry_eq (r : PasswordRecord) :
  printEntry r = textLine prefixName (site r) ++ String nl (textLine prefixLogin (user r)
                 ++ String nl (textLine prefixPassword (pass r))).
Proof. reflexivity. Qed.

Lemma dashes_no_space : forall x, In x (list_ascii_of_string "---") -> x <> " "%char.
Proof. intros x [<-|[<-|[<-|[]]]]; discriminate. Qed.
Lemma dashes_no_nl : forall x, In x (list_ascii_of_string "---") -> x <> nl.
Proof. intros x [<-|[<-|[<-|[]]]]; discriminate. Qed.
Lemma newline_no_space : forall x, In x (list_ascii_of_string newline) -> x <> " "%char.
Proof. intros x [<-|[]]; discriminate. Qed.

Lemma printable_fields (r : PasswordRecord) :
  printable r = true ->
  Forall (fun v => wf_field v = true /\ JS.includes v newline = false /\ JS.includes v "---" = false)
         [site r; user r; pass r].
Proof.
  unfold printable, fieldPrintable. intros H. bool_simpl.
  repeat constructor; auto.
Qed.

Lemma printEntry_no_dashes (r : PasswordRecord) :
  printable r = true -> JS.includes (printEntry r) "---" = false.
Proof.
  intros H. apply printable_fields in H.
  inversion_clear H as [|? ? (_ & _ & Hs) H1]. inversion_clear H1 as [|? ? (_ & _ & Hu) H2].
  inversion_clear H2 as [|? ? (_ & _ & Hp) _].
  rewrite printEntry_eq.
  repeat (apply JS.includes_app_char; [discriminate|apply dashes_no_nl| |]);
    apply textLine_includes; auto using dashes_no_space; try discriminate; reflexivity.
Qed.

Lemma wf_field_trimEnd (v : string) : wf_field v = true -> JS.trimEnd v = v /\ v <> "".
Proof.
  unfold wf_field. intros H. bool_simpl. split; [now apply JS.trim_fixed_trimEnd|].
  now apply JS.truthy_iff.
Qed.

Lemma trim_textLine (c : ascii) (p v : string) :
  JS.is_space c = false -> wf_field v = true ->
  JS.trim (textLine (String c p) v) = textLine (String c p) v.
Proof.
  intros Hc (Hv & Hne)%wf_field_trimEnd. unfold JS.trim, textLine.
  rewrite <- (str_app_nil_r (String c p ++ String " " v)) at 1. cbn [append].
  rewrite JS.trimStart_head by exact Hc. rewrite str_app_nil_r.
  change (String c (p ++ String " " v)) with (String c p ++ String " " v).
  rewrite JS.trimEnd_app; [f_equal|]; rewrite JS.trimEnd_cons, Hv; destruct v; congruence.
Qed.

Lemma textLine_truthy (p v : string) : JS.truthy (textLine p v) = true.
Proof. destruct p; reflexivity. Qed.

Lemma split_line3 (L1 L2 L3 : string) (post : bool) :
  JS.includes L1 newline = false -> JS.includes L2 newline = false -> JS.includes L3 newline = false ->
  JS.split (L1 ++ String nl (L2 ++ String nl (L3 ++ opt_nl post))) newline
  = ([L1; L2; L3] ++ (if post then [""] else []))%list.
Proof.
  intros H1 H2 H3. unfold opt_nl, newline in *.
  rewrite !JS.split_char_app by now apply JS.includes_char_notin. destruct post.
  - rewrite JS.split_char_app by now apply JS.includes_char_notin. reflexivity.
  - rewrite str_app_nil_r, JS.split_sepFree by (discriminate || now apply JS.sepFree_nil).
    reflexivity.
Qed.


Lemma textLine_no_newline (c : ascii) (p v : string) :
  JS.includes (String c p) newline = false -> JS.includes v newline = false ->
  JS.includes (textLine (String c p) v) newline = false.
Proof. intros. apply textLine_includes; auto using newline_no_space; discriminate. Qed.

Lemma entryLines_printed (r : PasswordRecord) (pre post : bool) :
  printable r = true ->
  entryLines (opt_nl pre ++ printEntry r ++ opt_nl post)
  = [textLine prefixName (site r); textLine prefixLogin (user r); textLine prefixPassword (pass r)].
Proof.
  intros H. apply printable_fields in H.
  inversion_clear H as [|? ? (Ws & Ns & _) H1]. inversion_clear H1 as [|? ? (Wu & Nu & _) H2].
  inversion_clear H2 as [|? ? (Wp & Np & _) _].
  unfold entryLines. rewrite printEntry_eq, !str_app_assoc. cbn [append]. rewrite !str_app_assoc. cbn [append].
  assert (E : forall X, JS.split (opt_nl pre ++ X) newline
                        = ((if pre then [""] else []) ++ JS.split X newline)%list).
  { intros X. destruct pre; [apply JS.split_cons_sep; discriminate|reflexivity]. }
  rewrite E. rewrite split_line3 by (apply textLine_no_newline; auto).
  rewrite !map_app, !filter_app. cbn [map filter].
  unfold prefixName, prefixLogin, prefixPassword.
  rewrite !trim_textLine, !textLine_truthy by (reflexivity || assumption).
  destruct pre, post; reflexivity.
Qed.

Lemma lineValue_textLine (p v : string) : wf_field v = true -> lineValue (textLine p v) p = v.
Proof.
  unfold wf_field, lineValue, textLine. intros H. bool_simpl.
  rewrite JS.replace_prefix by apply JS.startsWith_app. rewrite JS.drop_app.
  exact H0.
Qed.

Lemma textLine_startsWith (p v : string) : JS.startsWith (textLine p v) p = true.
Proof. apply JS.startsWith_app. Qed.

Lemma scanLine_name (f : EntryFields) (v : string) :
  wf_field v = true -> scanLine f (textLine prefixName v) = mkFields v (websiteUrl f) (login f) (password f).
Proof. intros H. unfold scanLine. now rewrite textLine_startsWith, lineValue_textLine. Qed.

Lemma scanLine_login (f : EntryFields) (v : string) :
  wf_field v = true -> scanLine f (textLine prefixLogin v) = mkFields (websiteName f) (websiteUrl f) v (password f).
Proof.
  intros H. unfold scanLine.
  change (JS.startsWith (textLine prefixLogin v) prefixName) with false.
  change (JS.startsWith (textLine prefixLogin v) prefixUrl) with false. cbv iota.
  now rewrite textLine_startsWith, lineValue_textLine.
Qed.

Lemma scanLine_password (f : EntryFields) (v : string) :
  wf_field v = true -> scanLine f (textLine prefixPassword v) = mkFields (websiteName f) (websiteUrl f) (login f) v.
Proof.
  intros H. unfold scanLine.
  change (JS.startsWith (textLine prefixPassword v) prefixName) with false.
  change (JS.startsWith (textLine prefixPassword v) prefixUrl) with false.
  change (JS.startsWith (textLine prefixPassword v) prefixLogin) with false. cbv iota.
  now rewrite textLine_startsWith, lineValue_textLine.
Qed.

Lemma parseEntry_printed (r : PasswordRecord) (pre post : bool) :
  printable r = true -> parseEntry (opt_nl pre ++ printEntry r ++ opt_nl post) = Some r.
Proof.
  intros H. unfold parseEntry. rewrite entryLines_printed by exact H.
  unfold printable, fieldPrintable in H. bool_simpl.
  cbn [fold_left]. rewrite scanLine_name, scanLine_login, scanLine_password by assumption.
  unfold resolveSite, JS.or. cbn [websiteName websiteUrl login password].
  destruct r as [s u p]; cbn [site user pass] in *.
  destruct s, u, p; try discriminate; reflexivity.
Qed.

Lemma includes_opt_nl (b : bool) (s : string) :
  JS.includes (opt_nl b ++ s) "---" = JS.includes s "---".
Proof. destruct b; reflexivity. Qed.

Lemma printEntry_head (r : PasswordRecord) : exists rest, printEntry r = String "W" rest.
Proof. eexists. reflexivity. Qed.

Lemma printed_trim_truthy (r : PasswordRecord) (pre : bool) (Y : string) :
  JS.truthy (JS.trim (opt_nl pre ++ printEntry r ++ Y)) = true.
Proof.
  destruct (printEntry_head r) as (rest & ->). unfold JS.trim.
  replace (JS.trimStart (opt_nl pre ++ String "W" rest ++ Y)) with (String "W" (rest ++ Y))
    by (destruct pre; reflexivity).
  apply JS.truthy_iff, JS.trimEnd_head. reflexivity.
Qed.

Lemma printTextFormat_cons (r r' : PasswordRecord) (rs : list PasswordRecord) :
  printTextFormat (r :: r' :: rs) = printEntry r ++ entrySeparator ++ printTextFormat (r' :: rs).
Proof. reflexivity. Qed.

Lemma parse_printed (rs : list PasswordRecord) (pre : bool) :
  Forall (fun r => printable r = true) rs -> rs <> [] ->
  filter_map parseEntry (textEntries (opt_nl pre ++ printTextFormat rs)) = rs.
Proof.
  intros H. revert pre. induction H as [|r rs Hr Hrs IH]; intros pre Hne; [congruence|].
  unfold textEntries. destruct rs as [|r' rs].
  - change (printTextFormat [r]) with (printEntry r).
    rewrite JS.split_sepFree by (discriminate || apply JS.sepFree_nil;
      rewrite includes_opt_nl; now apply printEntry_no_dashes).
    cbn [filter]. rewrite <- (str_app_nil_r (printEntry r)), printed_trim_truthy.
    cbn [filter_map]. change "" with (opt_nl false). now rewrite parseEntry_printed.
  - assert (E : opt_nl pre ++ printTextFormat (r :: r' :: rs)
                 = ((opt_nl pre ++ printEntry r) ++ String nl "") ++ "---"
                   ++ (opt_nl true ++ printTextFormat (r' :: rs))).
    { rewrite printTextFormat_cons. unfold entrySeparator. now rewrite !str_app_assoc. }
    rewrite E.
    rewrite JS.split_app_sep; [|discriminate|apply JS.sepFree_char;
      [discriminate|apply dashes_no_nl|rewrite includes_opt_nl; now apply printEntry_no_dashes]].
    cbn [filter]. rewrite str_app_assoc, printed_trim_truthy. cbn [filter_map].
    change (String nl "") with (opt_nl true). rewrite parseEntry_printed by exact Hr.
    f_equal. apply IH. discriminate.
Qed.

End EntryLemmas.

(** ** Properties of the text parser *)

Section TextProperties.
Context {U : UrlParser}.

(** C7: Every record [parseTextFormat] returns satisfies the record
    invariant of the spec: site, user and password are non-empty and
    equal to their own trim, whatever the content. *)
Theorem parseTextFormat_wf (content : string) :
  Forall (fun r => wf_record r = true) (parseTextFormat content).
Proof.
  rewrite parseTextFormat_entries. apply Forall_filter_map. apply parseEntry_wf.
Qed.

(** C21: An entry is dropped exactly when its resolved site, its login or
    its password is empty. *)
Theorem parseEntry_dropped (entry : string) :
  parseEntry entry = None <->
  resolveSite (scanEntry entry) = "" \/ login (scanEntry entry) = "" \/
  password (scanEntry entry) = "".
Proof.
  unfold parseEntry. fold (scanEntry entry).
  destruct (resolveSite _) as [|a s]; destruct (login _) as [|b l];
    destruct (password _) as [|c p]; simpl; split; intros H;
    try discriminate; try (intuition discriminate); auto.
Qed.

(** C22: In a kept entry, the login and the password are the values of the
    last [Login:] and [Password:] lines, and the site is resolved from
    the values of the last [Website name:] and [Website URL:] lines:
    each recognised prefix overrides its earlier lines. *)
Theorem parseEntry_last_values (entry : string) (r : PasswordRecord) :
  parseEntry entry = Some r ->
  let ls := entryLines entry in
  user r = lastValue prefixLogin ls "" /\
  pass r = lastValue prefixPassword ls "" /\
  site r = resolveSite (mkFields (lastValue prefixName ls "") (lastValue prefixUrl ls "")
                                 (lastValue prefixLogin ls "") (lastValue prefixPassword ls "")).
Proof.
  intros [-> _]%parseEntry_Some. unfold scanEntry. simpl.
  rewrite scan_login, scan_password. repeat split.
  f_equal. destruct (fold_left _ _ _) eqn:E.
  rewrite <- (scan_websiteName _ emptyFields), <- (scan_websiteUrl _ emptyFields),
    <- (scan_login _ emptyFields), <- (scan_password _ emptyFields), E.
  reflexivity.
Qed.

(** C6: Text written in the documented format (a [Website name:],
    [Login:] and [Password:] line per record, records separated by
    [---] lines) parses back to exactly its records, in order, whenever
    each field is trimmed, non-empty, on one line and free of [---]. *)
Theorem parseTextFormat_print (rs : list PasswordRecord) :
  Forall (fun r => printable r = true) rs -> parseTextFormat (printTextFormat rs) = rs.
Proof.
  intros H. destruct rs as [|r rs]; [reflexivity|].
  rewrite parseTextFormat_entries. apply (parse_printed _ false H). discriminate.
Qed.

(** C36: No content whatever yields a record whose login or password
    contains [---]: the content is split on every [---], inside lines
    too, so a value with [---] cannot be imported from the text format
    (the spec separates entries by [---] lines only). *)
Theorem parseTextFormat_no_dashes (content : string) (r : PasswordRecord) :
  In r (parseTextFormat content) ->
  JS.includes (user r) "---" = false /\ JS.includes (pass r) "---" = false.
Proof.
  rewrite parseTextFormat_entries. intros (e & He & Hp)%In_filter_map.
  apply textEntries_no_dashes in He. apply parseEntry_Some in Hp as [-> _].
  unfold scanEntry. cbn [user pass]. rewrite scan_login, scan_password.
  split; apply lastValue_no_substr; auto; discriminate.
Qed.

End TextProperties.

(** ** Concrete runs with the WHATWG host-name instance *)

(** A text file given by its lines. *)
Definition linesText (ls : list string) : string := String.concat newline ls.

(** The end-to-end scenario of the spec: a named entry and a URL
    entry separated by a [---] line parse to two records, the second
    with the URL's host name as its site. *)
Example parseTextFormat_spec_scenario :
  parseTextFormat (linesText ["Website name: Bank"; "Login: alice"; "Password: pw1"; "---";
                              "Website URL: http://x.com"; "Login: bob"; "Password: pw2"])
  = [mkRecord "Bank" "alice" "pw1"; mkRecord "x.com" "bob" "pw2"].
Proof. vm_compute. reflexivity. Qed.

(** [Website URL: https://example.com/login] without a name gives the
    site [example.com]. *)
Example parseTextFormat_url_hostname :
  parseTextFormat (linesText ["Website URL: https://example.com/login"; "Login: u"; "Password: p"])
  = [mkRecord "example.com" "u" "p"].
Proof. vm_compute. reflexivity. Qed.

(** The content is split on every [---], not only on separator lines:
    a password containing [---] is cut, and the record keeps only the
    part before it. *)
Example parseTextFormat_dashes_cut_password :
  parseTextFormat (linesText ["Website name: Bank"; "Login: alice"; "Password: pa---ss"])
  = [mkRecord "Bank" "alice" "pa"].
Proof. vm_compute. reflexivity. Qed.

(** A URL that parses but has an empty host name (a [file:] URL) gives
    an empty site, so the whole entry is dropped instead of falling back
    to the raw URL text. *)
Example parseTextFormat_file_url_dropped :
  parseTextFormat (linesText ["Website URL: file:///home/me/bank.html"; "Login: alice"; "Password: pw"])
  = [].
Proof. vm_compute. reflexivity. Qed.

(** ** Witnesses *)

Lemma parseEntry_last_values_witness :
  let e := linesText ["Login: first"; "Website name: Bank"; "Login: second"; "Password: pw"] in
  let ls := entryLines e in
  user (mkRecord "Bank" "second" "pw") = lastValue prefixLogin ls "" /\
  pass (mkRecord "Bank" "second" "pw") = lastValue prefixPassword ls "" /\
  site (mkRecord "Bank" "second" "pw") =
    resolveSite (mkFields (lastValue prefixName ls "") (lastValue prefixUrl ls "")
                          (lastValue prefixLogin ls "") (lastValue prefixPassword ls "")).
Proof.
  apply (parseEntry_last_values
           (linesText ["Login: first"; "Website name: Bank"; "Login: second"; "Password: pw"])).
  vm_compute. reflexivity.
Defined.

Lemma parseTextFormat_no_dashes_witness :
  JS.includes (user (mkRecord "Bank" "alice" "pa")) "---" = false /\
  JS.includes (pass (mkRecord "Bank" "alice" "pa")) "---" = false.
Proof.
  apply (parseTextFormat_no_dashes (linesText ["Website name: Bank"; "Login: alice"; "Password: pa---ss"])).
  vm_compute. now left.
Defined.

Lemma parseTextFormat_print_witness :
  parseTextFormat (printTextFormat [mkRecord "Bank" "alice" "pw1"; mkRecord "x.com" "bob smith" "p-w 2"])
  = [mkRecord "Bank" "alice" "pw1"; mkRecord "x.com" "bob smith" "p-w 2"].
Proof.
  apply parseTextFormat_print. repeat apply Forall_cons; try apply Forall_nil; vm_compute; reflexivity.
Defined.
