(* ===== verification/Json.v ===== *)
(** * JSON values and the JSON import format

    JSON values as [JSON.parse] builds them and [JSON.stringify] reads
    them, the interface [JsonCodec] standing for the two platform
    functions, and [parseJsonFormat] of src/options.js (101-121), copied
    verbatim in src/popup.js (152-170).  [parseJsonFormat] throws when
    the text is not JSON or not an array; otherwise it keeps the items
    that are truthy and have string [site], [user] and [pass] that are
    non-empty after trimming, and returns their trimmed fields.

    An object keeps its members in source order; property access reads
    the last member with the key, which is the value [JSON.parse] leaves
    in the property.  A number is [m * 10^e] for integers [m] and [e].

    The codec law is the round trip [parse (stringify v) = Some v] for
    values without numbers; the codec also gives the [message] of the
    [SyntaxError] [JSON.parse] throws, which the import's status shows.
    The concrete instance is in [JsonText]. *)

From Stdlib Require Import String Ascii List Bool ZArith Lia.
From S2P Require Import Prelude JsString Record.
Import ListNotations.

Inductive json : Type :=
| JNull
| JBool (b : bool)
| JNumber (m e : Z)
| JString (s : string)
| JArray (items : list json)
| JObject (members : list (string * json)).

(** The errors the import handler's [try] block can catch. *)
Inductive ImportError : Type :=
| JsonSyntaxError        (** [JSON.parse] throws a [SyntaxError] *)
| JsonNotArray           (** 'Formato JSON inválido: esperado um array de senhas' *)
| UnsupportedFormat      (** 'Formato de arquivo não suportado ...' *)
| NoValidPasswords.      (** 'Nenhuma senha válida encontrada no arquivo' *)

(** Values [JSON.stringify] can write and [JSON.parse] reads back
    unchanged: no numbers (their text is the double's shortest
    representation, which the model does not compute). *)
Fixpoint json_plain (v : json) : bool :=
  match v with
  | JNumber _ _ => false
  | JArray items => forallb json_plain items
  | JObject members => forallb (fun kv => json_plain (snd kv)) members
  | _ => true
  end.

(** Induction on JSON values with hypotheses for the members of
    arrays and objects. *)
Section JsonInd.
Variable P : json -> Prop.
Hypothesis HNull : P JNull.
Hypothesis HBool : forall b, P (JBool b).
Hypothesis HNumber : forall m e, P (JNumber m e).
Hypothesis HString : forall s, P (JString s).
Hypothesis HArray : forall items, Forall P items -> P (JArray items).
Hypothesis HObject : forall members, Forall (fun kv => P (snd kv)) members -> P (JObject members).

Fixpoint json_ind' (v : json) : P v :=
  match v with
  | JNull => HNull
  | JBool b => HBool b
  | JNumber m e => HNumber m e
  | JString s => HString s
  | JArray items =>
      HArray items
        ((fix go (l : list json) : Forall P l :=
            match l with
            | [] => Forall_nil _
            | x :: l' => Forall_cons _ (json_ind' x) (go l')
            end) items)
  | JObject members =>
      HObject members
        ((fix go (l : list (string * json)) : Forall (fun kv => P (snd kv)) l :=
            match l with
            | [] => Forall_nil _
            | kv :: l' => Forall_cons _ (json_ind' (snd kv)) (go l')
            end) members)
  end.
End JsonInd.

Class JsonCodec := {
  json_parse : string -> option json;
  json_stringify : json -> string;
  json_roundtrip : forall v, json_plain v = true -> json_parse (json_stringify v) = Some v;
  (** The [message] of the [SyntaxError] [JSON.parse] throws on a text
      it rejects; its wording is the engine's. *)
  json_error_message : string -> string
}.

(** ToBoolean of a JSON value. *)
Definition json_truthy (v : json) : bool :=
  match v with
  | JNull => false
  | JBool b => b
  | JNumber m _ => negb (Z.eqb m 0)
  | JString s => JS.truthy s
  | JArray _ | JObject _ => true
  end.

(** [v[k]]: the last member with key [k] of an object; [undefined]
    ([None]) on every other value, since neither arrays, strings,
    numbers nor booleans have properties [site], [user] or [pass]. *)
Definition getProp (v : json) (k : string) : option json :=
  match v with
  | JObject members =>
      fold_left (fun acc kv => if String.eqb (fst kv) k then Some (snd kv) else acc) members None
  | _ => None
  end.

(** [typeof v[k] === 'string' ? v[k] : ...] *)
Definition stringProp (v : json) (k : string) : option string :=
  match getProp v k with
  | Some (JString s) => Some s
  | _ => None
  end.

(** The [filter] callback of [parseJsonFormat] (options.js 108-116). *)
Definition isValidItem (item : json) : bool :=
  json_truthy item &&
  match stringProp item "site", stringProp item "user", stringProp item "pass" with
  | Some s, Some u, Some p =>
      negb (String.eqb (JS.trim s) "") && negb (String.eqb (JS.trim u) "")
      && negb (String.eqb (JS.trim p) "")
  | _, _, _ => false
  end.

(** The [map] callback (options.js 116-120); applied only to valid items. *)
Definition itemToRecord (item : json) : PasswordRecord :=
  let get k := match stringProp item k with Some s => JS.trim s | None => EmptyString end in
  mkRecord (get "site"%string) (get "user"%string) (get "pass"%string).

Section WithCodec.
Context {C : JsonCodec}.

(** [parseJsonFormat] (options.js 101-121). *)
Definition parseJsonFormat (content : string) : result ImportError (list PasswordRecord) :=
  match json_parse content with
  | None => Err JsonSyntaxError
  | Some (JArray data) => Ok (map itemToRecord (filter isValidItem data))
  | Some _ => Err JsonNotArray
  end.

End WithCodec.

(** ** Lemmas *)

Lemma trim_nonempty_wf (s : string) :
  String.eqb (JS.trim s) "" = false -> wf_field (JS.trim s) = true.
Proof.
  intros H. unfold wf_field. rewrite JS.trim_idem, String.eqb_refl, andb_true_r.
  destruct (JS.trim s); [discriminate|reflexivity].
Qed.

Lemma itemToRecord_wf (item : json) :
  isValidItem item = true -> wf_record (itemToRecord item) = true.
Proof.
  unfold isValidItem, itemToRecord, wf_record. intros H. bool_simpl. revert H0.
  destruct (stringProp item "site") as [s|]; [|intros Hc; discriminate Hc].
  destruct (stringProp item "user") as [u|]; [|intros Hc; discriminate Hc].
  destruct (stringProp item "pass") as [p|]; [|intros Hc; discriminate Hc].
  intros H0. bool_simpl. cbn [site user pass]. now rewrite !trim_nonempty_wf.
Qed.

Lemma parseJsonFormat_wf {C : JsonCodec} (content : string) (rs : list PasswordRecord) :
  parseJsonFormat content = Ok rs -> Forall (fun r => wf_record r = true) rs.
Proof.
  unfold parseJsonFormat. destruct (json_parse content) as [[]|]; try discriminate.
  intros [= <-]. apply Forall_forall. intros r (item & <- & Hin)%in_map_iff.
  apply filter_In in Hin as [_ Hv]. now apply itemToRecord_wf.
Qed.
