(* ===== verification/JsonText.v ===== *)
(** * A concrete JSON codec

    [JSON.stringify(v, null, 2)] and [JSON.parse(text)] on the value type
    of [Json], following ECMA-262 (SerializeJSONProperty with a gap of
    two spaces, QuoteJSONString) and the JSON grammar of RFC 8259:
    white space is space, tab, LF and CR; strings take the backslash
    escapes of quote, backslash, slash, b, f, n, r, t and uXXXX; numbers
    are [-?int frac? exp?].
    Code units are 8-bit, so a u escape above 00FF is outside the
    model and rejected.  A number is kept as [m * 10^e] with no trailing
    zero in [m]; doubles' rounding is not modelled.

    [parse_value] recurses on a fuel; [json_parse] gives it twice the
    length of the text plus two, and [parse_value_ser] shows that a
    printed value is read back with any fuel above its [jsize], which
    the text's length bounds ([jsize_le_ser]).  The round trip
    [json_parse (json_stringify v) = Some v] for number-free values is
    the law of the [JsonCodec] instance [json_text]. *)

From Stdlib Require Import String Ascii List Bool ZArith Lia DecimalString.
From S2P Require Import Prelude JsString Record Json.
Import ListNotations.

Local Open Scope string_scope.

Module JsonText.

Definition chr (n : nat) : ascii := ascii_of_nat n.
Definition chrs (n : nat) : string := String (chr n) EmptyString.

Definition nl : string := chrs 10.
Definition dquote : string := chrs 34.
Definition backslash : string := chrs 92.

(** ** JSON.stringify *)

Definition hex_lower (n : nat) : string :=
  chrs (if Nat.ltb n 10 then 48 + n else 87 + n).

(** QuoteJSONString on one code unit. *)
Definition escape_char (c : ascii) : string :=
  match nat_of_ascii c with
  | 8 => backslash ++ "b"
  | 9 => backslash ++ "t"
  | 10 => backslash ++ "n"
  | 12 => backslash ++ "f"
  | 13 => backslash ++ "r"
  | 34 => backslash ++ dquote
  | 92 => backslash ++ backslash
  | n => if Nat.ltb n 32
         then backslash ++ "u00" ++ hex_lower (Nat.div n 16) ++ hex_lower (Nat.modulo n 16)
         else String c EmptyString
  end.

Fixpoint escape (s : string) : string :=
  match s with
  | EmptyString => EmptyString
  | String c s' => escape_char c ++ escape s'
  end.

Definition quote (s : string) : string := dquote ++ escape s ++ dquote.

Fixpoint zeros (n : nat) : string :=
  match n with
  | O => EmptyString
  | S n' => String "0"%char (zeros n')
  end.

Definition pos_digits (p : positive) : string := NilZero.string_of_uint (Pos.to_uint p).

(** Number::toString for [p * 10^e], [p] with no trailing zero. *)
Definition pos_to_js (p : positive) (e : Z) : string :=
  let ds := pos_digits p in
  let k := Z.of_nat (String.length ds) in
  let n := (k + e)%Z in
  if (k <=? n)%Z && (n <=? 21)%Z then ds ++ zeros (Z.to_nat (n - k))
  else if (0 <? n)%Z && (n <=? 21)%Z then
    substring 0 (Z.to_nat n) ds ++ "." ++ substring (Z.to_nat n) (Z.to_nat (k - n)) ds
  else if (-6 <? n)%Z && (n <=? 0)%Z then "0." ++ zeros (Z.to_nat (- n)) ++ ds
  else
    let e' := (n - 1)%Z in
    substring 0 1 ds ++ (if (k =? 1)%Z then "" else "." ++ substring 1 (Z.to_nat (k - 1)) ds)
    ++ "e" ++ (if (0 <=? e')%Z then "+" else "-") ++ pos_digits (Z.to_pos (Z.abs e')).

Definition number_to_js (m e : Z) : string :=
  match m with
  | Z0 => "0"
  | Zpos p => pos_to_js p e
  | Zneg p => "-" ++ pos_to_js p e
  end.

(** SerializeJSONProperty with a gap of two spaces: [indent] is the
    current indentation. *)
Fixpoint ser (indent : string) (v : json) : string :=
  match v with
  | JNull => "null"
  | JBool true => "true"
  | JBool false => "false"
  | JNumber m e => number_to_js m e
  | JString s => quote s
  | JArray [] => "[]"
  | JArray items =>
      let ind := indent ++ "  " in
      "[" ++ nl ++ ind ++ String.concat ("," ++ nl ++ ind) (map (ser ind) items)
      ++ nl ++ indent ++ "]"
  | JObject [] => "{}"
  | JObject members =>
      let ind := indent ++ "  " in
      "{" ++ nl ++ ind
      ++ String.concat ("," ++ nl ++ ind)
           (map (fun kv => quote (fst kv) ++ ": " ++ ser ind (snd kv)) members)
      ++ nl ++ indent ++ "}"
  end.

Definition stringify (v : json) : string := ser "" v.

(** ** JSON.parse *)

Local Open Scope list_scope.

Definition code (c : ascii) : nat := nat_of_ascii c.

Definition is_json_ws (c : ascii) : bool := existsb (Nat.eqb (code c)) [9; 10; 13; 32].

Fixpoint skip_ws (l : list ascii) : list ascii :=
  match l with
  | [] => []
  | c :: r => if is_json_ws c then skip_ws r else l
  end.

Definition is_digit (c : ascii) : bool := Nat.leb 48 (code c) && Nat.leb (code c) 57.

Definition hex_val (c : ascii) : option nat :=
  let n := code c in
  if is_digit c then Some (n - 48)
  else if Nat.leb 97 n && Nat.leb n 102 then Some (n - 87)
  else if Nat.leb 65 n && Nat.leb n 70 then Some (n - 55)
  else None.

Definition hex4 (a b c d : ascii) : option nat :=
  match hex_val a, hex_val b, hex_val c, hex_val d with
  | Some w, Some x, Some y, Some z => Some (((w * 16 + x) * 16 + y) * 16 + z)
  | _, _, _, _ => None
  end.

(** The one-letter escapes: quote, backslash, slash, b, f, n, r, t. *)
Definition simple_escape (e : ascii) : option ascii :=
  match code e with
  | 34 => Some e
  | 92 => Some e
  | 47 => Some e
  | 98 => Some (chr 8)
  | 102 => Some (chr 12)
  | 110 => Some (chr 10)
  | 114 => Some (chr 13)
  | 116 => Some (chr 9)
  | _ => None
  end.

Definition cons_fst (c : ascii) (o : option (list ascii * list ascii))
  : option (list ascii * list ascii) :=
  match o with
  | Some (s, r) => Some (c :: s, r)
  | None => None
  end.

(** The code units of a string literal after its opening quote, and
    the input after its closing quote. *)
Fixpoint parse_chars (l : list ascii) : option (list ascii * list ascii) :=
  match l with
  | [] => None
  | c :: r =>
      if Nat.eqb (code c) 34 then Some ([], r)
      else if Nat.eqb (code c) 92 then
        match r with
        | [] => None
        | e :: r' =>
            match simple_escape e with
            | Some c' => cons_fst c' (parse_chars r')
            | None =>
                if Nat.eqb (code e) 117 then
                  match r' with
                  | h1 :: h2 :: h3 :: h4 :: r'' =>
                      match hex4 h1 h2 h3 h4 with
                      | Some n =>
                          if Nat.ltb n 256 then cons_fst (ascii_of_nat n) (parse_chars r'')
                          else None
                      | None => None
                      end
                  | _ => None
                  end
                else None
            end
        end
      else if Nat.ltb (code c) 32 then None
      else cons_fst c (parse_chars r)
  end.

Definition digits_value (ds : list ascii) : Z :=
  fold_left (fun acc d => acc * 10 + Z.of_nat (code d - 48))%Z ds 0%Z.

(** [m * 10^e] with the trailing zeros of [m] moved into [e]. *)
Fixpoint normalize (fuel : nat) (m e : Z) : Z * Z :=
  match fuel with
  | O => (m, e)
  | S f =>
      if (m =? 0)%Z then (0%Z, 0%Z)
      else if (Z.rem m 10 =? 0)%Z then normalize f (Z.quot m 10) (e + 1) else (m, e)
  end.

Definition opt_sign (l : list ascii) : bool * list ascii :=
  match l with
  | c :: r => if Nat.eqb (code c) 45 then (true, r)
              else if Nat.eqb (code c) 43 then (false, r) else (false, l)
  | [] => (false, l)
  end.

(** A number: [-? (0 | [1-9][0-9]* ) (. [0-9]+)? ([eE] [+-]? [0-9]+)?]. *)
Definition parse_number (l : list ascii) : option (json * list ascii) :=
  let '(neg, l1) := match l with
                    | c :: r => if Nat.eqb (code c) 45 then (true, r) else (false, l)
                    | [] => (false, l)
                    end in
  let '(ip, l2) := span is_digit l1 in
  match ip with
  | [] => None
  | d :: ds =>
      let '(ip, l2) := if Nat.eqb (code d) 48 then ([d], ds ++ l2) else (ip, l2) in
      let frac := match l2 with
                  | c :: r => if Nat.eqb (code c) 46 then
                                let '(fd, r') := span is_digit r in
                                match fd with [] => None | _ => Some (fd, r') end
                              else Some ([], l2)
                  | [] => Some ([], l2)
                  end in
      match frac with
      | None => None
      | Some (fd, l3) =>
          let ex := match l3 with
                    | c :: r => if Nat.eqb (code c) 101 || Nat.eqb (code c) 69 then
                                  let '(eneg, r1) := opt_sign r in
                                  let '(ed, r2) := span is_digit r1 in
                                  match ed with
                                  | [] => None
                                  | _ => Some ((if eneg then - digits_value ed else digits_value ed)%Z, r2)
                                  end
                                else Some (0%Z, l3)
                    | [] => Some (0%Z, l3)
                    end in
          match ex with
          | None => None
          | Some (x, l4) =>
              let m := digits_value (ip ++ fd) in
              let '(m', e') := normalize (length (ip ++ fd)) m (x - Z.of_nat (length fd))%Z in
              Some (JNumber (if neg then - m' else m')%Z e', l4)
          end
      end
  end.

Fixpoint strip_prefix (p l : list ascii) : option (list ascii) :=
  match p, l with
  | [], _ => Some l
  | c :: p', d :: l' => if Ascii.eqb c d then strip_prefix p' l' else None
  | _ :: _, [] => None
  end.

Definition keyword (kw : string) (v : json) (l : list ascii) : option (json * list ascii) :=
  match strip_prefix (list_ascii_of_string kw) l with
  | Some r => Some (v, r)
  | None => None
  end.

Fixpoint parse_value (fuel : nat) (l : list ascii) {struct fuel} : option (json * list ascii) :=
  match fuel with
  | O => None
  | S f =>
      match skip_ws l with
      | [] => None
      | c :: r =>
          if Nat.eqb (code c) 110 then keyword "null" JNull (c :: r)
          else if Nat.eqb (code c) 116 then keyword "true" (JBool true) (c :: r)
          else if Nat.eqb (code c) 102 then keyword "false" (JBool false) (c :: r)
          else if Nat.eqb (code c) 34 then
            match parse_chars r with
            | Some (s, r') => Some (JString (string_of_list_ascii s), r')
            | None => None
            end
          else if Nat.eqb (code c) 91 then
            match skip_ws r with
            | d :: r' => if Nat.eqb (code d) 93 then Some (JArray [], r') else parse_elements f r []
            | [] => None
            end
          else if Nat.eqb (code c) 123 then
            match skip_ws r with
            | d :: r' => if Nat.eqb (code d) 125 then Some (JObject [], r') else parse_members f r []
            | [] => None
            end
          else if Nat.eqb (code c) 45 || is_digit c then parse_number (c :: r)
          else None
      end
  end
with parse_elements (fuel : nat) (l : list ascii) (acc : list json) {struct fuel}
  : option (json * list ascii) :=
  match fuel with
  | O => None
  | S f =>
      match parse_value f l with
      | None => None
      | Some (v, r) =>
          match skip_ws r with
          | d :: r' =>
              if Nat.eqb (code d) 44 then parse_elements f r' (acc ++ [v])
              else if Nat.eqb (code d) 93 then Some (JArray (acc ++ [v]), r')
              else None
          | [] => None
          end
      end
  end
with parse_members (fuel : nat) (l : list ascii) (acc : list (string * json)) {struct fuel}
  : option (json * list ascii) :=
  match fuel with
  | O => None
  | S f =>
      match skip_ws l with
      | d :: r =>
          if negb (Nat.eqb (code d) 34) then None else
          match parse_chars r with
          | None => None
          | Some (k, r1) =>
              match skip_ws r1 with
              | col :: r2 =>
                  if negb (Nat.eqb (code col) 58) then None else
                  match parse_value f r2 with
                  | None => None
                  | Some (v, r3) =>
                      let acc' := acc ++ [(string_of_list_ascii k, v)] in
                      match skip_ws r3 with
                      | e :: r4 =>
                          if Nat.eqb (code e) 44 then parse_members f r4 acc'
                          else if Nat.eqb (code e) 125 then Some (JObject acc', r4)
                          else None
                      | [] => None
                      end
                  end
              | [] => None
              end
          end
      | [] => None
      end
  end.

Definition parse (text : string) : option json :=
  let l := list_ascii_of_string text in
  match parse_value (2 * length l + 2) l with
  | Some (v, r) => match skip_ws r with [] => Some v | _ => None end
  | None => None
  end.

End JsonText.

(** ** The round trip *)

Module JsonTextProofs.
Import JsonText.
Local Open Scope list_scope.

Local Abbreviation las := list_ascii_of_string.

Lemma las_app (a b : string) : las (a ++ b)%string = las a ++ las b.
Proof. induction a; simpl; congruence. Qed.

#[local] Hint Rewrite las_app : pm_rw.

Lemma parse_chars_escape_char (c : ascii) (t : list ascii) :
  parse_chars (las (escape_char c) ++ t) = cons_fst c (parse_chars t).
Proof. destruct c as [[] [] [] [] [] [] [] []]; reflexivity. Qed.

Lemma parse_chars_quoted (s : string) (rest : list ascii) :
  parse_chars (las (escape s ++ dquote)%string ++ rest) = Some (las s, rest).
Proof.
  induction s as [|c s IH]; [reflexivity|].
  simpl escape. rewrite str_app_assoc, las_app, <- app_assoc, parse_chars_escape_char, IH.
  reflexivity.
Qed.

Definition blank (s : string) : bool := forallb is_json_ws (las s).

Lemma skip_ws_blank (b : string) (l : list ascii) :
  blank b = true -> skip_ws (las b ++ l) = skip_ws l.
Proof.
  unfold blank. induction b as [|c b IH]; simpl; auto.
  intros H. bool_simpl. rewrite H. auto.
Qed.

Lemma parse_value_blank (fuel : nat) (b : string) (l : list ascii) :
  blank b = true -> parse_value fuel (las b ++ l) = parse_value fuel l.
Proof. intros H. destruct fuel; simpl; [reflexivity|]. now rewrite skip_ws_blank. Qed.

Lemma blank_indent (ind : string) : blank ind = true -> blank (ind ++ "  ") = true.
Proof. unfold blank. intros H. rewrite las_app, forallb_app, H. reflexivity. Qed.

Lemma blank_app (a b : string) : blank a = true -> blank b = true -> blank (a ++ b) = true.
Proof. unfold blank. intros Ha Hb. now rewrite las_app, forallb_app, Ha, Hb. Qed.

Lemma blank_nl : blank nl = true.
Proof. reflexivity. Qed.

Lemma blank_sp : blank " " = true.
Proof. reflexivity. Qed.

#[local] Hint Resolve blank_app blank_nl blank_sp blank_indent : pm.

(** The fuel a printed value needs. *)
Fixpoint jsize (v : json) : nat :=
  match v with
  | JArray items => S (list_sum (map (fun x => S (jsize x)) items))
  | JObject members => S (list_sum (map (fun kv => S (jsize (snd kv))) members))
  | _ => 1
  end.

(** The first code unit of a printed plain value is not white space and
    does not close an array or an object. *)
Lemma ser_head (ind : string) (v : json) :
  json_plain v = true ->
  exists c t, las (ser ind v) = c :: t /\ is_json_ws c = false /\
              Nat.eqb (code c) 93 = false /\ Nat.eqb (code c) 125 = false.
Proof.
  destruct v as [| [] | | s | [|x l] | [|kv l]]; simpl; intros H; try discriminate;
    eexists _, _; repeat split.
Qed.

Lemma skip_ws_ser (ind : string) (v : json) (rest : list ascii) :
  json_plain v = true -> skip_ws (las (ser ind v) ++ rest) = las (ser ind v) ++ rest.
Proof.
  intros H. destruct (ser_head ind v H) as (c & t & -> & Hc & _). simpl. now rewrite Hc.
Qed.

Create Rewrite HintDb las_db.
#[local] Hint Rewrite las_app : las_db.
#[local] Hint Rewrite <- app_assoc : las_db.

Definition rt_prop (v : json) : Prop :=
  json_plain v = true -> forall ind fuel rest, blank ind = true -> jsize v < fuel ->
  parse_value fuel (las (ser ind v) ++ rest) = Some (v, rest).

Lemma skip_ws_nonws c l : is_json_ws c = false -> skip_ws (c :: l) = c :: l.
Proof. simpl. now intros ->. Qed.

Lemma parse_elements_ser (ind ci : string) (items : list json) :
  Forall rt_prop items -> forallb json_plain items = true -> blank ind = true ->
  blank ci = true -> items <> [] ->
  forall pre fuel acc rest, blank pre = true ->
  list_sum (map (fun x => S (jsize x)) items) < fuel ->
  parse_elements fuel
    (las (pre ++ String.concat ("," ++ nl ++ ind) (map (ser ind) items) ++ nl ++ ci ++ "]")
     ++ rest) acc
  = Some (JArray (acc ++ items), rest).
Proof.
  intros Hall Hplain Hind Hci Hne.
  induction items as [|x l IH]; [congruence|]. intros pre fuel acc rest Hpre Hfuel.
  inversion Hall as [|? ? Hx Hl]; subst. simpl in Hplain. bool_simpl.
  destruct fuel as [|f]; [simpl in Hfuel; lia|]. simpl in Hfuel.
  destruct l as [|y l].
  - simpl String.concat. autorewrite with las_db. cbn [parse_elements].
    rewrite parse_value_blank by auto. unfold rt_prop in Hx. rewrite Hx by (auto; lia).
    rewrite !skip_ws_blank by auto. reflexivity.
  - rewrite map_cons, JS.concat_cons_nonnil by discriminate.
    autorewrite with las_db. cbn [parse_elements].
    rewrite parse_value_blank by auto. unfold rt_prop in Hx. rewrite Hx by (auto; simpl in *; lia).
    change (las ",") with [","%char]. rewrite <- app_comm_cons, skip_ws_nonws by reflexivity. cbv beta iota.
    change (code ","%char =? 44)%nat with true. cbv beta iota.
    specialize (IH Hl H0 ltac:(discriminate) (nl ++ ind)%string f (acc ++ [x]) rest).
    autorewrite with las_db in IH. rewrite app_nil_l, IH by (auto with pm; simpl in *; lia).
    reflexivity.
Qed.
Lemma parse_chars_quoted' (s : string) (rest : list ascii) :
  parse_chars (las (escape s) ++ las dquote ++ rest) = Some (las s, rest).
Proof. rewrite app_assoc, <- las_app. apply parse_chars_quoted. Qed.

Lemma concat_single (sep x : string) : String.concat sep [x] = x.
Proof. reflexivity. Qed.

Lemma parse_members_blank (fuel : nat) (b : string) (l : list ascii) acc :
  blank b = true -> parse_members fuel (las b ++ l) acc = parse_members fuel l acc.
Proof. intros H. destruct fuel; simpl; [reflexivity|]. now rewrite skip_ws_blank. Qed.

Lemma parse_members_key (f : nat) (k : string) (L : list ascii) (acc : list (string * json)) :
  parse_members (S f) (las (quote k) ++ las ": " ++ L) acc =
  match parse_value f L with
  | None => None
  | Some (v, r3) =>
      match skip_ws r3 with
      | e :: r4 =>
          if Nat.eqb (code e) 44 then parse_members f r4 (acc ++ [(k, v)])
          else if Nat.eqb (code e) 125 then Some (JObject (acc ++ [(k, v)]), r4)
          else None
      | [] => None
      end
  end.
Proof.
  unfold quote. autorewrite with las_db. cbn [parse_members].
  change (las dquote) with [chr 34] at 1. cbn [app skip_ws].
  change (is_json_ws (chr 34)) with false. change (negb (code (chr 34) =? 34)%nat) with false.
  cbv beta iota. rewrite parse_chars_quoted'. change (las ": ") with [chr 58; chr 32].
  cbn [app skip_ws]. change (is_json_ws (chr 58)) with false.
  change (negb (code (chr 58) =? 58)%nat) with false. cbv beta iota.
  change (chr 32 :: L) with (las " " ++ L). rewrite parse_value_blank by reflexivity.
  now rewrite string_of_list_ascii_of_string.
Qed.

Lemma parse_members_ser (ind ci : string) (ms : list (string * json)) :
  Forall (fun kv => rt_prop (snd kv)) ms -> forallb (fun kv => json_plain (snd kv)) ms = true ->
  blank ind = true -> blank ci = true -> ms <> [] ->
  forall pre fuel acc rest, blank pre = true ->
  list_sum (map (fun kv => S (jsize (snd kv))) ms) < fuel ->
  parse_members fuel
    (las (pre ++ String.concat ("," ++ nl ++ ind)
                  (map (fun kv => quote (fst kv) ++ ": " ++ ser ind (snd kv))%string ms)
              ++ nl ++ ci ++ "}") ++ rest) acc
  = Some (JObject (acc ++ ms), rest).
Proof.
  intros Hall Hplain Hind Hci Hne.
  induction ms as [|[k v] l IH]; [congruence|]. intros pre fuel acc rest Hpre Hfuel.
  inversion Hall as [|? ? Hx Hl]; subst. simpl in Hplain, Hx. bool_simpl. unfold rt_prop in Hx.
  destruct fuel as [|f]; [simpl in Hfuel; lia|]. simpl in Hfuel.
  destruct l as [|kv' l].
  - rewrite map_cons, concat_single. autorewrite with las_db.
    rewrite parse_members_blank, parse_members_key, Hx by (auto; lia).
    rewrite !skip_ws_blank by auto. reflexivity.
  - rewrite map_cons, JS.concat_cons_nonnil by discriminate.
    autorewrite with las_db.
    rewrite parse_members_blank, parse_members_key, Hx by (auto; simpl in *; lia).
    change (las ",") with [","%char]. rewrite <- app_comm_cons, skip_ws_nonws by reflexivity.
    cbv beta iota. change (code ","%char =? 44)%nat with true. cbv beta iota.
    specialize (IH Hl H0 ltac:(discriminate) (nl ++ ind)%string f (acc ++ [(k, v)]) rest).
    autorewrite with las_db in IH. change (fst (k, v)) with k. rewrite app_nil_l, IH by (auto with pm; simpl in *; lia).
    reflexivity.
Qed.
Lemma concat_cons_prefix (sep a : string) (m : list string) :
  exists tail, String.concat sep (a :: m) = (a ++ tail)%string.
Proof. destruct m; [exists ""; now rewrite str_app_nil_r | eexists; reflexivity]. Qed.

Lemma skip_ws_concat_head (sep a : string) (m : list string) (X : list ascii) c t :
  las a = c :: t -> is_json_ws c = false ->
  exists t', skip_ws (las (String.concat sep (a :: m)) ++ X) = c :: t'.
Proof.
  intros Ha Hc. destruct (concat_cons_prefix sep a m) as [tail ->].
  rewrite las_app, Ha. simpl. rewrite Hc. eauto.
Qed.

Lemma parse_value_array_open (f : nat) (L : list ascii) :
  parse_value (S f) (las "[" ++ L) =
  match skip_ws L with
  | d :: r' => if Nat.eqb (code d) 93 then Some (JArray [], r') else parse_elements f L []
  | [] => None
  end.
Proof. reflexivity. Qed.

Lemma parse_value_object_open (f : nat) (L : list ascii) :
  parse_value (S f) (las "{" ++ L) =
  match skip_ws L with
  | d :: r' => if Nat.eqb (code d) 125 then Some (JObject [], r') else parse_members f L []
  | [] => None
  end.
Proof. reflexivity. Qed.

Lemma parse_value_string_open (f : nat) (L : list ascii) :
  parse_value (S f) (las dquote ++ L) =
  match parse_chars L with
  | Some (s, r') => Some (JString (string_of_list_ascii s), r')
  | None => None
  end.
Proof. reflexivity. Qed.

Lemma parse_value_ser (v : json) : rt_prop v.
Proof.
  induction v as [| b | m e | s | items IH | ms IH] using json_ind';
    unfold rt_prop; intros Hplain ind fuel rest Hind Hfuel;
    destruct fuel as [|f]; try (simpl in Hfuel; lia).
  - reflexivity.
  - destruct b; reflexivity.
  - discriminate.
  - cbn [ser]. unfold quote. autorewrite with las_db.
    rewrite parse_value_string_open, parse_chars_quoted'.
    now rewrite string_of_list_ascii_of_string.
  - destruct items as [|x l]; [reflexivity|]. simpl in Hplain. bool_simpl.
    inversion IH as [|? ? Hx _]; subst.
    cbn [ser]. autorewrite with las_db. rewrite parse_value_array_open.
    rewrite !skip_ws_blank by auto. rewrite map_cons.
    destruct (ser_head (ind ++ "  ") x H) as (c & t & Hct & Hws & H93 & _).
    destruct (skip_ws_concat_head ("," ++ nl ++ ind ++ "  ") _ (map (ser (ind ++ "  ")) l)
                (las nl ++ las ind ++ las "]" ++ rest) _ _ Hct Hws) as [t' ->].
    rewrite H93. rewrite <- map_cons.
    pose proof (parse_elements_ser (ind ++ "  ") ind (x :: l) IH ltac:(simpl; now rewrite H, H0)
                  ltac:(auto with pm) Hind ltac:(discriminate) (nl ++ ind ++ "  ") f [] rest) as E.
    autorewrite with las_db in E. rewrite E; [reflexivity|auto with pm|simpl in *; lia].
  - destruct ms as [|[k x] l]; [reflexivity|]. simpl in Hplain. bool_simpl.
    cbn [ser]. autorewrite with las_db. rewrite parse_value_object_open.
    rewrite !skip_ws_blank by auto. rewrite map_cons.
    destruct (skip_ws_concat_head ("," ++ nl ++ ind ++ "  ")
                (quote (fst (k, x)) ++ ": " ++ ser (ind ++ "  ") (snd (k, x)))%string
                (map (fun kv => quote (fst kv) ++ ": " ++ ser (ind ++ "  ") (snd kv))%string l)
                (las nl ++ las ind ++ las "}" ++ rest) (chr 34)
                _ eq_refl eq_refl)
      as [t' ->].
    change (code (chr 34) =? 125)%nat with false. cbv beta iota.
    pose proof (parse_members_ser (ind ++ "  ") ind ((k, x) :: l) IH
                  ltac:(simpl; now rewrite H, H0) ltac:(auto with pm) Hind ltac:(discriminate)
                  (nl ++ ind ++ "  ") f [] rest) as E.
    autorewrite with las_db in E. cbn [map fst snd] in E |- *.
    rewrite E; [reflexivity|auto with pm|simpl in *; lia].
Qed.

Lemma concat_length_ge (sep : string) (l : list string) :
  list_sum (map String.length l) <= String.length (String.concat sep l).
Proof.
  induction l as [|a l IH]; cbn [map list_sum fold_right]; [simpl; lia|].
  destruct l as [|b l]; [simpl; lia|].
  rewrite JS.concat_cons_nonnil by discriminate. rewrite !str_length_app.
  cbn [map list_sum fold_right] in IH |- *. lia.
Qed.

Lemma list_sum_map_le {A} (f g : A -> nat) (l : list A) :
  Forall (fun x => f x <= g x) l -> list_sum (map f l) <= list_sum (map g l).
Proof. induction 1; simpl; lia. Qed.

Lemma list_sum_map_double {A} (f : A -> nat) (l : list A) :
  list_sum (map (fun y => 2 * f y) l) = 2 * list_sum (map f l).
Proof. unfold list_sum. induction l as [|a l IH]; cbn [map fold_right]; lia. Qed.

Definition size_prop (v : json) : Prop :=
  json_plain v = true -> forall ind, S (jsize v) <= 2 * String.length (ser ind v).

Lemma jsize_le_ser (v : json) : size_prop v.
Proof.
  induction v as [| b | m e | s | items IH | ms IH] using json_ind';
    unfold size_prop; intros Hplain ind; try discriminate.
  - simpl. lia.
  - destruct b; simpl; lia.
  - cbn [ser jsize]. unfold quote. rewrite !str_length_app. simpl. lia.
  - destruct items as [|x l]; [simpl; lia|]. cbn [ser jsize].
    rewrite !str_length_app. cbn [String.length]. rewrite ?str_length_app.
    pose proof (concat_length_ge ("," ++ nl ++ ind ++ "  ") (map (ser (ind ++ "  ")) (x :: l))).
    assert (list_sum (map (fun y => S (jsize y)) (x :: l))
            <= list_sum (map (fun y => 2 * String.length (ser (ind ++ "  ") y)) (x :: l))).
    { apply list_sum_map_le. change (forallb json_plain (x :: l) = true) in Hplain.
      rewrite Forall_forall in IH |- *. intros y Hy. apply IH; auto. eapply forallb_forall in Hplain; eauto. }
    rewrite map_map in *. 
    rewrite list_sum_map_double in *. lia.
  - destruct ms as [|[k x] l]; [simpl; lia|]. cbn [ser jsize].
    rewrite !str_length_app. cbn [String.length]. rewrite ?str_length_app.
    set (F := fun kv : string * json => (quote (fst kv) ++ ": " ++ ser (ind ++ "  ") (snd kv))%string).
    pose proof (concat_length_ge ("," ++ nl ++ ind ++ "  ") (map F ((k, x) :: l))).
    assert (list_sum (map (fun kv => S (jsize (snd kv))) ((k, x) :: l))
            <= list_sum (map (fun kv => 2 * String.length (F kv)) ((k, x) :: l))).
    { apply list_sum_map_le.
      change (forallb (fun kv => json_plain (snd kv)) ((k, x) :: l) = true) in Hplain.
      rewrite Forall_forall in IH |- *. intros y Hy. eapply forallb_forall in Hplain; eauto.
      specialize (IH y Hy Hplain (ind ++ "  ")%string). unfold F.
      rewrite !str_length_app. lia. }
    rewrite map_map in *.
    rewrite list_sum_map_double in *. lia.
Qed.

Lemma las_length (s : string) : length (las s) = String.length s.
Proof. induction s; simpl; auto. Qed.

(** [JSON.parse(JSON.stringify(v, null, 2))] gives back [v] for every
    value without numbers. *)
Lemma parse_stringify (v : json) : json_plain v = true -> parse (stringify v) = Some v.
Proof.
  intros H. unfold parse, stringify.
  pose proof (jsize_le_ser v H "") as Hs. rewrite las_length.
  rewrite <- (app_nil_r (las (ser "" v))), (parse_value_ser v H) by (auto; lia).
  reflexivity.
Qed.
End JsonTextProofs.

#[export] Instance json_text : JsonCodec :=
  {| json_parse := JsonText.parse;
     json_stringify := JsonText.stringify;
     json_roundtrip := JsonTextProofs.parse_stringify;
     json_error_message := fun _ => "Unexpected token in JSON"%string |}.
