(* ===== verification/Merger.v ===== *)
(** * The duplicate-skipping merge of an import

    The loop of src/options.js 55-72 (and src/popup.js 102-116): for
    each imported record in order, [existingPasswords.some(...)] decides
    whether its (site, user) pair is already present, case-insensitively;
    if not, the record is pushed onto [existingPasswords] (so later
    records of the same batch are checked against it) and [addedCount]
    grows, otherwise [duplicateCount] grows.

    [MergeState] is the three variables of the callback, [mergeStep] one
    iteration and [mergePasswords] the whole [forEach].  [dedupAgainst]
    is a reference definition of the records kept; [MergeSpec] is the
    contract of the merge stated over identities and counts, and
    [mergePasswords_refines] shows the loop meets it.  [store_equiv]
    relates stores that agree up to the case of sites and users; the
    [Proper] instance of [dedupAgainst] shows the merge respects it
    ([mergePasswords_case_insensitive]).  Every candidate is counted as
    added exactly when the batch has no duplicate identity
    ([mergePasswords_all_added]). *)

From Stdlib Require Import String List Bool Arith Lia Morphisms Setoid.
From S2P Require Import Prelude JsString Record.
Import ListNotations.

Record MergeState := mkMerge {
  existingPasswords : Store;
  addedCount : nat;
  duplicateCount : nat
}.

(** The body of [importedData.forEach(newPassword => ...)]. *)
Definition mergeStep (st : MergeState) (newPassword : PasswordRecord) : MergeState :=
  if isDuplicate (existingPasswords st) newPassword
  then mkMerge (existingPasswords st) (addedCount st) (S (duplicateCount st))
  else mkMerge (existingPasswords st ++ [newPassword]) (S (addedCount st)) (duplicateCount st).

(** [let addedCount = 0; let duplicateCount = 0; importedData.forEach(...)]. *)
Definition mergePasswords (existing : Store) (importedData : list PasswordRecord) : MergeState :=
  fold_left mergeStep importedData (mkMerge existing 0 0).

(** The records an import keeps, as a plain recursive definition: a
    record is kept when no record seen so far, the store's or the
    batch's kept ones, has its identity. *)
Fixpoint dedupAgainst (seen : Store) (l : list PasswordRecord) : list PasswordRecord :=
  match l with
  | [] => []
  | x :: l' =>
      if isDuplicate seen x then dedupAgainst seen l'
      else x :: dedupAgainst (seen ++ [x]) l'
  end.

(** Identities of a store are pairwise distinct. *)
Definition uniqueIds (s : Store) : Prop := NoDup (map identity s).

(** The decision procedure for [uniqueIds]. *)
Fixpoint uniqueIdsb (s : Store) : bool :=
  match s with
  | [] => true
  | x :: s' => negb (isDuplicate s' x) && uniqueIdsb s'
  end.

(** The contract of an import merge (spec 4.2). *)
Record MergeSpec (existing imported : Store) (st : MergeState) : Prop := {
  ms_prefix : exists added, existingPasswords st = existing ++ added
                            /\ incl added imported
                            /\ addedCount st = length added;
  ms_counts : addedCount st + duplicateCount st = length imported;
  ms_covers : forall r, In r imported ->
                exists e, In e (existingPasswords st) /\ same_identity e r;
  ms_unique : uniqueIds existing -> uniqueIds (existingPasswords st)
}.

(** ** Lemmas *)

Lemma dedupAgainst_length (s l : Store) : length (dedupAgainst s l) <= length l.
Proof.
  revert s; induction l as [|y l IH]; intros s; simpl; auto.
  destruct (isDuplicate s y); simpl; [|apply le_n_S]; auto.
Qed.

Lemma fold_mergeStep (l : list PasswordRecord) (s : Store) (a d : nat) :
  fold_left mergeStep l (mkMerge s a d)
  = mkMerge (s ++ dedupAgainst s l) (a + length (dedupAgainst s l))
            (d + (length l - length (dedupAgainst s l))).
Proof.
  revert s a d; induction l as [|x l IH]; intros s a d; cbn [fold_left dedupAgainst length].
  - now rewrite app_nil_r, Nat.add_0_r, Nat.add_0_r.
  - unfold mergeStep at 2; cbn [existingPasswords addedCount duplicateCount].
    pose proof (dedupAgainst_length s l).
    destruct (isDuplicate s x) eqn:E; rewrite IH.
    + f_equal. lia.
    + pose proof (dedupAgainst_length (s ++ [x]) l).
      cbn [length]. rewrite <- app_assoc. f_equal; lia.
Qed.



Lemma dedupAgainst_incl (s l : Store) : incl (dedupAgainst s l) l.
Proof.
  revert s; induction l as [|y l IH]; intros s; simpl; [apply incl_refl|].
  destruct (isDuplicate s y).
  - apply incl_tl, IH.
  - apply incl_cons; [now left|]. apply incl_tl, IH.
Qed.

(** Every record of the batch ends up represented, by itself or by an
    earlier record with its identity. *)
Lemma dedupAgainst_covers (s l : Store) (r : PasswordRecord) :
  In r l -> exists e, In e (s ++ dedupAgainst s l) /\ same_identity e r.
Proof.
  revert s; induction l as [|y l IH]; intros s Hr; [destruct Hr|]. simpl.
  destruct Hr as [-> | Hr].
  - destruct (isDuplicate s r) eqn:E.
    + apply isDuplicate_spec in E as (e & He & Hid). exists e. split; auto.
      apply in_or_app; now left.
    + exists r. split; [|reflexivity]. apply in_or_app; right; now left.
  - destruct (isDuplicate s y) eqn:E.
    + now apply IH.
    + destruct (IH (s ++ [y]) Hr) as (e & He & Hid). exists e. split; auto.
      now rewrite <- app_assoc in He.
Qed.

Lemma uniqueIds_snoc (s : Store) (x : PasswordRecord) :
  uniqueIds s -> isDuplicate s x = false -> uniqueIds (s ++ [x]).
Proof.
  unfold uniqueIds. intros Hs Hx. rewrite map_app. simpl.
  apply NoDup_app; auto using NoDup_cons, NoDup_nil.
  intros i Hi [<- | []]. apply in_map_iff in Hi as (e & He & Hin).
  eapply isDuplicate_false in Hx; eauto.
Qed.

Lemma dedupAgainst_unique (s l : Store) :
  uniqueIds s -> uniqueIds (s ++ dedupAgainst s l).
Proof.
  revert s; induction l as [|y l IH]; intros s Hs; simpl; [now rewrite app_nil_r|].
  destruct (isDuplicate s y) eqn:E; auto.
  replace (s ++ y :: dedupAgainst (s ++ [y]) l) with ((s ++ [y]) ++ dedupAgainst (s ++ [y]) l)
    by now rewrite <- app_assoc.
  apply IH, uniqueIds_snoc; auto.
Qed.

Lemma uniqueIdsb_spec (s : Store) : uniqueIdsb s = true <-> uniqueIds s.
Proof.
  unfold uniqueIds. induction s as [|x s IH]; simpl; [split; auto using NoDup_nil|].
  rewrite andb_true_iff, negb_true_iff, IH, NoDup_cons_iff, isDuplicate_false.
  split.
  - intros [Hx Hs]. split; auto. intros (e & Hid & He)%in_map_iff. apply (Hx e He).
    unfold same_identity. now rewrite Hid.
  - intros [Hx Hs]. split; auto. intros e He Hid. apply Hx. apply in_map_iff. now exists e.
Qed.

(** A batch whose identities are new and distinct is kept whole. *)
Lemma dedupAgainst_unique_id (seen l : Store) :
  uniqueIds (seen ++ l) -> dedupAgainst seen l = l.
Proof.
  revert seen; induction l as [|x l IH]; intros seen H; simpl; auto.
  assert (Hx : isDuplicate seen x = false).
  { apply isDuplicate_false. intros e He Hid. unfold uniqueIds in H.
    rewrite map_app in H. simpl in H. apply NoDup_remove_2 in H. apply H.
    apply in_or_app. left. apply in_map_iff. now exists e. }
  rewrite Hx. f_equal. apply IH. now rewrite <- app_assoc.
Qed.

(** [isDuplicate] holds for every record of the batch once it is merged. *)
Lemma isDuplicate_after_merge (s l : Store) (r : PasswordRecord) :
  In r l -> isDuplicate (s ++ dedupAgainst s l) r = true.
Proof.
  intros Hr. apply isDuplicate_spec. now apply dedupAgainst_covers.
Qed.

Lemma dedupAgainst_all_dup (s l : Store) :
  (forall r, In r l -> isDuplicate s r = true) -> dedupAgainst s l = [].
Proof.
  induction l as [|y l IH]; intros H; simpl; auto.
  rewrite H by (now left). apply IH. intros r Hr. apply H. now right.
Qed.

Lemma dedupAgainst_length_eq (s l : Store) :
  length (dedupAgainst s l) = length l -> dedupAgainst s l = l.
Proof.
  revert s; induction l as [|x l IH]; intros s E; simpl in *; auto.
  destruct (isDuplicate s x).
  - pose proof (dedupAgainst_length s l). lia.
  - simpl in E. f_equal. apply IH. lia.
Qed.

Lemma mergePasswords_unfold (existing importedData : Store) :
  mergePasswords existing importedData =
  mkMerge (existing ++ dedupAgainst existing importedData)
          (length (dedupAgainst existing importedData))
          (length importedData - length (dedupAgainst existing importedData)).
Proof. unfold mergePasswords. now rewrite fold_mergeStep. Qed.

(** The records kept depend on the store and the batch only up to
    identities. *)
#[export] Instance dedupAgainst_proper :
  Proper (store_equiv ==> store_equiv ==> store_equiv) dedupAgainst.
Proof.
  intros s1 s2 Hs l1 l2 Hl. revert s1 s2 Hs.
  induction Hl as [|x y l1 l2 Hxy _ IH]; intros s1 s2 Hs; cbn [dedupAgainst]; [constructor|].
  rewrite (isDuplicate_store_proper _ _ Hs _ _ Hxy). destruct (isDuplicate s2 y); [auto|].
  constructor; [exact Hxy|]. apply IH. apply Forall2_app; [exact Hs|constructor; [exact Hxy|constructor]].
Qed.

(** Merging a store into itself adds nothing. *)
Lemma mergePasswords_self (s : Store) : mergePasswords s s = mkMerge s 0 (length s).
Proof.
  rewrite mergePasswords_unfold, dedupAgainst_all_dup.
  - cbn. now rewrite app_nil_r, Nat.sub_0_r.
  - intros r Hr. apply isDuplicate_spec. now exists r.
Qed.

(** ** Properties of the merge *)

(** C9: The [forEach] loop computes the reference merge: the store grows
    by [dedupAgainst existing importedData], [addedCount] is its length
    and [duplicateCount] counts the other candidates. *)
Theorem mergePasswords_eq (existing importedData : Store) :
  mergePasswords existing importedData =
  mkMerge (existing ++ dedupAgainst existing importedData)
          (length (dedupAgainst existing importedData))
          (length importedData - length (dedupAgainst existing importedData)).
Proof. apply mergePasswords_unfold. Qed.

(** C1: The loop meets the merge contract: the old store is a prefix of
    the new one and the rest comes from the batch, the two counters add
    up to the batch size, every candidate's identity is in the new
    store, and a store without duplicate identities stays so. *)
Theorem mergePasswords_refines (existing importedData : Store) :
  MergeSpec existing importedData (mergePasswords existing importedData).
Proof.
  rewrite mergePasswords_unfold. pose proof (dedupAgainst_length existing importedData).
  split; cbn [existingPasswords addedCount duplicateCount].
  - eexists. split; [reflexivity|]. split; [apply dedupAgainst_incl|reflexivity].
  - lia.
  - apply dedupAgainst_covers.
  - apply dedupAgainst_unique.
Qed.

(** C20: Importing the same batch a second time adds nothing: every
    candidate is counted as a duplicate and the store is unchanged. *)
Theorem mergePasswords_idempotent (existing importedData : Store) :
  let st := mergePasswords existing importedData in
  mergePasswords (existingPasswords st) importedData
  = mkMerge (existingPasswords st) 0 (length importedData).
Proof.
  cbv zeta. rewrite !mergePasswords_unfold. cbn [existingPasswords].
  rewrite (dedupAgainst_all_dup (existing ++ dedupAgainst existing importedData) importedData)
    by (intros r Hr; now apply isDuplicate_after_merge).
  simpl. now rewrite app_nil_r, Nat.sub_0_r.
Qed.

(** C34: Every candidate of a batch is counted as added exactly when the
    candidates' identities are pairwise distinct and none is already
    stored (for a store without duplicate identities): two candidates of
    one batch that differ only in case make a first import add fewer
    records than it has. *)
Theorem mergePasswords_all_added (existing importedData : Store) :
  uniqueIds existing ->
  addedCount (mergePasswords existing importedData) = length importedData
  <-> uniqueIds (existing ++ importedData).
Proof.
  intros Hs. rewrite mergePasswords_unfold. cbn [addedCount]. split.
  - intros E. rewrite <- (dedupAgainst_length_eq _ _ E). now apply dedupAgainst_unique.
  - intros Hu. now rewrite dedupAgainst_unique_id.
Qed.

(** C35: The merge sees records only up to the case of their site and
    user: replacing stored records and candidates by records with the
    same lower-cased site and user (so [Example.com]/[Bob] for
    [example.com]/[bob]) gives the same counts, and a new store that
    differs from the other one only in the same way. *)
Theorem mergePasswords_case_insensitive (existing existing' importedData importedData' : Store) :
  store_equiv existing existing' -> store_equiv importedData importedData' ->
  store_equiv (existingPasswords (mergePasswords existing importedData))
              (existingPasswords (mergePasswords existing' importedData')) /\
  addedCount (mergePasswords existing importedData) = addedCount (mergePasswords existing' importedData') /\
  duplicateCount (mergePasswords existing importedData)
  = duplicateCount (mergePasswords existing' importedData').
Proof.
  intros He Hi. rewrite !mergePasswords_unfold. cbn [existingPasswords addedCount duplicateCount].
  assert (Hd : store_equiv (dedupAgainst existing importedData) (dedupAgainst existing' importedData'))
    by now apply dedupAgainst_proper.
  rewrite (Forall2_length Hd), (Forall2_length Hi).
  split; [now apply Forall2_app|split; reflexivity].
Qed.

(** ** Concrete runs *)

(** The duplicate test ignores case in both the site and the user:
    [Example.com]/[Bob] is a duplicate of a stored [example.com]/[bob]. *)
Example mergePasswords_case_insensitive_run :
  mergePasswords [mkRecord "example.com" "bob" "old"] [mkRecord "Example.com" "Bob" "new"]
  = mkMerge [mkRecord "example.com" "bob" "old"] 0 1.
Proof. vm_compute. reflexivity. Qed.

(** Two candidates of one batch with the same identity are not both
    added: the second is checked against the store as it grows. *)
Example mergePasswords_batch_duplicate :
  mergePasswords [] [mkRecord "bank" "alice" "pw1"; mkRecord "BANK" "Alice" "pw2"]
  = mkMerge [mkRecord "bank" "alice" "pw1"] 1 1.
Proof. vm_compute. reflexivity. Qed.

(** ** Witnesses *)

Lemma mergePasswords_case_insensitive_witness :
  let st := mergePasswords [mkRecord "example.com" "bob" "old"] [mkRecord "Mail" "Alice" "a"] in
  let st' := mergePasswords [mkRecord "Example.com" "BOB" "old"] [mkRecord "mail" "alice" "b"] in
  store_equiv (existingPasswords st) (existingPasswords st') /\
  addedCount st = addedCount st' /\ duplicateCount st = duplicateCount st'.
Proof.
  apply mergePasswords_case_insensitive; repeat constructor.
Defined.

Lemma mergePasswords_all_added_witness :
  uniqueIds [] /\
  (addedCount (mergePasswords [] [mkRecord "bank" "alice" "pw1"; mkRecord "mail" "alice" "pw2"]) = 2
   <-> uniqueIds ([] ++ [mkRecord "bank" "alice" "pw1"; mkRecord "mail" "alice" "pw2"])).
Proof.
  split; [apply NoDup_nil|].
  exact (mergePasswords_all_added [] [mkRecord "bank" "alice" "pw1"; mkRecord "mail" "alice" "pw2"] (NoDup_nil _)).
Defined.
