(* ===== verification/Import.v ===== *)
(** * The import handler

    [importPasswords] of src/options.js (25-99) and the click handler of
    the popup's import button, src/popup.js (79-137): the two are the
    same code over two storage areas and two status elements.  The
    handler
    - reports 'Selecione um arquivo primeiro.' when no file is chosen;
    - reports 'Erro ao ler o arquivo.' when the FileReader fails;
    - inside [try], chooses the parser from the lower-cased file name and
      the content, throws 'Formato de arquivo não suportado' when neither
      applies, throws when the parser throws, throws 'Nenhuma senha válida
      encontrada no arquivo' when nothing was parsed, and reports the
      caught error;
    - otherwise reads the stored list, runs the merge loop ([Merger]),
      writes the merged list back and reports the counts.

    The FileReader is modelled by its outcome, [Some text] or [None]
    (onerror).  The storage read and write are the [get] with default
    [[]] and the [set] of the whole list.  The parsers are those of
    [TextFormat] and [Json], over the section's URL parser and JSON
    codec. *)

From Stdlib Require Import String Ascii List Bool Arith Lia DecimalString.
From S2P Require Import Prelude JsString Record Url TextFormat Json JsonText Merger.
Import ListNotations.

Local Open Scope string_scope.

(** The selected [File]: its name and what [readAsText] delivers. *)
Record FileInput := mkFile {
  fileName : string;
  fileContent : option string
}.

Inductive ImportFormat := FormatJson | FormatText | FormatUnsupported.

(** The status an import leaves in [importStatus] / [popupImportStatus]. *)
Inductive ImportStatus :=
| StatusNoFile
| StatusReadError
| StatusImportError (e : ImportError)
| StatusImported (added duplicates : nat).

(** options.js 39-47. *)
Definition selectFormat (name content : string) : ImportFormat :=
  let fileName := JS.toLowerCase name in
  if JS.endsWith fileName ".json" then FormatJson
  else if JS.endsWith fileName ".txt" || isTextFormat content then FormatText
  else FormatUnsupported.

(** The [Number] to [String] conversion of a count in a template. *)
Definition nat_text (n : nat) : string := NilZero.string_of_uint (Nat.to_uint n).

(** The success message (options.js 76-79). *)
Definition importMessage (added duplicates : nat) : string :=
  nat_text added ++ " senhas importadas com sucesso."
  ++ (if Nat.ltb 0 duplicates then " " ++ nat_text duplicates ++ " duplicatas ignoradas." else "").

Section WithParsers.
Context {U : UrlParser} {C : JsonCodec}.

Local Open Scope pm_scope.

(** The body of the [try] block up to the storage call (options.js
    35-51): the parsed records, or the error thrown. *)
Definition readImport (name content : string) : result ImportError (list PasswordRecord) :=
  importedData <- match selectFormat name content with
                  | FormatJson => parseJsonFormat content
                  | FormatText => Ok (parseTextFormat content)
                  | FormatUnsupported => Err UnsupportedFormat
                  end ;;
  if Nat.eqb (length importedData) 0 then Err NoValidPasswords else Ok importedData.

(** The whole handler on the stored list of its storage area: the list
    to write back (the same list when nothing is written) and the status. *)
Definition importPasswords (file : option FileInput) (stored : Store) : Store * ImportStatus :=
  match file with
  | None => (stored, StatusNoFile)
  | Some f =>
      match fileContent f with
      | None => (stored, StatusReadError)
      | Some content =>
          match readImport (fileName f) content with
          | Err e => (stored, StatusImportError e)
          | Ok importedData =>
              let st := mergePasswords stored importedData in
              (existingPasswords st, StatusImported (addedCount st) (duplicateCount st))
          end
      end
  end.

End WithParsers.

(** The invariant of a storage area that only imports write: every
    record satisfies the record invariant and identities are distinct. *)
Definition storeInvariant (s : Store) : Prop :=
  Forall (fun r => wf_record r = true) s /\ uniqueIds s.

Definition storeInvariantb (s : Store) : bool :=
  forallb wf_record s && uniqueIdsb s.

(** ** Lemmas *)

Lemma storeInvariantb_spec (s : Store) : storeInvariantb s = true <-> storeInvariant s.
Proof.
  unfold storeInvariantb, storeInvariant. rewrite andb_true_iff, forallb_forall, uniqueIdsb_spec.
  now rewrite Forall_forall.
Qed.

Section ImportLemmas.
Context {U : UrlParser} {C : JsonCodec}.

Lemma readImport_wf (name content : string) (data : list PasswordRecord) :
  readImport name content = Ok data -> Forall (fun r => wf_record r = true) data /\ data <> [].
Proof.
  unfold readImport. intros H.
  destruct (match selectFormat name content with
            | FormatJson => parseJsonFormat content
            | FormatText => Ok (parseTextFormat content)
            | FormatUnsupported => Err UnsupportedFormat
            end) as [d|e] eqn:Hp; cbn [res_bind] in H; [|discriminate].
  destruct (Nat.eqb (length d) 0) eqn:Hl; [discriminate|]. injection H as <-. split.
  - destruct (selectFormat name content).
    + now apply parseJsonFormat_wf in Hp.
    + injection Hp as <-. apply parseTextFormat_wf.
    + discriminate.
  - intros ->. discriminate Hl.
Qed.

Lemma storeInvariant_merge (stored data : Store) :
  storeInvariant stored -> Forall (fun r => wf_record r = true) data ->
  storeInvariant (existingPasswords (mergePasswords stored data)).
Proof.
  intros [Hwf Hu] Hd. rewrite mergePasswords_unfold. cbn [existingPasswords]. split.
  - apply Forall_app. split; auto. eapply incl_Forall; [apply dedupAgainst_incl|exact Hd].
  - now apply dedupAgainst_unique.
Qed.

Lemma import_preserves_invariant (file : option FileInput) (stored : Store) :
  storeInvariant stored -> storeInvariant (fst (importPasswords file stored)).
Proof.
  intros Hs. unfold importPasswords.
  destruct file as [f|]; [|exact Hs]. destruct (fileContent f) as [c|]; [|exact Hs].
  destruct (readImport (fileName f) c) as [data|e] eqn:Hr; [|exact Hs].
  apply storeInvariant_merge; auto. now apply readImport_wf in Hr as [? _].
Qed.

End ImportLemmas.

(** ** Properties of the import handler *)

Section ImportProperties.
Context {U : UrlParser} {C : JsonCodec}.

(** C8: Every path of the handler that does not report imported counts
    (no file, read error, unsupported format, parse error, nothing to
    import) leaves the stored list as it was: the storage is touched only
    after all checks passed. *)
Theorem importPasswords_error_keeps_store (file : option FileInput) (stored : Store) :
  match importPasswords file stored with
  | (s', StatusImported _ _) => True
  | (s', _) => s' = stored
  end.
Proof.
  unfold importPasswords.
  destruct file as [f|]; [|reflexivity]. destruct (fileContent f) as [c|]; [|reflexivity].
  destruct (readImport (fileName f) c); reflexivity.
Qed.

(** C15: A successful import appends to the stored list exactly the
    reference merge of the parsed records and reports its counts. *)
Theorem importPasswords_success (f : FileInput) (content : string) (stored data : Store) :
  fileContent f = Some content -> readImport (fileName f) content = Ok data ->
  importPasswords (Some f) stored =
  ((stored ++ dedupAgainst stored data)%list,
   StatusImported (length (dedupAgainst stored data))
                  (length data - length (dedupAgainst stored data))).
Proof.
  intros Hc Hr. unfold importPasswords. rewrite Hc, Hr, mergePasswords_unfold. reflexivity.
Qed.

(** C2: Imports preserve the storage invariant: if every stored record
    is non-empty and trimmed and no two share an identity, the same holds
    after any import, whatever the file. *)
Theorem importPasswords_invariant (file : option FileInput) (stored : Store) :
  storeInvariant stored -> storeInvariant (fst (importPasswords file stored)).
Proof. apply import_preserves_invariant. Qed.

(** C14: Format detection never rejects text the text parser can read:
    whatever the file name, content from which [parseTextFormat] reads
    a record is not reported as an unsupported format. *)
Theorem selectFormat_text_complete (name content : string) :
  parseTextFormat content <> [] -> selectFormat name content <> FormatUnsupported.
Proof.
  intros H. unfold selectFormat. rewrite (parseTextFormat_isTextFormat content H), orb_true_r.
  destruct (JS.endsWith _ _); discriminate.
Qed.

(** C24: A successful import grows the stored list by exactly the added
    count, adds at most the parsed records, and reports at least one
    record in all: added plus duplicates is the number parsed, never
    zero. *)
Theorem importPasswords_counts (file : option FileInput) (stored s' : Store) (a d : nat) :
  importPasswords file stored = (s', StatusImported a d) ->
  length s' = length stored + a /\ 1 <= a + d.
Proof.
  unfold importPasswords.
  destruct file as [f|]; [|discriminate]. destruct (fileContent f) as [c|]; [|discriminate].
  destruct (readImport (fileName f) c) as [data|e] eqn:Hr; [|discriminate].
  rewrite mergePasswords_unfold. intros [= <- <- <-].
  apply readImport_wf in Hr as [_ Hne]. pose proof (dedupAgainst_length stored data).
  destruct data; [congruence|]. rewrite length_app. cbn [length] in *. lia.
Qed.

End ImportProperties.

(** ** Concrete runs *)

(** The format is chosen from the lower-cased file name first and
    the content second: [.JSON] selects the JSON parser, a [.csv] file
    that mentions [Password:] the text parser, and a [.csv] file that
    does not is rejected. *)
Example selectFormat_examples :
  selectFormat "Backup.JSON" "" = FormatJson /\
  selectFormat "notes.csv" "Password: x" = FormatText /\
  selectFormat "notes.csv" "site,user,pass" = FormatUnsupported.
Proof. vm_compute. repeat split. Qed.

(** Importing a JSON backup whose first item duplicates the stored
    record (ignoring case) and whose third item has a blank password
    adds the second item only and reports one duplicate. *)
Example importPasswords_json_run :
  let text := JsonText.stringify
                (JArray [JObject [("site", JString "BANK"); ("user", JString "Alice");
                                  ("pass", JString "x")];
                         JObject [("site", JString " mail "); ("user", JString "bob");
                                  ("pass", JString "pw")];
                         JObject [("site", JString "shop"); ("user", JString "carol");
                                  ("pass", JString "  ")]]) in
  importPasswords (Some (mkFile "backup.json" (Some text))) [mkRecord "bank" "alice" "old"]
  = ([mkRecord "bank" "alice" "old"; mkRecord "mail" "bob" "pw"], StatusImported 1 1)
  /\ importMessage 1 1 = "1 senhas importadas com sucesso. 1 duplicatas ignoradas.".
Proof. vm_compute. split; reflexivity. Qed.

(** A text file with no complete entry is rejected with the
    'no valid passwords' error before the storage is touched. *)
Example importPasswords_empty_text :
  importPasswords (Some (mkFile "notes.txt" (Some (linesText ["Login: alice"; "Password: pw"]))))
    [mkRecord "bank" "alice" "old"]
  = ([mkRecord "bank" "alice" "old"], StatusImportError NoValidPasswords).
Proof. vm_compute. reflexivity. Qed.

(** ** Witnesses *)

Lemma importPasswords_success_witness :
  importPasswords (Some (mkFile "a.txt" (Some (linesText ["Website name: S"; "Login: u"; "Password: p"]))))
    [] = (([] ++ dedupAgainst [] [mkRecord "S" "u" "p"])%list,
          StatusImported (length (dedupAgainst [] [mkRecord "S" "u" "p"]))
            (length [mkRecord "S" "u" "p"] - length (dedupAgainst [] [mkRecord "S" "u" "p"]))).
Proof.
  apply (importPasswords_success _ (linesText ["Website name: S"; "Login: u"; "Password: p"]));
    vm_compute; reflexivity.
Defined.

Lemma importPasswords_invariant_witness :
  storeInvariant (fst (importPasswords (Some (mkFile "a.txt" (Some (linesText
                    ["Website name: S"; "Login: u"; "Password: p"])))) [mkRecord "bank" "alice" "old"])).
Proof.
  apply importPasswords_invariant. apply storeInvariantb_spec. vm_compute. reflexivity.
Defined.

Lemma selectFormat_text_complete_witness :
  selectFormat "export.csv" (linesText ["Website name: S"; "Login: u"; "Password: p"]) <> FormatUnsupported.
Proof.
  apply (selectFormat_text_complete "export.csv"). vm_compute. discriminate.
Defined.

Lemma importPasswords_counts_witness :
  length [mkRecord "bank" "alice" "old"; mkRecord "S" "u" "p"] = length [mkRecord "bank" "alice" "old"] + 1
  /\ 1 <= 1 + 0.
Proof.
  apply (importPasswords_counts (Some (mkFile "a.txt" (Some (linesText
           ["Website name: S"; "Login: u"; "Password: p"])))) [mkRecord "bank" "alice" "old"]).
  vm_compute. reflexivity.
Defined.
