(* ===== verification/Export.v ===== *)
(** * The export handler

    [exportPasswords] of src/options.js (181-208): it reads the stored
    list; when it is empty it reports 'Nenhuma senha para exportar.';
    otherwise it serialises the list with [JSON.stringify(_, null, 2)],
    offers it as a download named
    [senhas_backup_${new Date().toISOString().split('T')[0]}.json]
    and reports the count.  The download itself (Blob, object URL, a
    temporary link) is modelled as the file it produces: name and text.

    [Date.prototype.toISOString] is modelled on the UTC fields of the
    date (years 0 to 275760; the expanded [+YYYYYY] form above 9999).

    Theorems: the file name is the date part of the ISO string
    ([backupFileName_date]); an export is empty exactly for an empty
    store ([exportPasswords_nothing_iff]); the exported text parses to an
    array of one string-valued object per stored record
    ([exportPasswords_items]); and exporting then importing into an
    empty store gives the same store ([export_import_roundtrip]). *)

From Stdlib Require Import String Ascii List Bool Arith Lia.
From S2P Require Import Prelude JsString Record Url TextFormat Json JsonText Merger Import.
Import ListNotations.

Local Open Scope string_scope.

(** The object a stored record is: keys in the order [site, user, pass]
    (options.js 116-120, 162-166, popup.js 8). *)
Definition recordToJson (r : PasswordRecord) : json :=
  JObject [("site", JString (site r)); ("user", JString (user r)); ("pass", JString (pass r))].

Definition storeToJson (s : Store) : json := JArray (map recordToJson s).

(** A UTC date-time, month 1-12. *)
Record Date := mkDate {
  year : nat; month : nat; day : nat;
  hours : nat; minutes : nat; seconds : nat; millis : nat
}.

(** The [width] low decimal digits of [n]. *)
Fixpoint fixedDigits (width n : nat) : string :=
  match width with
  | O => ""
  | S w => String (ascii_of_nat (48 + Nat.modulo (Nat.div n (Nat.pow 10 w)) 10)) (fixedDigits w n)
  end.

Definition yearText (y : nat) : string :=
  if Nat.leb y 9999 then fixedDigits 4 y else "+" ++ fixedDigits 6 y.

(** [YYYY-MM-DD], the part of the ISO string before [T]. *)
Definition datePart (d : Date) : string :=
  yearText (year d) ++ "-" ++ fixedDigits 2 (month d) ++ "-" ++ fixedDigits 2 (day d).

(** [toISOString()]: [YYYY-MM-DDTHH:mm:ss.sssZ]. *)
Definition toISOString (d : Date) : string :=
  datePart d ++ "T" ++ fixedDigits 2 (hours d) ++ ":" ++ fixedDigits 2 (minutes d) ++ ":"
  ++ fixedDigits 2 (seconds d) ++ "." ++ fixedDigits 3 (millis d) ++ "Z".

(** [`senhas_backup_${new Date().toISOString().split('T')[0]}.json`] *)
Definition backupFileName (now : Date) : string :=
  "senhas_backup_" ++ hd "" (JS.split (toISOString now) "T") ++ ".json".

Inductive ExportOutcome :=
| ExportNothing                                        (** 'Nenhuma senha para exportar.' *)
| ExportFile (name : string) (text : string) (count : nat).

Section WithCodec.
Context {C : JsonCodec}.

(** options.js 181-208 on the stored list and the current date. *)
Definition exportPasswords (now : Date) (stored : Store) : ExportOutcome :=
  if Nat.eqb (length stored) 0 then ExportNothing
  else ExportFile (backupFileName now) (json_stringify (storeToJson stored)) (length stored).

End WithCodec.

(** ** Lemmas *)

Definition no_T (s : string) : Prop := forall x, In x (list_ascii_of_string s) -> x <> "T"%char.

Lemma digit_not_T (k : nat) : k < 10 -> ascii_of_nat (48 + k) <> "T"%char.
Proof.
  intros Hk H. assert (E : nat_of_ascii (ascii_of_nat (48 + k)) = nat_of_ascii "T"%char)
    by now rewrite H.
  rewrite nat_ascii_embedding in E by lia. change (nat_of_ascii "T"%char) with 84 in E. lia.
Qed.

Lemma fixedDigits_no_T (w n : nat) : no_T (fixedDigits w n).
Proof.
  induction w as [|w IH]; cbn [fixedDigits list_ascii_of_string In]; intros x Hx; [destruct Hx|].
  destruct Hx as [<- | Hx]; [|now apply IH].
  apply digit_not_T, Nat.mod_upper_bound. discriminate.
Qed.

Lemma no_T_app (a b : string) : no_T a -> no_T b -> no_T (a ++ b).
Proof.
  unfold no_T. intros Ha Hb x. rewrite JsonTextProofs.las_app. intros [H|H]%in_app_or; auto.
Qed.

Lemma datePart_no_T (d : Date) : no_T (datePart d).
Proof.
  unfold datePart, yearText.
  repeat apply no_T_app; try apply fixedDigits_no_T;
    try (destruct (Nat.leb _ _); [apply fixedDigits_no_T|apply no_T_app; [|apply fixedDigits_no_T]]);
    intros x [<- | []]; discriminate.
Qed.

Lemma recordToJson_valid (r : PasswordRecord) :
  wf_record r = true -> isValidItem (recordToJson r) = true /\ itemToRecord (recordToJson r) = r.
Proof.
  destruct r as [s u p]. unfold wf_record, wf_field. cbn [site user pass]. intros H. bool_simpl.
  unfold isValidItem, itemToRecord. cbn -[JS.trim].
  repeat match goal with Ht : JS.trim _ = _ |- _ => rewrite Ht; clear Ht end.
  destruct s, u, p; try discriminate; split; reflexivity.
Qed.

Lemma json_plain_storeToJson (s : Store) : json_plain (storeToJson s) = true.
Proof. induction s as [|r s IH]; simpl in *; auto. Qed.

Lemma filter_map_valid (s : Store) :
  Forall (fun r => wf_record r = true) s ->
  map itemToRecord (filter isValidItem (map recordToJson s)) = s.
Proof.
  induction 1 as [|r s Hr Hs IH]; [reflexivity|]. cbn [map filter].
  destruct (recordToJson_valid r Hr) as [Hv Hi]. rewrite Hv. cbn [map]. now rewrite Hi, IH.
Qed.

Lemma toISOString_split (d : Date) : exists rest, toISOString d = datePart d ++ String "T"%char rest.
Proof. eexists. reflexivity. Qed.

Lemma backupFileName_json (now : Date) :
  JS.endsWith (JS.toLowerCase (backupFileName now)) ".json" = true.
Proof.
  unfold backupFileName. destruct (toISOString_split now) as [rest ->].
  rewrite JS.split_char_app by apply datePart_no_T. cbn [hd].
  rewrite !JS.toLowerCase_app, <- str_app_assoc. apply JS.endsWith_app.
Qed.

(** ** Properties of the export *)

(** C27: The download is named [senhas_backup_] followed by the date
    part [YYYY-MM-DD] of the ISO time stamp and [.json]: the split on
    [T] cuts exactly after the date. *)
Theorem backupFileName_date (now : Date) :
  backupFileName now = "senhas_backup_" ++ datePart now ++ ".json".
Proof.
  unfold backupFileName. destruct (toISOString_split now) as [rest ->].
  now rewrite JS.split_char_app by apply datePart_no_T.
Qed.

Section ExportProperties.
Context {C : JsonCodec}.

(** C26: The export reports the empty-store error exactly when the store
    is empty. *)
Theorem exportPasswords_nothing_iff (now : Date) (stored : Store) :
  exportPasswords now stored = ExportNothing <-> stored = [].
Proof.
  unfold exportPasswords. destruct stored; simpl; split; congruence.
Qed.

(** C23: The exported file is a JSON array with one item per stored
    record, each an object whose [site], [user] and [pass] are strings:
    the shape [parseJsonFormat] reads. *)
Theorem exportPasswords_items (now : Date) (stored : Store) (name text : string) (n : nat) :
  exportPasswords now stored = ExportFile name text n ->
  exists items, json_parse text = Some (JArray items) /\ length items = n /\
    Forall (fun v => exists s u p, stringProp v "site" = Some s /\ stringProp v "user" = Some u
                                   /\ stringProp v "pass" = Some p) items.
Proof.
  unfold exportPasswords. destruct (Nat.eqb (length stored) 0); [discriminate|].
  intros [= <- <- <-]. exists (map recordToJson stored).
  split; [apply json_roundtrip, json_plain_storeToJson|split; [apply length_map|]].
  apply Forall_forall. intros v (r & <- & _)%in_map_iff. now exists (site r), (user r), (pass r).
Qed.

End ExportProperties.

Section RoundTrip.
Context {U : UrlParser} {C : JsonCodec}.

(** The downloaded file of a store, imported into an empty area. *)
(** Importing an exported file into any store merges the exported
    records into it. *)
Lemma import_exported_into (now : Date) (s t : Store) :
  storeInvariantb s = true -> s <> [] ->
  importPasswords (Some (mkFile (backupFileName now) (Some (json_stringify (storeToJson s))))) t
  = (existingPasswords (mergePasswords t s),
     StatusImported (addedCount (mergePasswords t s)) (duplicateCount (mergePasswords t s))).
Proof.
  intros [Hwf Hu]%storeInvariantb_spec Hne.
  assert (Hl : Nat.eqb (length s) 0 = false) by (destruct s; [congruence|reflexivity]).
  unfold importPasswords, readImport, selectFormat. cbn [fileContent fileName].
  rewrite backupFileName_json. unfold parseJsonFormat.
  rewrite json_roundtrip by apply json_plain_storeToJson. cbn [storeToJson].
  rewrite filter_map_valid by exact Hwf. cbn [res_bind]. now rewrite Hl.
Qed.

Lemma import_exported (now : Date) (s : Store) :
  storeInvariantb s = true -> s <> [] ->
  importPasswords (Some (mkFile (backupFileName now) (Some (json_stringify (storeToJson s))))) []
  = (s, StatusImported (length s) 0).
Proof.
  intros Hs Hne. rewrite import_exported_into by assumption.
  apply storeInvariantb_spec in Hs as [_ Hu].
  rewrite mergePasswords_unfold, dedupAgainst_unique_id by exact Hu. simpl. now rewrite Nat.sub_diag.
Qed.

(** C4: Exporting a non-empty store that satisfies the storage invariant
    and importing the downloaded file into an empty store gives back the
    same store, with every record counted as added. *)
Theorem export_import_roundtrip (now : Date) (s : Store) :
  storeInvariantb s = true -> s <> [] ->
  exportPasswords now s = ExportFile (backupFileName now) (json_stringify (storeToJson s)) (length s)
  /\ importPasswords (Some (mkFile (backupFileName now) (Some (json_stringify (storeToJson s))))) []
     = (s, StatusImported (length s) 0).
Proof.
  intros Hs Hne. split; [|now apply import_exported].
  unfold exportPasswords. destruct s; [congruence|reflexivity].
Qed.

End RoundTrip.

(** ** Witnesses *)

Lemma export_import_roundtrip_witness :
  let s := [mkRecord "bank" "alice" "pw"; mkRecord "mail" "bob" "secret"] in
  let d := mkDate 2026 11 9 12 0 0 0 in
  exportPasswords d s = ExportFile (backupFileName d) (json_stringify (storeToJson s)) (length s)
  /\ importPasswords (Some (mkFile (backupFileName d) (Some (json_stringify (storeToJson s))))) []
     = (s, StatusImported (length s) 0).
Proof.
  apply export_import_roundtrip; [vm_compute; reflexivity | discriminate].
Defined.

Lemma exportPasswords_items_witness :
  exists items, json_parse (json_stringify (storeToJson [mkRecord "bank" "alice" "pw"]))
                = Some (JArray items) /\ length items = 1 /\
    Forall (fun v => exists s u p, stringProp v "site" = Some s /\ stringProp v "user" = Some u
                                   /\ stringProp v "pass" = Some p) items.
Proof.
  apply (exportPasswords_items (mkDate 2026 11 9 12 0 0 0) [mkRecord "bank" "alice" "pw"]
           (backupFileName (mkDate 2026 11 9 12 0 0 0))).
  reflexivity.
Defined.
