(* ===== verification/Status.v ===== *)
(** * Status messages and their timers

    [showStatus] of the options page (src/options.js 281-290) writes the
    message into [importStatus], sets its class to [status <type>] and
    schedules a [setTimeout] that, 5000 ms later, empties the text and
    the class.  [showPopupStatus] (src/popup.js 139-150) does the same on
    [popupImportStatus] with inline styles, and its timeout resets the
    whole [style].  No timeout is ever cancelled.

    [StatusBox] is one such element: its text, its look (the class, or
    the styles) and the due times of the pending timeouts, in
    milliseconds.  [showStatus] adds a due time; [advance] moves the
    clock to a time [t] and runs the callbacks due by then.  Both
    surfaces are the same [Section] over the type of the look.

    The messages: [importStatusMessage] gives the text and type each
    outcome of the import handler shows (options.js 28, 46-50, 76-80,
    90, 95, 105; popup.js 82, 96-99, 118-122, 129, 133),
    [exportStatusMessage] those of the export (options.js 184, 206), and
    the delete and copy messages (options.js 251, 275).  Non-ASCII
    letters are the Latin-1 code units of the source text.

    Theorems: every message is gone 5000 ms after it was shown, whatever
    happens to the clock in between ([status_eventually_cleared]); a
    message shown while an earlier timeout is pending is removed by that
    timeout, before its own 5000 ms ([status_cleared_early]).  The
    invariant [boxInv] (a text is shown only while a timeout is pending,
    each due within 5000 ms) is kept by every operation; the browser
    model uses it for the liveness of both pages' messages. *)

From Stdlib Require Import String Ascii List Bool Arith Lia.
From S2P Require Import Prelude JsString Record Url TextFormat Json Merger Import Export.
Import ListNotations.

Local Open Scope string_scope.

Inductive StatusType := StatusSuccess | StatusError.

(** The [type] argument, [success] or [error]. *)
Definition typeName (t : StatusType) : string :=
  match t with
  | StatusSuccess => "success"
  | StatusError => "error"
  end.

(** A Latin-1 code unit of a message text. *)
Definition latin1 (n : nat) : string := String (ascii_of_nat n) "".

(** The delay of the clearing timeouts. *)
Definition statusDelay : nat := 5000.

Section Box.
Variable Look : Type.
(** The look [showStatus] gives for a type, and the look after clearing. *)
Variable lookOf : StatusType -> Look.
Variable noLook : Look.

Record StatusBox := mkBox {
  boxText : string;
  boxLook : Look;
  timers : list nat
}.

Definition emptyBox : StatusBox := mkBox "" noLook [].

(** [showStatus(message, type)] at time [now]. *)
Definition showStatus (b : StatusBox) (now : nat) (message : string) (type : StatusType) : StatusBox :=
  mkBox message (lookOf type) (timers b ++ [now + statusDelay]).

(** The clock reaches [t]: the callbacks due by then run, each emptying
    the text and the look. *)
Definition advance (b : StatusBox) (t : nat) : StatusBox :=
  let pending := filter (fun d => negb (Nat.leb d t)) (timers b) in
  if existsb (fun d => Nat.leb d t) (timers b) then mkBox "" noLook pending
  else mkBox (boxText b) (boxLook b) pending.

(** The file input's [change] handler empties the text only
    (options.js 18, popup.js 76). *)
Definition clearText (b : StatusBox) : StatusBox := mkBox "" (boxLook b) (timers b).

End Box.

Arguments mkBox {Look}.
Arguments boxText {Look}.
Arguments boxLook {Look}.
Arguments timers {Look}.
Arguments emptyBox {Look}.
Arguments showStatus {Look}.
Arguments advance {Look}.
Arguments clearText {Look}.

(** The options page's look: the [className]. *)
Definition optionsLook (t : StatusType) : string := "status " ++ typeName t.

(** The popup's look: the inline styles it sets (popup.js 141-145). *)
Record PopupStyle := mkStyle {
  color : string; background : string; border : string; padding : string; borderRadius : string
}.

Definition popupLook (t : StatusType) : PopupStyle :=
  match t with
  | StatusSuccess => mkStyle "#155724" "#d4edda" ("1px solid " ++ "#c3e6cb") "6px" "3px"
  | StatusError => mkStyle "#721c24" "#f8d7da" ("1px solid " ++ "#f5c6cb") "6px" "3px"
  end.

(** [style = ''] *)
Definition noStyle : PopupStyle := mkStyle "" "" "" "" "".

(** [error.message] of each error the import's [try] block catches. *)
Definition errorMessage {C : JsonCodec} (content : string) (e : ImportError) : string :=
  match e with
  | JsonSyntaxError => json_error_message content
  | JsonNotArray => "Formato JSON inv" ++ latin1 225 ++ "lido: esperado um array de senhas"
  | UnsupportedFormat => "Formato de arquivo n" ++ latin1 227 ++ "o suportado. Use arquivos .json ou .txt"
  | NoValidPasswords => "Nenhuma senha v" ++ latin1 225 ++ "lida encontrada no arquivo"
  end.

(** The message an import shows, from its outcome and the file text. *)
Definition importStatusMessage {C : JsonCodec} (content : string) (st : ImportStatus)
  : string * StatusType :=
  match st with
  | StatusNoFile => ("Selecione um arquivo primeiro.", StatusError)
  | StatusReadError => ("Erro ao ler o arquivo.", StatusError)
  | StatusImportError e => ("Erro ao importar: " ++ errorMessage content e, StatusError)
  | StatusImported added duplicates => (importMessage added duplicates, StatusSuccess)
  end.

(** options.js 184, 206. *)
Definition exportStatusMessage (o : ExportOutcome) : string * StatusType :=
  match o with
  | ExportNothing => ("Nenhuma senha para exportar.", StatusError)
  | ExportFile _ _ n => (nat_text n ++ " senhas exportadas com sucesso.", StatusSuccess)
  end.

(** options.js 275 and 251. *)
Definition deleteMessage : string := "Senha exclu" ++ latin1 237 ++ "da com sucesso.".
Definition copyErrorMessage : string := "Erro ao copiar senha.".

(** The invariant of a status element at time [now]: a text is shown
    only while a timeout is pending, and every pending timeout is due
    within [statusDelay] of [now]. *)
Definition boxInv {Look} (box : StatusBox Look) (now : nat) : Prop :=
  (boxText box = "" \/ timers box <> []) /\ (forall d, In d (timers box) -> d <= now + statusDelay).

(** ** Lemmas on the timers *)

Section BoxLemmas.
Variable Look : Type.
Variable lookOf : StatusType -> Look.
Variable noLook : Look.

Lemma advance_fires (b : StatusBox Look) (d t : nat) :
  In d (timers b) -> d <= t -> boxText (advance noLook b t) = "".
Proof.
  intros Hd Hle. unfold advance.
  replace (existsb _ _) with true; [reflexivity|].
  symmetry. apply existsb_exists. exists d. split; [exact Hd|]. now apply Nat.leb_le.
Qed.

Lemma advance_keeps_empty (b : StatusBox Look) (t : nat) :
  boxText b = "" -> boxText (advance noLook b t) = "".
Proof. intros H. unfold advance. now destruct (existsb _ _). Qed.

Lemma advance_pending (b : StatusBox Look) (d t : nat) :
  In d (timers b) -> t < d -> In d (timers (advance noLook b t)).
Proof.
  intros Hd Hlt. unfold advance.
  assert (Hp : In d (filter (fun d => negb (Nat.leb d t)) (timers b))).
  { apply filter_In. split; [exact Hd|]. apply negb_true_iff, Nat.leb_gt, Hlt. }
  now destruct (existsb _ _).
Qed.

(** Until its callback has run, a timeout keeps the text non-cleared
    only while it is pending. *)
Lemma advances_cleared_or_pending (b : StatusBox Look) (d : nat) (ts : list nat) :
  boxText b = "" \/ In d (timers b) ->
  boxText (fold_left (advance noLook) ts b) = "" \/ In d (timers (fold_left (advance noLook) ts b)).
Proof.
  revert b; induction ts as [|t ts IH]; intros b H; cbn [fold_left]; [exact H|]. apply IH.
  destruct H as [H|H]; [left; now apply advance_keeps_empty|].
  destruct (Nat.le_gt_cases d t); [left; eapply advance_fires; eauto|right; now apply advance_pending].
Qed.

Lemma showStatus_timer (b : StatusBox Look) (now : nat) (m : string) (ty : StatusType) :
  In (now + statusDelay) (timers (showStatus lookOf b now m ty)).
Proof. cbn [showStatus timers]. apply in_or_app. right. now left. Qed.

Lemma boxInv_empty (now : nat) : boxInv (emptyBox noLook) now.
Proof. split; [now left|intros d []]. Qed.

Lemma boxInv_show (b : StatusBox Look) (now : nat) (m : string) (ty : StatusType) :
  boxInv b now -> boxInv (showStatus lookOf b now m ty) now.
Proof.
  intros [_ Hd]. split; [right; cbn; destruct (timers b); discriminate|].
  intros d Hin. cbn [showStatus timers] in Hin. apply in_app_or in Hin as [Hin|[<-|[]]]; auto.
Qed.

Lemma boxInv_clearText (b : StatusBox Look) (now : nat) : boxInv b now -> boxInv (clearText b) now.
Proof. intros [_ Hd]. split; [now left|exact Hd]. Qed.

Lemma boxInv_advance (b : StatusBox Look) (now t : nat) :
  boxInv b now -> now <= t -> boxInv (advance noLook b t) t.
Proof.
  intros [Ht Hd] Hle. unfold advance.
  assert (Hp : forall d, In d (filter (fun d => negb (Nat.leb d t)) (timers b)) -> d <= t + statusDelay).
  { intros d (Hin & _)%filter_In. specialize (Hd d Hin). lia. }
  destruct (existsb _ _) eqn:E; split; cbn [boxText timers]; auto.
  destruct Ht as [Ht|Ht]; [now left|right].
  destruct (timers b) as [|d ds] eqn:Et; [congruence|]. cbn in E |- *.
  apply orb_false_iff in E as [E _]. now rewrite E.
Qed.

(** Under the invariant, moving the clock [statusDelay] forward clears the
    text. *)
Lemma boxInv_cleared (b : StatusBox Look) (now : nat) :
  boxInv b now -> boxText (advance noLook b (now + statusDelay)) = "".
Proof.
  intros [[Ht|Ht] Hd]; [now apply advance_keeps_empty|].
  destruct (timers b) as [|d ds] eqn:E; [congruence|].
  apply (advance_fires b d); [rewrite E; now left|apply Hd; now left].
Qed.

End BoxLemmas.

(** ** Properties of the status boxes *)

Section BoxProperties.
Variable Look : Type.
Variable lookOf : StatusType -> Look.
Variable noLook : Look.

(** C19: A message is removed at most 5000 ms after it is shown: after
    [showStatus] at time [now] and any moves of the clock, once the
    clock reaches [now + 5000] the text is empty. *)
Theorem status_eventually_cleared (b : StatusBox Look) (now : nat) (m : string) (ty : StatusType)
    (ts : list nat) (T : nat) :
  now + statusDelay <= T ->
  boxText (advance noLook (fold_left (advance noLook) ts (showStatus lookOf b now m ty)) T) = "".
Proof.
  intros HT.
  destruct (advances_cleared_or_pending Look noLook (showStatus lookOf b now m ty) (now + statusDelay) ts)
    as [H|H]; [right; apply showStatus_timer| |].
  - now apply advance_keeps_empty.
  - eapply advance_fires; eauto.
Qed.

(** C31: The timeouts are not cancelled: when a second message is shown
    at [t2], while the first one's timeout (due at [t1 + 5000]) is
    pending, that timeout removes the second message at [t1 + 5000],
    less than 5000 ms after it appeared, and the second timeout still
    runs later. *)
Theorem status_cleared_early (b : StatusBox Look) (t1 t2 : nat) (m1 m2 : string)
    (ty1 ty2 : StatusType) :
  t1 < t2 -> t2 < t1 + statusDelay ->
  let b2 := showStatus lookOf (advance noLook (showStatus lookOf b t1 m1 ty1) t2) t2 m2 ty2 in
  boxText b2 = m2 /\
  boxText (advance noLook b2 (t1 + statusDelay)) = "" /\
  In (t2 + statusDelay) (timers (advance noLook b2 (t1 + statusDelay))).
Proof.
  intros H1 H2. cbv zeta. split; [reflexivity|].
  assert (Hin : In (t1 + statusDelay)
                  (timers (showStatus lookOf (advance noLook (showStatus lookOf b t1 m1 ty1) t2) t2 m2 ty2))).
  { cbn [showStatus timers]. apply in_or_app. left. apply advance_pending; [apply showStatus_timer|lia]. }
  split; [exact (advance_fires _ _ _ _ _ Hin (le_n _))|].
  apply advance_pending; [apply showStatus_timer|lia].
Qed.

End BoxProperties.

(** ** Concrete runs *)

(** Two messages 4000 ms apart: the second is shown until 4999 and
    removed at 5000 by the first one's timeout; its own timeout is still
    pending. *)
Example status_cleared_early_run :
  let b := showStatus optionsLook (showStatus optionsLook (emptyBox "") 0 "A" StatusError)
                      4000 "B" StatusSuccess in
  boxText (advance "" b 4999) = "B" /\ boxLook (advance "" b 4999) = "status success" /\
  boxText (advance "" b 5000) = "" /\ timers (advance "" b 5000) = [9000].
Proof. vm_compute. repeat split. Qed.

(** ** Witnesses *)

Lemma status_cleared_early_witness :
  let b2 := showStatus optionsLook (advance "" (showStatus optionsLook (emptyBox "") 0 "A" StatusError) 4000)
                       4000 "B" StatusSuccess in
  boxText b2 = "B" /\ boxText (advance "" b2 (0 + statusDelay)) = "" /\
  In (4000 + statusDelay) (timers (advance "" b2 (0 + statusDelay))).
Proof.
  apply (status_cleared_early string optionsLook "" (emptyBox "") 0 4000 "A" "B" StatusError StatusSuccess);
    unfold statusDelay; lia.
Defined.

Lemma status_eventually_cleared_witness :
  boxText (advance "" (fold_left (advance "") [1000; 3000]
                         (showStatus optionsLook (emptyBox "") 0 "m" StatusError)) 5000) = "".
Proof. apply status_eventually_cleared. unfold statusDelay. lia. Defined.
