(* ===== verification/App.v ===== *)
(** * The browser state, the handlers of the two surfaces, and their properties

    The state the program reads and writes ([Browser]):
    - the [passwords] key of [chrome.storage.sync] (options page) and of
      [chrome.storage.local] (popup), [None] while absent;
    - [optionsShown]: the list [renderPasswords] of the options page read
      last ([data.passwords], options.js 210-267), which its copy and
      delete buttons index into;
    - the popup's globals [allPasswords] and [currentSearch] (popup.js
      16-17);
    - each page's file input ([importFile.files[0]],
      [popupImportFile.files[0]]) and whether its import button is
      enabled;
    - each page's status element ([Status.StatusBox]);
    - the clipboard, the downloads the options page has offered (name and
      text), and the clock in milliseconds.

    Each user action is one handler run to completion ([step] over
    [Event]); the asynchronous FileReader and storage callbacks of one
    handler are run in their order, with nothing in between:
    - [OptionsOpen]: a load of the options page: its file input and
      status element start afresh, and [renderPasswords] runs at
      DOMContentLoaded (options.js 9-12);
    - [OptionsChooseFile f]: the file input's [change] handler
      (options.js 16-19); [OptionsImport]: a click on the import button,
      which a disabled button does not deliver (options.js 21, 25-99);
    - [OptionsCopy i ok] and [OptionsDelete i ok]: the buttons of row
      [i] (options.js 236-265), [ok] the outcome of the clipboard write
      or the answer to [confirm]; [deletePassword(i)] re-reads the sync
      area and [splice]s index [i] out of it (269-279);
    - [OptionsExport now]: [exportPasswords] (181-208);
    - [OtherImport], [OtherDelete i]: the same handlers run by another
      options page on the shared sync area; this page is not refreshed
      and does not show their messages;
    - [PopupOpen]: an opening of the popup, a fresh document whose
      globals, file input and status element start afresh, then its
      [renderPasswords] (popup.js 16-24, 215); [PopupAdd s u p]: the
      three prompts and the push (popup.js 1-14); [PopupChooseFile f] and
      [PopupImport] (74-137); [PopupSearch t] (61-64); [PopupCopy i ok]
      (47-56);
    - [Wait ms]: the clock moves and the due [setTimeout] callbacks of
      the status elements run.

    The pages' HTML is not among the sources; the model starts with both
    import buttons enabled, so a click with no file chosen (the handler's
    first error path) is possible. *)

From Stdlib Require Import String Ascii List Bool Arith Lia.
From S2P Require Import Prelude JsString Record Url TextFormat Json JsonText Merger Import Markup Export Status.
Import ListNotations.

Local Open Scope string_scope.

Record Browser := mkBrowser {
  syncPasswords : option Store;
  localPasswords : option Store;
  optionsShown : Store;
  allPasswords : Store;
  currentSearch : string;
  optionsFile : option FileInput;
  optionsImportEnabled : bool;
  popupFile : option FileInput;
  popupImportEnabled : bool;
  optionsStatus : StatusBox string;
  popupStatus : StatusBox PopupStyle;
  clipboard : option string;
  downloads : list (string * string);
  clock : nat
}.

Definition initBrowser : Browser :=
  mkBrowser None None [] [] "" None true None true (emptyBox "") (emptyBox noStyle) None [] 0.

(** The state with one part replaced. *)
Definition setSync (b : Browser) (s : Store) : Browser :=
  mkBrowser (Some s) (localPasswords b) (optionsShown b) (allPasswords b) (currentSearch b)
            (optionsFile b) (optionsImportEnabled b) (popupFile b) (popupImportEnabled b)
            (optionsStatus b) (popupStatus b) (clipboard b) (downloads b) (clock b).

Definition setShown (b : Browser) (l : Store) : Browser :=
  mkBrowser (syncPasswords b) (localPasswords b) l (allPasswords b) (currentSearch b)
            (optionsFile b) (optionsImportEnabled b) (popupFile b) (popupImportEnabled b)
            (optionsStatus b) (popupStatus b) (clipboard b) (downloads b) (clock b).

Definition setLocal (b : Browser) (s : Store) : Browser :=
  mkBrowser (syncPasswords b) (Some s) (optionsShown b) (allPasswords b) (currentSearch b)
            (optionsFile b) (optionsImportEnabled b) (popupFile b) (popupImportEnabled b)
            (optionsStatus b) (popupStatus b) (clipboard b) (downloads b) (clock b).

Definition setAll (b : Browser) (l : Store) : Browser :=
  mkBrowser (syncPasswords b) (localPasswords b) (optionsShown b) l (currentSearch b)
            (optionsFile b) (optionsImportEnabled b) (popupFile b) (popupImportEnabled b)
            (optionsStatus b) (popupStatus b) (clipboard b) (downloads b) (clock b).

Definition setSearch (b : Browser) (t : string) : Browser :=
  mkBrowser (syncPasswords b) (localPasswords b) (optionsShown b) (allPasswords b) t
            (optionsFile b) (optionsImportEnabled b) (popupFile b) (popupImportEnabled b)
            (optionsStatus b) (popupStatus b) (clipboard b) (downloads b) (clock b).

Definition setOptionsFile (b : Browser) (f : option FileInput) (enabled : bool) : Browser :=
  mkBrowser (syncPasswords b) (localPasswords b) (optionsShown b) (allPasswords b)
            (currentSearch b) f enabled (popupFile b) (popupImportEnabled b) (optionsStatus b)
            (popupStatus b) (clipboard b) (downloads b) (clock b).

Definition setPopupFile (b : Browser) (f : option FileInput) (enabled : bool) : Browser :=
  mkBrowser (syncPasswords b) (localPasswords b) (optionsShown b) (allPasswords b)
            (currentSearch b) (optionsFile b) (optionsImportEnabled b) f enabled
            (optionsStatus b) (popupStatus b) (clipboard b) (downloads b) (clock b).

Definition setOptionsStatus (b : Browser) (box : StatusBox string) : Browser :=
  mkBrowser (syncPasswords b) (localPasswords b) (optionsShown b) (allPasswords b)
            (currentSearch b) (optionsFile b) (optionsImportEnabled b) (popupFile b)
            (popupImportEnabled b) box (popupStatus b) (clipboard b) (downloads b) (clock b).

Definition setPopupStatus (b : Browser) (box : StatusBox PopupStyle) : Browser :=
  mkBrowser (syncPasswords b) (localPasswords b) (optionsShown b) (allPasswords b)
            (currentSearch b) (optionsFile b) (optionsImportEnabled b) (popupFile b)
            (popupImportEnabled b) (optionsStatus b) box (clipboard b) (downloads b) (clock b).

Definition setClipboard (b : Browser) (c : option string) : Browser :=
  mkBrowser (syncPasswords b) (localPasswords b) (optionsShown b) (allPasswords b)
            (currentSearch b) (optionsFile b) (optionsImportEnabled b) (popupFile b)
            (popupImportEnabled b) (optionsStatus b) (popupStatus b) c (downloads b) (clock b).

Definition setDownloads (b : Browser) (d : list (string * string)) : Browser :=
  mkBrowser (syncPasswords b) (localPasswords b) (optionsShown b) (allPasswords b)
            (currentSearch b) (optionsFile b) (optionsImportEnabled b) (popupFile b)
            (popupImportEnabled b) (optionsStatus b) (popupStatus b) (clipboard b) d (clock b).

Definition setClock (b : Browser) (t : nat) : Browser :=
  mkBrowser (syncPasswords b) (localPasswords b) (optionsShown b) (allPasswords b)
            (currentSearch b) (optionsFile b) (optionsImportEnabled b) (popupFile b)
            (popupImportEnabled b) (optionsStatus b) (popupStatus b) (clipboard b) (downloads b)
            t.

(** [chrome.storage.*.get({passwords: []}, ...)]: the default when absent. *)
Definition getPasswords (area : option Store) : Store :=
  match area with
  | Some s => s
  | None => []
  end.

(** [passwords.splice(index, 1)] for a non-negative index: the element
    at [index] is removed; past the end nothing is. *)
Definition splice1 (l : Store) (index : nat) : Store :=
  (firstn index l ++ skipn (S index) l)%list.

(** [!!this.files.length] *)
Definition isSome {A} (o : option A) : bool :=
  match o with
  | Some _ => true
  | None => false
  end.

(** The text the FileReader delivered, for the message of a parse error. *)
Definition fileText (f : option FileInput) : string :=
  match f with
  | Some g => match fileContent g with Some t => t | None => EmptyString end
  | None => EmptyString
  end.

Inductive Event :=
| OptionsOpen
| OptionsChooseFile (file : option FileInput)
| OptionsImport
| OptionsCopy (idx : nat) (written : bool)
| OptionsDelete (idx : nat) (confirmed : bool)
| OptionsExport (now : Date)
| OtherImport (file : option FileInput)
| OtherDelete (idx : nat)
| PopupOpen
| PopupAdd (site user pass : option string)
| PopupChooseFile (file : option FileInput)
| PopupImport
| PopupSearch (text : string)
| PopupCopy (idx : nat) (written : bool)
| Wait (ms : nat).

(** The prompts' answers are pushed when all three are truthy
    ([prompt] returns [null], here [None], when cancelled). *)
Definition promptRecord (site user pass : option string) : option PasswordRecord :=
  match site, user, pass with
  | Some s, Some u, Some p =>
      if JS.truthy s && JS.truthy u && JS.truthy p then Some (mkRecord s u p) else None
  | _, _, _ => None
  end.

(** [showStatus] of the options page at the current time. *)
Definition optionsShowStatus (b : Browser) (m : string * StatusType) : Browser :=
  setOptionsStatus b (showStatus optionsLook (optionsStatus b) (clock b) (fst m) (snd m)).

(** [showPopupStatus] at the current time. *)
Definition popupShowStatus (b : Browser) (m : string * StatusType) : Browser :=
  setPopupStatus b (showStatus popupLook (popupStatus b) (clock b) (fst m) (snd m)).

(** [renderPasswords] of the options page (options.js 210-219): the
    rows and their buttons are built from the sync area read now. *)
Definition renderPasswords (b : Browser) : Browser :=
  setShown b (getPasswords (syncPasswords b)).

(** The options page is loaded (options.js 9-12): a fresh document, so an
    empty file input with its button in the initial state, and an empty
    status element with no timeout of the previous document pending;
    then [renderPasswords]. *)
Definition optionsOpen (b : Browser) : Browser :=
  renderPasswords (setOptionsStatus (setOptionsFile b None true) (emptyBox "")).

(** The file input's [change] handler (options.js 16-19). *)
Definition optionsChooseFile (b : Browser) (f : option FileInput) : Browser :=
  setOptionsStatus (setOptionsFile b f (isSome f)) (clearText (optionsStatus b)).

(** [deletePassword(index)] (options.js 269-279): re-read the sync area,
    [splice], write it back, show the message and render. *)
Definition deletePassword (b : Browser) (index : nat) : Browser :=
  renderPasswords (optionsShowStatus (setSync b (splice1 (getPasswords (syncPasswords b)) index))
                                     (deleteMessage, StatusSuccess)).

(** The delete button of row [idx] (options.js 256-265): the button
    exists when the rendered list has that row. *)
Definition optionsDelete (b : Browser) (idx : nat) (confirmed : bool) : Browser :=
  match nth_error (optionsShown b) idx with
  | Some _ => if confirmed then deletePassword b idx else b
  | None => b
  end.

(** The copy button of row [idx] (options.js 236-254):
    [data.passwords[idx].pass] of the rendered list; [written] is the
    outcome of [navigator.clipboard.writeText]. *)
Definition optionsCopy (b : Browser) (idx : nat) (written : bool) : Browser :=
  match nth_error (optionsShown b) idx with
  | Some item =>
      if written then setClipboard b (Some (pass item))
      else optionsShowStatus b (copyErrorMessage, StatusError)
  | None => b
  end.

(** Another options page's [deletePassword(idx)] (options.js 269-279)
    on the shared sync area; this page is neither re-rendered nor shown
    the message. *)
Definition otherDelete (b : Browser) (idx : nat) : Browser :=
  setSync b (splice1 (getPasswords (syncPasswords b)) idx).

(** The popup's [renderPasswords] (popup.js 19-24). *)
Definition popupRenderPasswords (b : Browser) : Browser :=
  setAll b (getPasswords (localPasswords b)).

(** The popup is opened (popup.js 16-17, 215): a fresh document, so the
    globals start as [[]] and [''], the file input is empty with its
    button in the initial state, the status element is empty with no
    timeout pending; then [renderPasswords]. *)
Definition popupOpen (b : Browser) : Browser :=
  popupRenderPasswords (setPopupStatus (setPopupFile (setSearch (setAll b []) "") None true)
                                       (emptyBox noStyle)).

(** The add button of the popup (popup.js 1-14): push onto the local
    area, write it back and render. *)
Definition popupAdd (b : Browser) (site user pass : option string) : Browser :=
  match promptRecord site user pass with
  | Some r => popupRenderPasswords (setLocal b (getPasswords (localPasswords b) ++ [r])%list)
  | None => b
  end.

(** The search box's [input] handler (popup.js 61-64). *)
Definition popupSearch (b : Browser) (text : string) : Browser := setSearch b text.

(** The popup file input's [change] handler (popup.js 74-77). *)
Definition popupChooseFile (b : Browser) (f : option FileInput) : Browser :=
  setPopupStatus (setPopupFile b f (isSome f)) (clearText (popupStatus b)).

(** [showPasswordsFiltered] (popup.js 26-36): the rows the popup shows. *)
Definition passwordsFiltered (all : Store) (currentSearch : string) : Store :=
  let search := JS.toLowerCase (JS.trim currentSearch) in
  if JS.truthy search then
    filter (fun item => JS.includes (JS.toLowerCase (site item)) search
                        || JS.includes (JS.toLowerCase (user item)) search) all
  else all.

(** The password behind the copy button of popup row [idx]:
    [filtered[idx].pass] (popup.js 47-52). *)
Definition popupCopy (b : Browser) (idx : nat) : option string :=
  option_map pass (nth_error (passwordsFiltered (allPasswords b) (currentSearch b)) idx).

(** The copy button's [onclick] (popup.js 48-55); a failed write is an
    unhandled rejection and changes nothing. *)
Definition popupCopyClick (b : Browser) (idx : nat) (written : bool) : Browser :=
  match popupCopy b idx with
  | Some p => if written then setClipboard b (Some p) else b
  | None => b
  end.

(** Time passes: the due timeouts of both status elements run. *)
Definition wait (b : Browser) (ms : nat) : Browser :=
  let t := clock b + ms in
  setPopupStatus (setOptionsStatus (setClock b t) (advance "" (optionsStatus b) t))
                 (advance noStyle (popupStatus b) t).

Section WithParsers.
Context {U : UrlParser} {C : JsonCodec}.

(** The import button's click on the options page (options.js 25-99):
    the message of the outcome; on success the merged list is written,
    the page re-rendered, the file input emptied and the button
    disabled. *)
Definition optionsImport (b : Browser) : Browser :=
  if optionsImportEnabled b then
    let '(s', st) := importPasswords (optionsFile b) (getPasswords (syncPasswords b)) in
    let b1 := optionsShowStatus b (importStatusMessage (fileText (optionsFile b)) st) in
    match st with
    | StatusImported _ _ => setOptionsFile (renderPasswords (setSync b1 s')) None false
    | _ => b1
    end
  else b.

(** The popup's import click (popup.js 79-137), on the local area. *)
Definition popupImport (b : Browser) : Browser :=
  if popupImportEnabled b then
    let '(s', st) := importPasswords (popupFile b) (getPasswords (localPasswords b)) in
    let b1 := popupShowStatus b (importStatusMessage (fileText (popupFile b)) st) in
    match st with
    | StatusImported _ _ => setPopupFile (popupRenderPasswords (setLocal b1 s')) None false
    | _ => b1
    end
  else b.

(** [exportPasswords] (options.js 181-208): the message, and the file
    offered for download. *)
Definition optionsExport (b : Browser) (now : Date) : Browser :=
  let o := exportPasswords now (getPasswords (syncPasswords b)) in
  let b1 := optionsShowStatus b (exportStatusMessage o) in
  match o with
  | ExportFile name text _ => setDownloads b1 (downloads b1 ++ [(name, text)])%list
  | ExportNothing => b1
  end.

(** An import on an area by another page: written back only when it
    succeeded (options.js 54-75). *)
Definition importInto (file : option FileInput) (stored : Store) : option Store :=
  match importPasswords file stored with
  | (s', StatusImported _ _) => Some s'
  | _ => None
  end.

Definition otherImport (b : Browser) (file : option FileInput) : Browser :=
  match importInto file (getPasswords (syncPasswords b)) with
  | Some s' => setSync b s'
  | None => b
  end.

Definition step (b : Browser) (e : Event) : Browser :=
  match e with
  | OptionsOpen => optionsOpen b
  | OptionsChooseFile f => optionsChooseFile b f
  | OptionsImport => optionsImport b
  | OptionsCopy idx written => optionsCopy b idx written
  | OptionsDelete idx confirmed => optionsDelete b idx confirmed
  | OptionsExport now => optionsExport b now
  | OtherImport file => otherImport b file
  | OtherDelete idx => otherDelete b idx
  | PopupOpen => popupOpen b
  | PopupAdd site user pass => popupAdd b site user pass
  | PopupChooseFile f => popupChooseFile b f
  | PopupImport => popupImport b
  | PopupSearch text => popupSearch b text
  | PopupCopy idx written => popupCopyClick b idx written
  | Wait ms => wait b ms
  end.

Inductive reachable : Browser -> Prop :=
| reach_init : reachable initBrowser
| reach_step (b : Browser) (e : Event) : reachable b -> reachable (step b e).

Definition run (b : Browser) (es : list Event) : Browser := fold_left step es b.

End WithParsers.

Definition isPopupEvent (e : Event) : bool :=
  match e with
  | PopupOpen | PopupAdd _ _ _ | PopupChooseFile _ | PopupImport | PopupSearch _ | PopupCopy _ _ => true
  | _ => false
  end.

(** Both status elements satisfy [Status.boxInv] at the current time. *)
Definition statusInv (b : Browser) : Prop :=
  boxInv (optionsStatus b) (clock b) /\ boxInv (popupStatus b) (clock b).

(** ** Inputs of the concrete runs *)

(** A three-entry text file for the delete scenario. *)
Definition threeEntries : FileInput :=
  mkFile "three.txt"
    (Some (linesText ["Website name: a"; "Login: u"; "Password: 1"; "---";
                      "Website name: b"; "Login: u"; "Password: 2"; "---";
                      "Website name: c"; "Login: u"; "Password: 3"])).

(** A backup whose one record has markup in its site. *)
Definition markupFile : FileInput :=
  mkFile "evil.json"
    (Some (JsonText.stringify
             (JArray [JObject [("site", JString "<img src=x onerror=alert(1)>"%string);
                               ("user", JString "u"%string); ("pass", JString "p"%string)]]))).

(** ** Lemmas *)

Local Open Scope list_scope.

(** Computing the parts of a state built by the setters. *)
Ltac browser_simpl :=
  cbn [syncPasswords localPasswords optionsShown allPasswords currentSearch optionsFile
       optionsImportEnabled popupFile popupImportEnabled optionsStatus popupStatus clipboard
       downloads clock setSync setShown setLocal setAll setSearch setOptionsFile setPopupFile
       setOptionsStatus setPopupStatus setClipboard setDownloads setClock
       renderPasswords popupRenderPasswords optionsShowStatus popupShowStatus] in *.

Lemma splice1_split (l : Store) (i : nat) (x : PasswordRecord) :
  nth_error l i = Some x -> l = firstn i l ++ x :: skipn (S i) l /\ splice1 l i = firstn i l ++ skipn (S i) l.
Proof.
  intros H. split; [|reflexivity].
  rewrite <- (firstn_skipn i l) at 1. f_equal.
  revert l H; induction i as [|i IH]; intros [|y l] H; simpl in *; try discriminate.
  - now injection H as ->.
  - now apply IH.
Qed.

Lemma splice1_out (l : Store) (i : nat) : length l <= i -> splice1 l i = l.
Proof.
  intros H. unfold splice1. rewrite firstn_all2, skipn_all2 by lia. apply app_nil_r.
Qed.

Lemma splice1_invariant (l : Store) (i : nat) :
  storeInvariant l -> storeInvariant (splice1 l i).
Proof.
  intros [Hwf Hu]. destruct (nth_error l i) as [x|] eqn:E.
  - destruct (splice1_split l i x E) as [Hl ->]. rewrite Hl in Hwf, Hu. split.
    + apply Forall_app in Hwf as [H1 H2]. inversion H2; subst. now apply Forall_app.
    + unfold uniqueIds in *. rewrite map_app in *. simpl in Hu. now apply NoDup_remove_1 in Hu.
  - apply nth_error_None in E. now rewrite splice1_out.
Qed.

Lemma storeInvariant_nil : storeInvariant [].
Proof. split; constructor. Qed.

Lemma promptRecord_nonempty (s u p : option string) (r : PasswordRecord) :
  promptRecord s u p = Some r -> nonempty_record r = true.
Proof.
  unfold promptRecord. destruct s, u, p; try discriminate.
  destruct (_ && _ && _) eqn:E; intros [= <-]. exact E.
Qed.

Section BrowserLemmas.
Context {U : UrlParser} {C : JsonCodec}.

Lemma import_nonempty (file : option FileInput) (stored : Store) :
  Forall (fun r => nonempty_record r = true) stored ->
  Forall (fun r => nonempty_record r = true) (fst (importPasswords file stored)).
Proof.
  unfold importPasswords. intros Hs.
  destruct file as [f|]; [|exact Hs]. destruct (fileContent f) as [c|]; [|exact Hs].
  destruct (readImport (fileName f) c) as [data|e] eqn:Hr; [|exact Hs].
  apply readImport_wf in Hr as [Hw _].
  rewrite mergePasswords_unfold. cbn [existingPasswords fst]. apply Forall_app. split; auto.
  eapply incl_Forall; [apply dedupAgainst_incl|]. eapply Forall_impl; [|exact Hw].
  intros r. apply wf_record_nonempty.
Qed.

(** What an import handler writes, from its outcome. *)
Lemma importPasswords_written (P : Store -> Prop) (file : option FileInput) (stored s' : Store)
    (a d : nat) :
  P (fst (importPasswords file stored)) ->
  importPasswords file stored = (s', StatusImported a d) -> P s'.
Proof. intros H E. now rewrite E in H. Qed.

Lemma importInto_invariant (file : option FileInput) (stored s' : Store) :
  storeInvariant stored -> importInto file stored = Some s' -> storeInvariant s'.
Proof.
  unfold importInto. intros Hs. pose proof (import_preserves_invariant file stored Hs) as H.
  destruct (importPasswords file stored) as [s'' []]; intros; try discriminate.
  injection H0 as <-. exact H.
Qed.

(** The invariants of the two areas hold in every reachable state, by
    induction on [reachable]. *)
Lemma reachable_storage_invariant (b : Browser) :
  reachable b ->
  storeInvariant (getPasswords (syncPasswords b)) /\
  Forall (fun r => nonempty_record r = true) (getPasswords (localPasswords b)).
Proof.
  induction 1 as [|b e Hr [IHs IHl]]; [split; [apply storeInvariant_nil|constructor]|].
  destruct e; cbn [step].
  - unfold optionsOpen; browser_simpl; auto.
  - unfold optionsChooseFile; browser_simpl; auto.
  - unfold optionsImport. destruct (optionsImportEnabled b); [|auto].
    destruct (importPasswords _ _) as [s' st] eqn:E.
    destruct st; browser_simpl; auto. split; [|exact IHl].
    eapply importPasswords_written; [apply import_preserves_invariant, IHs|exact E].
  - unfold optionsCopy. destruct (nth_error _ _); [destruct written|]; browser_simpl; auto.
  - unfold optionsDelete. destruct (nth_error _ _); [destruct confirmed|]; [|auto|auto].
    unfold deletePassword. browser_simpl. split; [apply splice1_invariant, IHs|exact IHl].
  - unfold optionsExport. destruct (exportPasswords _ _); browser_simpl; auto.
  - unfold otherImport. destruct (importInto file _) eqn:E; browser_simpl; [|auto].
    split; [|exact IHl]. eapply importInto_invariant; eauto.
  - unfold otherDelete. browser_simpl. split; [apply splice1_invariant, IHs|exact IHl].
  - unfold popupOpen; browser_simpl; auto.
  - unfold popupAdd. destruct (promptRecord site user pass) as [r|] eqn:E; browser_simpl; [|auto].
    split; [exact IHs|]. apply Forall_app. split; auto.
    constructor; [|constructor]. eapply promptRecord_nonempty; eauto.
  - unfold popupChooseFile; browser_simpl; auto.
  - unfold popupImport. destruct (popupImportEnabled b); [|auto].
    destruct (importPasswords _ _) as [s' st] eqn:E.
    destruct st; browser_simpl; auto. split; [exact IHs|].
    eapply importPasswords_written; [apply import_nonempty, IHl|exact E].
  - unfold popupSearch; browser_simpl; auto.
  - unfold popupCopyClick. destruct (popupCopy _ _); [destruct written|]; browser_simpl; auto.
  - unfold wait; browser_simpl; auto.
Qed.

Ltac status_inv :=
  browser_simpl; unfold statusInv in *; browser_simpl;
  repeat match goal with H : _ /\ _ |- _ => destruct H end;
  split; repeat first [assumption | apply boxInv_show | apply boxInv_clearText].

(** Every reachable state satisfies [statusInv]. *)
Lemma reachable_status_invariant (b : Browser) : reachable b -> statusInv b.
Proof.
  induction 1 as [|b e Hr IH]; [split; apply boxInv_empty|].
  destruct e; cbn [step].
  - unfold optionsOpen; status_inv; apply boxInv_empty.
  - unfold optionsChooseFile; status_inv.
  - unfold optionsImport. destruct (optionsImportEnabled b); [|exact IH].
    destruct (importPasswords _ _) as [s' st]. destruct st; status_inv.
  - unfold optionsCopy. destruct (nth_error _ _); [destruct written|]; status_inv.
  - unfold optionsDelete. destruct (nth_error _ _); [destruct confirmed|]; try exact IH.
    unfold deletePassword; status_inv.
  - unfold optionsExport. destruct (exportPasswords _ _); status_inv.
  - unfold otherImport. destruct (importInto file _); status_inv.
  - unfold otherDelete; status_inv.
  - unfold popupOpen; status_inv; apply boxInv_empty.
  - unfold popupAdd. destruct (promptRecord site user pass); status_inv.
  - unfold popupChooseFile; status_inv.
  - unfold popupImport. destruct (popupImportEnabled b); [|exact IH].
    destruct (importPasswords _ _) as [s' st]. destruct st; status_inv.
  - unfold popupSearch; status_inv.
  - unfold popupCopyClick. destruct (popupCopy _ _); [destruct written|]; status_inv.
  - unfold wait. destruct IH as [Ho Hp]. browser_simpl.
    split; eapply (boxInv_advance _ _ _ (clock b)); try eassumption; browser_simpl; lia.
Qed.

End BrowserLemmas.

Lemma reachable_run {U : UrlParser} {C : JsonCodec} (b : Browser) (es : list Event) :
  reachable b -> reachable (run b es).
Proof.
  unfold run. revert b; induction es as [|e es IH]; intros b H; cbn [fold_left]; auto.
  apply IH, reach_step, H.
Qed.

(** ** Properties of the two surfaces

    The theorems about the browser model above: what every
    reachable state satisfies, how the handlers compose, and the
    scenarios behind the findings.

    - The sync area keeps the storage invariant in every reachable
      state, the local area only non-empty fields ([reachable_invariant]).
    - A backup made on the options page and imported through the popup
      into an empty local area restores the sync list
      ([reachable_backup_restore]).
    - Five seconds without events empty both status elements, in every
      reachable state ([reachable_status_cleared]).
    - Popup handlers never touch the options page's storage and list, and
      the reverse ([step_partitions]).
    - A successful import empties the file input and disables the
      button; a failed one leaves the storage and the list as they were
      and shows an error ([optionsImport_disables], [optionsImport_error]).
    - The options copy button copies the password of the row it is
      drawn in ([optionsCopy_shown_row]), while the delete button removes
      the position of the row in the list read at the click
      ([optionsDelete_stale_index]), another record after a concurrent
      change ([optionsDelete_stale_index_run]).
    - The popup's add path pushes the prompt answers as they are
      ([popupAdd_pushes_answers]), so the local area can hold untrimmed
      and duplicate records ([popupAdd_duplicates_untrimmed]); its filter
      and copy button ([passwordsFiltered_spec], [popupCopy_filtered_row]).
    - Concrete runs show the findings on the composed program: a site
      with markup becomes an element of the popup and stays text on the
      options page ([popup_markup_injection]). *)

Local Open Scope string_scope.

Ltac reach_run := apply reachable_run, reach_init.

Ltac destruct_matches :=
  repeat match goal with |- context [match ?x with _ => _ end] => destruct x end.

(** ** Invariants and compositions *)

Section AppProperties.
Context {U : UrlParser} {C : JsonCodec}.

(** C3: In every reachable state, the sync area (written only by imports
    and deletes) satisfies the storage invariant: non-empty trimmed
    fields and no two records with the same identity; and every record of
    the local area has non-empty fields. *)
Theorem reachable_invariant (b : Browser) :
  reachable b ->
  storeInvariant (getPasswords (syncPasswords b)) /\
  Forall (fun r => nonempty_record r = true) (getPasswords (localPasswords b)).
Proof. apply reachable_storage_invariant. Qed.

(** C5: A backup restores the options page's list: in every reachable
    state with records in the sync area and none in the local area, the
    export offers one file, and choosing that file in the popup and
    importing it fills the local area with exactly the sync list, each
    record counted as added. *)
Theorem reachable_backup_restore (b : Browser) (now : Date) :
  reachable b -> getPasswords (syncPasswords b) <> [] -> getPasswords (localPasswords b) = [] ->
  let s := getPasswords (syncPasswords b) in
  let name := backupFileName now in
  let text := json_stringify (storeToJson s) in
  let b1 := step b (OptionsExport now) in
  let b2 := run b1 [PopupChooseFile (Some (mkFile name (Some text))); PopupImport] in
  downloads b1 = (downloads b ++ [(name, text)])%list /\
  getPasswords (localPasswords b2) = s /\ allPasswords b2 = s /\
  boxText (popupStatus b2) = importMessage (length s) 0.
Proof.
  intros Hr Hne Hloc. cbv zeta. destruct (reachable_storage_invariant b Hr) as [Hs _].
  assert (He : exportPasswords now (getPasswords (syncPasswords b))
               = ExportFile (backupFileName now) (json_stringify (storeToJson (getPasswords (syncPasswords b))))
                            (length (getPasswords (syncPasswords b)))).
  { unfold exportPasswords. destruct (getPasswords _); [congruence|reflexivity]. }
  cbn [run fold_left step]. unfold optionsExport. rewrite He. browser_simpl. split; [reflexivity|].
  unfold popupChooseFile, popupImport. browser_simpl. cbn [isSome].
  rewrite Hloc, import_exported by (auto; now apply storeInvariantb_spec). browser_simpl.
  repeat split.
Qed.


(** C10: The status messages go away: in every reachable state, five
    seconds without any other event leave both status elements empty. *)
Theorem reachable_status_cleared (b : Browser) :
  reachable b ->
  boxText (optionsStatus (step b (Wait statusDelay))) = EmptyString /\
  boxText (popupStatus (step b (Wait statusDelay))) = EmptyString.
Proof.
  intros Hr. destruct (reachable_status_invariant b Hr) as [Ho Hp].
  cbn [step]. unfold wait. browser_simpl. split; eapply boxInv_cleared; eauto.
Qed.

(** C28: The two storage partitions are independent: a popup handler
    never changes the sync area nor the options page's rendered list,
    and an options handler (or another options page) never changes the
    local area nor the popup's list. *)
Theorem step_partitions (b : Browser) (e : Event) :
  if isPopupEvent e
  then syncPasswords (step b e) = syncPasswords b /\ optionsShown (step b e) = optionsShown b
  else localPasswords (step b e) = localPasswords b /\ allPasswords (step b e) = allPasswords b.
Proof.
  destruct e; cbn [isPopupEvent step];
    unfold optionsOpen, popupOpen, optionsChooseFile, optionsImport, optionsCopy, optionsDelete,
      deletePassword, optionsExport, otherImport, otherDelete, popupRenderPasswords, popupAdd,
      popupChooseFile, popupImport, popupSearch, popupCopyClick, wait;
    destruct_matches; browser_simpl; split; reflexivity.
Qed.

(** C17: A successful import writes the merged list, renders it, empties
    the file input and disables the button, so a second click changes
    nothing until another file is chosen. *)
Theorem optionsImport_disables (b : Browser) (s' : Store) (a d : nat) :
  optionsImportEnabled b = true ->
  importPasswords (optionsFile b) (getPasswords (syncPasswords b)) = (s', StatusImported a d) ->
  let b' := step b OptionsImport in
  syncPasswords b' = Some s' /\ optionsShown b' = s' /\ optionsFile b' = None /\
  step b' OptionsImport = b'.
Proof.
  intros He Hi. cbv zeta. cbn [step]. remember (optionsImport b) as b' eqn:Eb.
  unfold optionsImport in Eb. rewrite He, Hi in Eb. subst b'. browser_simpl. repeat split.
Qed.

(** C16: A failed import (no file, read error, unsupported format, parse
    error, no valid record) leaves the sync area and the rendered list as
    they were, keeps the chosen file, and shows its message with the
    error class. *)
Theorem optionsImport_error (b : Browser) :
  optionsImportEnabled b = true ->
  (forall a d, snd (importPasswords (optionsFile b) (getPasswords (syncPasswords b))) <> StatusImported a d) ->
  let b' := step b OptionsImport in
  syncPasswords b' = syncPasswords b /\ optionsShown b' = optionsShown b /\
  optionsFile b' = optionsFile b /\ boxLook (optionsStatus b') = "status error"%string /\
  boxText (optionsStatus b')
  = fst (importStatusMessage (fileText (optionsFile b))
                             (snd (importPasswords (optionsFile b) (getPasswords (syncPasswords b))))).
Proof.
  intros He Hn. cbv zeta. cbn [step]. unfold optionsImport. rewrite He.
  destruct (importPasswords _ _) as [s' st]. cbn [snd] in *.
  destruct st; [| | |exfalso; eapply Hn; reflexivity]; browser_simpl; repeat split.
Qed.

(** C18: What the user sees is what the copy button copies: the copy
    button of options row [i] sits in the markup of the record [i] of the
    rendered list, and clicking it puts that record's password on the
    clipboard. *)
Theorem optionsCopy_shown_row (b : Browser) (i : nat) (r : PasswordRecord) :
  nth_error (optionsShown b) i = Some r ->
  nth_error (optionsListHtml (optionsShown b)) i = Some (optionsRowHtml r i) /\
  clipboard (step b (OptionsCopy i true)) = Some (pass r).
Proof.
  intros H. split; [now apply optionsListHtml_nth|].
  cbn [step]. unfold optionsCopy. now rewrite H.
Qed.

(** C30: A confirmed delete of row [i] removes position [i] of the sync
    list read at the click, not the record the row shows: the copy
    button of the same row copies the rendered record [r], while the
    delete splices index [i] of the current list and renders the result,
    so after a change by another page it removes another record. *)
Theorem optionsDelete_stale_index (b : Browser) (i : nat) (r : PasswordRecord) :
  nth_error (optionsShown b) i = Some r ->
  let s := getPasswords (syncPasswords b) in
  let b' := step b (OptionsDelete i true) in
  syncPasswords b' = Some (splice1 s i) /\ optionsShown b' = splice1 s i /\
  boxText (optionsStatus b') = deleteMessage /\
  clipboard (step b (OptionsCopy i true)) = Some (pass r).
Proof.
  intros H. cbv zeta. cbn [step]. unfold optionsDelete, optionsCopy. rewrite H.
  unfold deletePassword. browser_simpl. repeat split.
Qed.

(** C33: The popup's add path pushes the three prompt answers as they are
    onto the local area: whatever the area holds, three non-empty answers
    are appended as one record, untrimmed and without the duplicate check
    the imports make, and the popup renders the new list. *)
Theorem popupAdd_pushes_answers (b : Browser) (s u p : string) :
  s <> "" -> u <> "" -> p <> "" ->
  let b' := step b (PopupAdd (Some s) (Some u) (Some p)) in
  localPasswords b' = Some (getPasswords (localPasswords b) ++ [mkRecord s u p])%list /\
  allPasswords b' = (getPasswords (localPasswords b) ++ [mkRecord s u p])%list /\
  syncPasswords b' = syncPasswords b.
Proof.
  intros Hs Hu Hp. cbv zeta. cbn [step]. unfold popupAdd, promptRecord.
  rewrite (proj2 (JS.truthy_iff s) Hs), (proj2 (JS.truthy_iff u) Hu), (proj2 (JS.truthy_iff p) Hp).
  cbn [andb]. browser_simpl. repeat split.
Qed.

(** C37: The popup's copy button of row [i] sits in the markup of record
    [i] of the filtered list, and clicking it copies that record's
    password: the index is one of the filtered list, not of the stored
    one. *)
Theorem popupCopy_filtered_row (b : Browser) (i : nat) (r : PasswordRecord) :
  nth_error (passwordsFiltered (allPasswords b) (currentSearch b)) i = Some r ->
  nth_error (popupListHtml (passwordsFiltered (allPasswords b) (currentSearch b))) i
  = Some (popupRowHtml r i) /\
  clipboard (step b (PopupCopy i true)) = Some (pass r).
Proof.
  intros H. split; [now apply popupListHtml_nth|].
  cbn [step]. unfold popupCopyClick, popupCopy. now rewrite H.
Qed.

End AppProperties.

(** C29: The popup shows exactly the records of [allPasswords] whose
    lower-cased site or user contains the trimmed, lower-cased search
    text (all records when it is blank), in their stored order. *)
Theorem passwordsFiltered_spec (all : Store) (q : string) :
  let search := JS.toLowerCase (JS.trim q) in
  passwordsFiltered all q =
  filter (fun item => negb (JS.truthy search)
                      || JS.includes (JS.toLowerCase (site item)) search
                      || JS.includes (JS.toLowerCase (user item)) search) all.
Proof.
  cbv zeta. unfold passwordsFiltered. destruct (JS.truthy _); simpl.
  - reflexivity.
  - induction all as [|r all IH]; simpl; [reflexivity|]. now rewrite <- IH.
Qed.

(** ** Concrete runs *)

(** The popup's add path admits what imports never do: a site with
    surrounding blanks, and a second record with the identity of the
    first, so the local area can hold duplicate and untrimmed records. *)
Example popupAdd_duplicates_untrimmed :
  let b := run initBrowser [PopupAdd (Some " Bank ") (Some "alice") (Some "pw1");
                            PopupAdd (Some " BANK ") (Some "ALICE") (Some "pw2")] in
  reachable b /\
  getPasswords (localPasswords b) = [mkRecord " Bank " "alice" "pw1"; mkRecord " BANK " "ALICE" "pw2"] /\
  wf_record (mkRecord " Bank " "alice" "pw1") = false /\
  uniqueIdsb (getPasswords (localPasswords b)) = false.
Proof. split; [reach_run|]. vm_compute. repeat split. Qed.

(** The popup's copy button indexes the filtered list, not the
    stored one: with two records stored and the search text [MAIL ],
    row 0 shows the mail record and copying it yields its password. *)
Example popupCopy_filtered_run :
  let b := run initBrowser [PopupAdd (Some "bank") (Some "alice") (Some "pw1");
                            PopupAdd (Some "mail.com") (Some "bob") (Some "pw2");
                            PopupSearch "MAIL "; PopupCopy 0 true] in
  passwordsFiltered (allPasswords b) (currentSearch b) = [mkRecord "mail.com" "bob" "pw2"] /\
  clipboard b = Some "pw2" /\ popupCopy b 1 = None.
Proof. vm_compute. repeat split. Qed.

(** The delete button keeps the index of the list rendered earlier
    and [deletePassword] applies it to the list it reads now: after
    another page removed the first record, row 1 still shows site [b]
    and its copy button copies [b]'s password, but confirming its
    deletion removes the record of site [c]. *)
Example optionsDelete_stale_index_run :
  let b1 := run initBrowser [OptionsChooseFile (Some threeEntries); OptionsImport; OtherDelete 0] in
  let b2 := step b1 (OptionsDelete 1 true) in
  reachable b2 /\
  nth_error (optionsShown b1) 1 = Some (mkRecord "b" "u" "2") /\
  clipboard (step b1 (OptionsCopy 1 true)) = Some "2" /\
  getPasswords (syncPasswords b1) = [mkRecord "b" "u" "2"; mkRecord "c" "u" "3"] /\
  getPasswords (syncPasswords b2) = [mkRecord "b" "u" "2"] /\
  boxText (optionsStatus b2) = deleteMessage.
Proof. split; [apply reach_step; reach_run|]. vm_compute. repeat split. Qed.

(** The popup inserts stored text into its HTML as markup: after the
    same backup, whose site is [<img src=x onerror=alert(1)>], is imported
    on both surfaces, the popup's row contains an [img] element while the
    options row shows the text escaped. *)
Example popup_markup_injection :
  let b := run initBrowser [PopupChooseFile (Some markupFile); PopupImport;
                            OptionsChooseFile (Some markupFile); OptionsImport] in
  let r := mkRecord "<img src=x onerror=alert(1)>" "u" "p" in
  reachable b /\
  popupListHtml (passwordsFiltered (allPasswords b) (currentSearch b)) = [popupRowHtml r 0] /\
  JS.includes (popupRowHtml r 0) "<img" = true /\
  optionsListHtml (optionsShown b) = [optionsRowHtml r 0] /\
  JS.includes (optionsRowHtml r 0) "<img" = false.
Proof. split; [reach_run|]. vm_compute. repeat split. Qed.

(** ** Witnesses *)

Lemma reachable_invariant_witness :
  let b := run initBrowser [PopupAdd (Some " Bank ") (Some "alice") (Some "pw1");
                            OptionsChooseFile (Some threeEntries); OptionsImport; OtherDelete 0] in
  storeInvariant (getPasswords (syncPasswords b)) /\
  Forall (fun r => nonempty_record r = true) (getPasswords (localPasswords b)).
Proof. apply reachable_invariant. reach_run. Defined.

Lemma reachable_backup_restore_witness :
  let b := run initBrowser [OptionsChooseFile (Some threeEntries); OptionsImport; OtherDelete 0] in
  let now := mkDate 2026 11 9 12 0 0 0 in
  let s := getPasswords (syncPasswords b) in
  let name := backupFileName now in
  let text := json_stringify (storeToJson s) in
  let b1 := step b (OptionsExport now) in
  let b2 := run b1 [PopupChooseFile (Some (mkFile name (Some text))); PopupImport] in
  downloads b1 = (downloads b ++ [(name, text)])%list /\
  getPasswords (localPasswords b2) = s /\ allPasswords b2 = s /\
  boxText (popupStatus b2) = importMessage (length s) 0.
Proof.
  apply reachable_backup_restore; [reach_run|vm_compute; discriminate|vm_compute; reflexivity].
Defined.

Lemma reachable_status_cleared_witness :
  let b := run initBrowser [OptionsImport; PopupAdd (Some "s") (Some "u") (Some "p")] in
  boxText (optionsStatus (step b (Wait statusDelay))) = EmptyString /\
  boxText (popupStatus (step b (Wait statusDelay))) = EmptyString.
Proof. apply reachable_status_cleared. reach_run. Defined.

Lemma optionsImport_disables_witness :
  let b := run initBrowser [OptionsChooseFile (Some threeEntries)] in
  let b' := step b OptionsImport in
  syncPasswords b' = Some [mkRecord "a" "u" "1"; mkRecord "b" "u" "2"; mkRecord "c" "u" "3"] /\
  optionsShown b' = [mkRecord "a" "u" "1"; mkRecord "b" "u" "2"; mkRecord "c" "u" "3"] /\
  optionsFile b' = None /\ step b' OptionsImport = b'.
Proof. apply (optionsImport_disables _ _ 3 0); vm_compute; reflexivity. Defined.

Lemma optionsImport_error_witness :
  let b := run initBrowser [OptionsChooseFile (Some (mkFile "notes.csv" (Some "hello")))] in
  let b' := step b OptionsImport in
  syncPasswords b' = syncPasswords b /\ optionsShown b' = optionsShown b /\
  optionsFile b' = optionsFile b /\ boxLook (optionsStatus b') = "status error" /\
  boxText (optionsStatus b')
  = fst (importStatusMessage (fileText (optionsFile b))
                             (snd (importPasswords (optionsFile b) (getPasswords (syncPasswords b))))).
Proof. apply optionsImport_error; [reflexivity|]. vm_compute. intros a d H. discriminate H. Defined.

Lemma optionsCopy_shown_row_witness :
  let b := run initBrowser [OptionsChooseFile (Some threeEntries); OptionsImport; OtherDelete 0] in
  nth_error (optionsListHtml (optionsShown b)) 1 = Some (optionsRowHtml (mkRecord "b" "u" "2") 1) /\
  clipboard (step b (OptionsCopy 1 true)) = Some (pass (mkRecord "b" "u" "2")).
Proof. apply optionsCopy_shown_row. vm_compute. reflexivity. Defined.

Lemma optionsDelete_stale_index_witness :
  let b := run initBrowser [OptionsChooseFile (Some threeEntries); OptionsImport; OtherDelete 0] in
  let s := getPasswords (syncPasswords b) in
  let b' := step b (OptionsDelete 1 true) in
  syncPasswords b' = Some (splice1 s 1) /\ optionsShown b' = splice1 s 1 /\
  boxText (optionsStatus b') = deleteMessage /\
  clipboard (step b (OptionsCopy 1 true)) = Some (pass (mkRecord "b" "u" "2")).
Proof. apply optionsDelete_stale_index. vm_compute. reflexivity. Defined.

Lemma popupAdd_pushes_answers_witness :
  let b' := step initBrowser (PopupAdd (Some " Bank ") (Some "alice") (Some "pw1")) in
  localPasswords b' = Some (getPasswords (localPasswords initBrowser) ++ [mkRecord " Bank " "alice" "pw1"])%list /\
  allPasswords b' = (getPasswords (localPasswords initBrowser) ++ [mkRecord " Bank " "alice" "pw1"])%list /\
  syncPasswords b' = syncPasswords initBrowser.
Proof. apply popupAdd_pushes_answers; discriminate. Defined.

Lemma popupCopy_filtered_row_witness :
  let b := run initBrowser [PopupAdd (Some "bank") (Some "alice") (Some "pw1");
                            PopupAdd (Some "mail.com") (Some "bob") (Some "pw2"); PopupSearch "MAIL "] in
  nth_error (popupListHtml (passwordsFiltered (allPasswords b) (currentSearch b))) 0
  = Some (popupRowHtml (mkRecord "mail.com" "bob" "pw2") 0) /\
  clipboard (step b (PopupCopy 0 true)) = Some (pass (mkRecord "mail.com" "bob" "pw2")).
Proof. apply popupCopy_filtered_row. vm_compute. reflexivity. Defined.

